(** * TranslateErrorCode: the resolution engine of [TranslateErrorCode.cpp]

    A shallow embedding of the code tables, of the numeric header and of the
    search command of the main dialog, with the properties of the
    specification stated over it.

    Wide strings are lists of UTF-16 code units, the [int] of the program is
    an integer in [-2^31, 2^31), the three [std::map<int, std::wstring>]
    globals are finite maps, and the dialog procedure is a state transformer
    over the globals, the two controls it touches, the registry value and a
    record of the calls it makes. *)

From stdpp Require Import gmap strings list.
From Stdlib Require Import ZArith Lia Ascii.
Local Open Scope Z_scope.

(** ** Wide strings *)

Abbreviation wchar_t := Z (only parsing).
Abbreviation wstring := (list Z).

(** [L "..."] is the wide literal of the source, with its escapes [\r], [\n]
    and [\t] read the way the compiler reads them. *)
Fixpoint L (s : string) : wstring :=
  match s with
  | EmptyString => []
  | String "\" (String "r" s') => 13 :: L s'
  | String "\" (String "n" s') => 10 :: L s'
  | String "\" (String "t" s') => 9 :: L s'
  | String c s' => Z.of_N (N_of_ascii c) :: L s'
  end.

(** [wcschr(set, ch) != NULL] for a character that is not the terminator. *)
Definition wcschr (set : wstring) (ch : wchar_t) : bool :=
  existsb (Z.eqb ch) set.

(** ** The 32-bit integers of the program *)

(** Narrowing of an integer to [int]: the value modulo [2^32] in the signed
    range. *)
Definition int32 (z : Z) : Z := (z + 2 ^ 31) mod 2 ^ 32 - 2 ^ 31.

(** The cast [(DWORD)iValue]. *)
Definition DWORD (z : Z) : Z := z mod 2 ^ 32.

Definition is_int (z : Z) : Prop := - 2 ^ 31 <= z < 2 ^ 31.

(** ** Rendering of numbers *)

Definition digit_char (d : Z) : wchar_t :=
  if d <? 10 then 48 + d else 55 + d.

(** Decimal digits of a non-negative number, most significant first; [fuel]
    bounds the number of digits. *)
Fixpoint decimal (fuel : nat) (n : Z) (acc : wstring) : wstring :=
  match fuel with
  | O => acc
  | S fuel' =>
      let acc' := digit_char (n mod 10) :: acc in
      if n / 10 =? 0 then acc' else decimal fuel' (n / 10) acc'
  end.

(** [std::to_wstring] at [unsigned long]: at most ten digits. *)
Definition to_wstring_unsigned (n : Z) : wstring := decimal 10 n [].

(** [std::to_wstring] at [int]. *)
Definition to_wstring_int (n : Z) : wstring :=
  if n <? 0 then 45 :: to_wstring_unsigned (- n) else to_wstring_unsigned n.

(** The [n] low hexadecimal digits of [v], upper case, most significant
    first. *)
Fixpoint hex_digits (n : nat) (v : Z) (acc : wstring) : wstring :=
  match n with
  | O => acc
  | S n' => hex_digits n' (v / 16) (digit_char (v mod 16) :: acc)
  end.

(** [_snwprintf_s(szHex, 11, _TRUNCATE, L"0x%08X", iValue)]: the conversion
    [%08X] reads its argument as unsigned and pads with zeros to eight
    digits; a 32-bit value never has more, so the eleven-unit buffer is never
    truncated. *)
Definition snwprintf_0x08X (iValue : Z) : wstring :=
  L "0x" ++ hex_digits 8 (DWORD iValue) [].

(** Reading numbers back: used to state what a rendering denotes. *)
Definition dec_digit (c : wchar_t) : option Z :=
  if (48 <=? c) && (c <=? 57) then Some (c - 48) else None.

Definition hex_digit (c : wchar_t) : option Z :=
  if (48 <=? c) && (c <=? 57) then Some (c - 48)
  else if (65 <=? c) && (c <=? 70) then Some (c - 55)
  else if (97 <=? c) && (c <=? 102) then Some (c - 87)
  else None.

Fixpoint read_digits (base : Z) (digit : wchar_t -> option Z)
    (s : wstring) (acc : Z) : option Z :=
  match s with
  | [] => Some acc
  | c :: s' =>
      match digit c with
      | Some d => read_digits base digit s' (acc * base + d)
      | None => None
      end
  end.

Definition dec_value (s : wstring) : option Z := read_digits 10 dec_digit s 0.
Definition hex_value (s : wstring) : option Z := read_digits 16 hex_digit s 0.

(** ** The code tables *)

(** The assignments of [setBugCheckCodes] (lines 103-479), in source order:
    [g_mBugCheck[key] = text]. *)
Definition BugCheck_assignments : list (Z * wstring) :=
  [ (0x00000001, L "APC_INDEX_MISMATCH");
    (0x00000002, L "DEVICE_QUEUE_NOT_BUSY");
    (0x00000003, L "INVALID_AFFINITY_SET");
    (0x00000004, L "INVALID_DATA_ACCESS_TRAP");
    (0x00000005, L "INVALID_PROCESS_ATTACH_ATTEMPT");
    (0x00000006, L "INVALID_PROCESS_DETACH_ATTEMPT");
    (0x00000007, L "INVALID_SOFTWARE_INTERRUPT");
    (0x00000008, L "IRQL_NOT_DISPATCH_LEVEL");
    (0x00000009, L "IRQL_NOT_GREATER_OR_EQUAL");
    (0x0000000A, L "IRQL_NOT_LESS_OR_EQUAL");
    (0x0000000B, L "NO_EXCEPTION_HANDLING_SUPPORT");
    (0x0000000C, L "MAXIMUM_WAIT_OBJECTS_EXCEEDED");
    (0x0000000D, L "MUTEX_LEVEL_NUMBER_VIOLATION");
    (0x0000000E, L "NO_USER_MODE_CONTEXT");
    (0x0000000F, L "SPIN_LOCK_ALREADY_OWNED");
    (0x00000010, L "SPIN_LOCK_NOT_OWNED");
    (0x00000011, L "THREAD_NOT_MUTEX_OWNER");
    (0x00000012, L "TRAP_CAUSE_UNKNOWN");
    (0x00000013, L "EMPTY_THREAD_REAPER_LIST");
    (0x00000014, L "CREATE_DELETE_LOCK_NOT_LOCKED");
    (0x00000015, L "LAST_CHANCE_CALLED_FROM_KMODE");
    (0x00000016, L "CID_HANDLE_CREATION");
    (0x00000017, L "CID_HANDLE_DELETION");
    (0x00000018, L "REFERENCE_BY_POINTER");
    (0x00000019, L "BAD_POOL_HEADER");
    (0x0000001A, L "MEMORY_MANAGEMENT");
    (0x0000001B, L "PFN_SHARE_COUNT");
    (0x0000001C, L "PFN_REFERENCE_COUNT");
    (0x0000001D, L "NO_SPIN_LOCK_AVAILABLE");
    (0x0000001E, L "KMODE_EXCEPTION_NOT_HANDLED");
    (0x0000001F, L "SHARED_RESOURCE_CONV_ERROR");
    (0x00000020, L "KERNEL_APC_PENDING_DURING_EXIT");
    (0x00000021, L "QUOTA_UNDERFLOW");
    (0x00000022, L "FILE_SYSTEM");
    (0x00000023, L "FAT_FILE_SYSTEM");
    (0x00000024, L "NTFS_FILE_SYSTEM");
    (0x00000025, L "NPFS_FILE_SYSTEM");
    (0x00000026, L "CDFS_FILE_SYSTEM");
    (0x00000027, L "RDR_FILE_SYSTEM");
    (0x00000028, L "CORRUPT_ACCESS_TOKEN");
    (0x00000029, L "SECURITY_SYSTEM");
    (0x0000002A, L "INCONSISTENT_IRP");
    (0x0000002B, L "PANIC_STACK_SWITCH");
    (0x0000002C, L "PORT_DRIVER_INTERNAL");
    (0x0000002D, L "SCSI_DISK_DRIVER_INTERNAL");
    (0x0000002E, L "DATA_BUS_ERROR");
    (0x0000002F, L "INSTRUCTION_BUS_ERROR");
    (0x00000030, L "SET_OF_INVALID_CONTEXT");
    (0x00000031, L "PHASE0_INITIALIZATION_FAILED");
    (0x00000032, L "PHASE1_INITIALIZATION_FAILED");
    (0x00000033, L "UNEXPECTED_INITIALIZATION_CALL");
    (0x00000034, L "CACHE_MANAGER");
    (0x00000035, L "NO_MORE_IRP_STACK_LOCATIONS");
    (0x00000036, L "DEVICE_REFERENCE_COUNT_NOT_ZERO");
    (0x00000037, L "FLOPPY_INTERNAL_ERROR");
    (0x00000038, L "SERIAL_DRIVER_INTERNAL");
    (0x00000039, L "SYSTEM_EXIT_OWNED_MUTEX");
    (0x0000003A, L "SYSTEM_UNWIND_PREVIOUS_USER");
    (0x0000003B, L "SYSTEM_SERVICE_EXCEPTION");
    (0x0000003C, L "INTERRUPT_UNWIND_ATTEMPTED");
    (0x0000003D, L "INTERRUPT_EXCEPTION_NOT_HANDLED");
    (0x0000003E, L "MULTIPROCESSOR_CONFIGURATION_NOT_SUPPORTED");
    (0x0000003F, L "NO_MORE_SYSTEM_PTES");
    (0x00000040, L "TARGET_MDL_TOO_SMALL");
    (0x00000041, L "MUST_SUCCEED_POOL_EMPTY");
    (0x00000042, L "ATDISK_DRIVER_INTERNAL");
    (0x00000043, L "NO_SUCH_PARTITION");
    (0x00000044, L "MULTIPLE_IRP_COMPLETE_REQUESTS");
    (0x00000045, L "INSUFFICIENT_SYSTEM_MAP_REGS");
    (0x00000046, L "DEREF_UNKNOWN_LOGON_SESSION");
    (0x00000047, L "REF_UNKNOWN_LOGON_SESSION");
    (0x00000048, L "CANCEL_STATE_IN_COMPLETED_IRP");
    (0x00000049, L "PAGE_FAULT_WITH_INTERRUPTS_OFF");
    (0x0000004A, L "IRQL_GT_ZERO_AT_SYSTEM_SERVICE");
    (0x0000004B, L "STREAMS_INTERNAL_ERROR");
    (0x0000004C, L "FATAL_UNHANDLED_HARD_ERROR");
    (0x0000004D, L "NO_PAGES_AVAILABLE");
    (0x0000004E, L "PFN_LIST_CORRUPT");
    (0x0000004F, L "NDIS_INTERNAL_ERROR");
    (0x00000050, L "PAGE_FAULT_IN_NONPAGED_AREA");
    (0x00000051, L "REGISTRY_ERROR");
    (0x00000052, L "MAILSLOT_FILE_SYSTEM");
    (0x00000053, L "NO_BOOT_DEVICE");
    (0x00000054, L "LM_SERVER_INTERNAL_ERROR");
    (0x00000055, L "DATA_COHERENCY_EXCEPTION");
    (0x00000056, L "INSTRUCTION_COHERENCY_EXCEPTION");
    (0x00000057, L "XNS_INTERNAL_ERROR");
    (0x00000058, L "FTDISK_INTERNAL_ERROR");
    (0x00000059, L "PINBALL_FILE_SYSTEM");
    (0x0000005A, L "CRITICAL_SERVICE_FAILED");
    (0x0000005B, L "SET_ENV_VAR_FAILED");
    (0x0000005C, L "HAL_INITIALIZATION_FAILED");
    (0x0000005D, L "UNSUPPORTED_PROCESSOR");
    (0x0000005E, L "OBJECT_INITIALIZATION_FAILED");
    (0x0000005F, L "SECURITY_INITIALIZATION_FAILED");
    (0x00000060, L "PROCESS_INITIALIZATION_FAILED");
    (0x00000061, L "HAL1_INITIALIZATION_FAILED");
    (0x00000062, L "OBJECT1_INITIALIZATION_FAILED");
    (0x00000063, L "SECURITY1_INITIALIZATION_FAILED");
    (0x00000064, L "SYMBOLIC_INITIALIZATION_FAILED");
    (0x00000065, L "MEMORY1_INITIALIZATION_FAILED");
    (0x00000066, L "CACHE_INITIALIZATION_FAILED");
    (0x00000067, L "CONFIG_INITIALIZATION_FAILED");
    (0x00000068, L "FILE_INITIALIZATION_FAILED");
    (0x00000069, L "IO1_INITIALIZATION_FAILED");
    (0x0000006A, L "LPC_INITIALIZATION_FAILED");
    (0x0000006B, L "PROCESS1_INITIALIZATION_FAILED");
    (0x0000006C, L "REFMON_INITIALIZATION_FAILED");
    (0x0000006D, L "SESSION1_INITIALIZATION_FAILED");
    (0x0000006E, L "SESSION2_INITIALIZATION_FAILED");
    (0x0000006F, L "SESSION3_INITIALIZATION_FAILED");
    (0x00000070, L "SESSION4_INITIALIZATION_FAILED");
    (0x00000071, L "SESSION5_INITIALIZATION_FAILED");
    (0x00000072, L "ASSIGN_DRIVE_LETTERS_FAILED");
    (0x00000073, L "CONFIG_LIST_FAILED");
    (0x00000074, L "BAD_SYSTEM_CONFIG_INFO");
    (0x00000075, L "CANNOT_WRITE_CONFIGURATION");
    (0x00000076, L "PROCESS_HAS_LOCKED_PAGES");
    (0x00000077, L "KERNEL_STACK_INPAGE_ERROR");
    (0x00000078, L "PHASE0_EXCEPTION");
    (0x00000079, L "MISMATCHED_HAL");
    (0x0000007A, L "KERNEL_DATA_INPAGE_ERROR");
    (0x0000007B, L "INACCESSIBLE_BOOT_DEVICE");
    (0x0000007C, L "BUGCODE_NDIS_DRIVER");
    (0x0000007D, L "INSTALL_MORE_MEMORY");
    (0x0000007E, L "SYSTEM_THREAD_EXCEPTION_NOT_HANDLED");
    (0x0000007F, L "UNEXPECTED_KERNEL_MODE_TRAP");
    (0x00000080, L "NMI_HARDWARE_FAILURE");
    (0x00000081, L "SPIN_LOCK_INIT_FAILURE");
    (0x00000082, L "DFS_FILE_SYSTEM");
    (0x00000085, L "SETUP_FAILURE");
    (0x0000008B, L "MBR_CHECKSUM_MISMATCH");
    (0x0000008E, L "KERNEL_MODE_EXCEPTION_NOT_HANDLED");
    (0x0000008F, L "PP0_INITIALIZATION_FAILED");
    (0x00000090, L "PP1_INITIALIZATION_FAILED");
    (0x00000092, L "UP_DRIVER_ON_MP_SYSTEM");
    (0x00000093, L "INVALID_KERNEL_HANDLE");
    (0x00000094, L "KERNEL_STACK_LOCKED_AT_EXIT");
    (0x00000096, L "INVALID_WORK_QUEUE_ITEM");
    (0x00000097, L "BOUND_IMAGE_UNSUPPORTED");
    (0x00000098, L "END_OF_NT_EVALUATION_PERIOD");
    (0x00000099, L "INVALID_REGION_OR_SEGMENT");
    (0x0000009A, L "SYSTEM_LICENSE_VIOLATION");
    (0x0000009B, L "UDFS_FILE_SYSTEM");
    (0x0000009C, L "MACHINE_CHECK_EXCEPTION");
    (0x0000009E, L "USER_MODE_HEALTH_MONITOR");
    (0x0000009F, L "DRIVER_POWER_STATE_FAILURE");
    (0x000000A0, L "INTERNAL_POWER_ERROR");
    (0x000000A1, L "PCI_BUS_DRIVER_INTERNAL");
    (0x000000A2, L "MEMORY_IMAGE_CORRUPT");
    (0x000000A3, L "ACPI_DRIVER_INTERNAL");
    (0x000000A4, L "CNSS_FILE_SYSTEM_FILTER");
    (0x000000A5, L "ACPI_BIOS_ERROR");
    (0x000000A7, L "BAD_EXHANDLE");
    (0x000000AC, L "HAL_MEMORY_ALLOCATION");
    (0x000000AD, L "VIDEO_DRIVER_DEBUG_REPORT_REQUEST");
    (0x000000B1, L "BGI_DETECTED_VIOLATION");
    (0x000000B4, L "VIDEO_DRIVER_INIT_FAILURE");
    (0x000000B8, L "ATTEMPTED_SWITCH_FROM_DPC");
    (0x000000B9, L "CHIPSET_DETECTED_ERROR");
    (0x000000BA, L "SESSION_HAS_VALID_VIEWS_ON_EXIT");
    (0x000000BB, L "NETWORK_BOOT_INITIALIZATION_FAILED");
    (0x000000BC, L "NETWORK_BOOT_DUPLICATE_ADDRESS");
    (0x000000BD, L "INVALID_HIBERNATED_STATE");
    (0x000000BE, L "ATTEMPTED_WRITE_TO_READONLY_MEMORY");
    (0x000000BF, L "MUTEX_ALREADY_OWNED");
    (0x000000C1, L "SPECIAL_POOL_DETECTED_MEMORY_CORRUPTION");
    (0x000000C2, L "BAD_POOL_CALLER");
    (0x000000C4, L "DRIVER_VERIFIER_DETECTED_VIOLATION");
    (0x000000C5, L "DRIVER_CORRUPTED_EXPOOL");
    (0x000000C6, L "DRIVER_CAUGHT_MODIFYING_FREED_POOL");
    (0x000000C7, L "TIMER_OR_DPC_INVALID");
    (0x000000C8, L "IRQL_UNEXPECTED_VALUE");
    (0x000000C9, L "DRIVER_VERIFIER_IOMANAGER_VIOLATION");
    (0x000000CA, L "PNP_DETECTED_FATAL_ERROR");
    (0x000000CB, L "DRIVER_LEFT_LOCKED_PAGES_IN_PROCESS");
    (0x000000CC, L "PAGE_FAULT_IN_FREED_SPECIAL_POOL");
    (0x000000CD, L "PAGE_FAULT_BEYOND_END_OF_ALLOCATION");
    (0x000000CE, L "DRIVER_UNLOADED_WITHOUT_CANCELLING_PENDING_OPERATIONS");
    (0x000000CF, L "TERMINAL_SERVER_DRIVER_MADE_INCORRECT_MEMORY_REFERENCE");
    (0x000000D0, L "DRIVER_CORRUPTED_MMPOOL");
    (0x000000D1, L "DRIVER_IRQL_NOT_LESS_OR_EQUAL");
    (0x000000D2, L "BUGCODE_ID_DRIVER");
    (0x000000D3, L "DRIVER_PORTION_MUST_BE_NONPAGED");
    (0x000000D4, L "SYSTEM_SCAN_AT_RAISED_IRQL_CAUGHT_IMPROPER_DRIVER_UNLOAD");
    (0x000000D5, L "DRIVER_PAGE_FAULT_IN_FREED_SPECIAL_POOL");
    (0x000000D6, L "DRIVER_PAGE_FAULT_BEYOND_END_OF_ALLOCATION");
    (0x000000D7, L "DRIVER_UNMAPPING_INVALID_VIEW");
    (0x000000D8, L "DRIVER_USED_EXCESSIVE_PTES");
    (0x000000D9, L "LOCKED_PAGES_TRACKER_CORRUPTION");
    (0x000000DA, L "SYSTEM_PTE_MISUSE");
    (0x000000DB, L "DRIVER_CORRUPTED_SYSPTES");
    (0x000000DC, L "DRIVER_INVALID_STACK_ACCESS");
    (0x000000DE, L "POOL_CORRUPTION_IN_FILE_AREA");
    (0x000000DF, L "IchMPERSONATING_WORKER_THREAD");
    (0x000000E0, L "Schwerwiegender Fehler" ++ [160] ++ L "C1250");
    (0x000000E1, L "WORKER_THREAD_RETURNED_AT_BAD_IRQL");
    (0x000000E2, L "MANUALLY_INITIATED_CRASH");
    (0x000000E3, L "RESOURCE_NOT_OWNED");
    (0x000000E4, L "WORKER_INVALID");
    (0x000000E6, L "DRIVER_VERIFIER_DMA_VIOLATION");
    (0x000000E7, L "INVALID_FLOATING_POINT_STATE");
    (0x000000E8, L "INVALID_CANCEL_OF_FILE_OPEN");
    (0x000000E9, L "ACTIVE_EX_WORKER_THREAD_TERMINATION");
    (0x000000EA, L "THREAD_STUCK_IN_DEVICE_DRIVER");
    (0x000000EB, L "DIRTY_MAPPED_PAGES_CONGESTION");
    (0x000000EC, L "SESSION_HAS_VALID_SPECIAL_POOL_ON_EXIT");
    (0x000000ED, L "UNMOUNTABLE_BOOT_VOLUME");
    (0x000000EF, L "CRITICAL_PROCESS_DIED");
    (0x000000F0, L "STORAGE_MINIPORT_ERROR");
    (0x000000F1, L "SCSI_VERIFIER_DETECTED_VIOLATION");
    (0x000000F2, L "HARDWARE_INTERRUPT_STORM");
    (0x000000F3, L "DISORDERLY_SHUTDOWN");
    (0x000000F4, L "CRITICAL_OBJECT_TERMINATION");
    (0x000000F5, L "FLTMGR_FILE_SYSTEM");
    (0x000000F6, L "PCI_VERIFIER_DETECTED_VIOLATION");
    (0x000000F7, L "DRIVER_OVERRAN_STACK_BUFFER");
    (0x000000F8, L "RAMDISK_BOOT_INITIALIZATION_FAILED");
    (0x000000F9, L "DRIVER_RETURNED_STATUS_REPARSE_FOR_VOLUME_OPEN");
    (0x000000FA, L "HTTP_DRIVER_CORRUPTED");
    (0x000000FC, L "ATTEMPTED_EXECUTE_OF_NOEXECUTE_MEMORY");
    (0x000000FD, L "DIRTY_NOWRITE_PAGES_CONGESTION");
    (0x000000FE, L "BUGCODE_USB_DRIVER");
    (0x000000FF, L "RESERVE_QUEUE_OVERFLOW");
    (0x00000100, L "LOADER_BLOCK_MISMATCH");
    (0x00000101, L "CLOCK_WATCHDOG_TIMEOUT");
    (0x00000102, L "DPC_WATCHDOG_TIMEOUT");
    (0x00000103, L "MUP_FILE_SYSTEM");
    (0x00000104, L "AGP_INVALID_ACCESS");
    (0x00000105, L "AGP_GART_CORRUPTION");
    (0x00000106, L "AGP_ILLEGALLY_REPROGRAMMED");
    (0x00000108, L "THIRD_PARTY_FILE_SYSTEM_FAILURE");
    (0x00000109, L "CRITICAL_STRUCTURE_CORRUPTION");
    (0x0000010A, L "APP_TAGGING_INITIALIZATION_FAILED");
    (0x0000010C, L "FSRTL_EXTRA_CREATE_PARAMETER_VIOLATION");
    (0x0000010D, L "WDF_VIOLATION");
    (0x0000010E, L "VIDEO_MEMORY_MANAGEMENT_INTERNAL");
    (0x0000010F, L "RESOURCE_MANAGER_EXCEPTION_NOT_HANDLED");
    (0x00000111, L "RECURSIVE_NMI");
    (0x00000112, L "MSRPC_STATE_VIOLATION");
    (0x00000113, L "VIDEO_DXGKRNL_FATAL_ERROR");
    (0x00000114, L "VIDEO_SHADOW_DRIVER_FATAL_ERROR");
    (0x00000115, L "AGP_INTERNAL");
    (0x00000116, L "VIDEO_TDR_FAILURE");
    (0x00000117, L "VIDEO_TDR_TIMEOUT_DETECTED");
    (0x00000119, L "VIDEO_SCHEDULER_INTERNAL_ERROR");
    (0x0000011A, L "EM_INITIALIZATION_FAILURE");
    (0x0000011B, L "DRIVER_RETURNED_HOLDING_CANCEL_LOCK");
    (0x0000011C, L "ATTEMPTED_WRITE_TO_CM_PROTECTED_STORAGE");
    (0x0000011D, L "EVENT_TRACING_FATAL_ERROR");
    (0x0000011E, L "TOO_MANY_RECURSIVE_FAULTS");
    (0x0000011F, L "INVALID_DRIVER_HANDLE");
    (0x00000120, L "BITLOCKER_FATAL_ERROR");
    (0x00000121, L "DRIVER_VIOLATION");
    (0x00000122, L "WHEA_INTERNAL_ERROR");
    (0x00000123, L "CRYPTO_SELF_TEST_FAILURE");
    (0x00000124, L "WHEA_UNCORRECTABLE_ERROR");
    (0x00000125, L "NMR_INVALID_STATE");
    (0x00000126, L "NETIO_INVALID_POOL_CALLER");
    (0x00000127, L "PAGE_NOT_ZERO");
    (0x00000128, L "WORKER_THREAD_RETURNED_WITH_BAD_IO_PRIORITY");
    (0x00000129, L "WORKER_THREAD_RETURNED_WITH_BAD_PAGING_IO_PRIORITY");
    (0x0000012A, L "MUI_NO_VALID_SYSTEM_LANGUAGE");
    (0x0000012B, L "FAULTY_HARDWARE_CORRUPTED_PAGE");
    (0x0000012C, L "EXFAT_FILE_SYSTEM");
    (0x0000012D, L "VOLSNAP_OVERLAPPED_TABLE_ACCESS");
    (0x0000012E, L "INVALID_MDL_RANGE");
    (0x0000012F, L "VHD_BOOT_INITIALIZATION_FAILED");
    (0x00000130, L "DYNAMIC_ADD_PROCESSOR_MISMATCH");
    (0x00000131, L "INVALID_EXTENDED_PROCESSOR_STATE");
    (0x00000132, L "RESOURCE_OWNER_POINTER_INVALID");
    (0x00000133, L "DPC_WATCHDOG_VIOLATION");
    (0x00000134, L "DRIVE_EXTENDER");
    (0x00000135, L "REGISTRY_FILTER_DRIVER_EXCEPTION");
    (0x00000136, L "VHD_BOOT_HOST_VOLUME_NOT_ENOUGH_SPACE");
    (0x00000137, L "WIN32K_HANDLE_MANAGER");
    (0x00000138, L "GPIO_CONTROLLER_DRIVER_ERROR");
    (0x00000139, L "KERNEL_SECURITY_CHECK_FAILURE");
    (0x0000013A, L "KERNEL_MODE_HEAP_CORRUPTION");
    (0x0000013B, L "PASSIVE_INTERRUPT_ERROR");
    (0x0000013C, L "INVALID_IO_BOOST_STATE");
    (0x0000013D, L "CRITICAL_INITIALIZATION_FAILURE");
    (0x00000140, L "STORAGE_DEVICE_ABNORMALITY_DETECTED");
    (0x00000143, L "PROCESSOR_DRIVER_INTERNAL");
    (0x00000144, L "BUGCODE_USB3_DRIVER");
    (0x00000145, L "SECURE_BOOT_VIOLATION");
    (0x00000147, L "ABNORMAL_RESET_DETECTED");
    (0x00000149, L "REFS_FILE_SYSTEM");
    (0x0000014A, L "KERNEL_WMI_INTERNAL");
    (0x0000014B, L "SOC_SUBSYSTEM_FAILURE");
    (0x0000014C, L "FATAL_ABNORMAL_RESET_ERROR");
    (0x0000014D, L "EXCEPTION_SCOPE_INVALID");
    (0x0000014E, L "SOC_CRITICAL_DEVICE_REMOVED");
    (0x0000014F, L "PDC_WATCHDOG_TIMEOUT");
    (0x00000150, L "TCPIP_AOAC_NIC_ACTIVE_REFERENCE_LEAK");
    (0x00000151, L "UNSUPPORTED_INSTRUCTION_MODE");
    (0x00000152, L "INVALID_PUSH_LOCK_FLAGS");
    (0x00000153, L "KERNEL_LOCK_ENTRY_LEAKED_ON_THREAD_TERMINATION");
    (0x00000154, L "UNEXPECTED_STORE_EXCEPTION");
    (0x00000155, L "OS_DATA_TAMPERING");
    (0x00000157, L "KERNEL_THREAD_PRIORITY_FLOOR_VIOLATION");
    (0x00000158, L "ILLEGAL_IOMMU_PAGE_FAULT");
    (0x00000159, L "HAL_ILLEGAL_IOMMU_PAGE_FAULT");
    (0x0000015A, L "SDBUS_INTERNAL_ERROR");
    (0x0000015B, L "WORKER_THREAD_RETURNED_WITH_SYSTEM_PAGE_PRIORITY_ACTIVE");
    (0x00000160, L "WIN32K_ATOMIC_CHECK_FAILURE");
    (0x00000162, L "KERNEL_AUTO_BOOST_INVALID_LOCK_RELEASE");
    (0x00000163, L "WORKER_THREAD_TEST_CONDITION");
    (0x00000164, L "WIN32K_CRITICAL_FAILURE");
    (0x0000016C, L "INVALID_RUNDOWN_PROTECTION_FLAGS");
    (0x0000016D, L "INVALID_SLOT_ALLOCATOR_FLAGS");
    (0x0000016E, L "ERESOURCE_INVALID_RELEASE");
    (0x00000170, L "CLUSTER_CSV_CLUSSVC_DISCONNECT_WATCHDOG");
    (0x00000171, L "CRYPTO_LIBRARY_INTERNAL_ERROR");
    (0x00000173, L "COREMSGCALL_INTERNAL_ERROR");
    (0x00000174, L "COREMSG_INTERNAL_ERROR");
    (0x00000178, L "ELAM_DRIVER_DETECTED_FATAL_ERROR");
    (0x0000017B, L "PROFILER_CONFIGURATION_ILLEGAL");
    (0x0000017E, L "MICROCODE_REVISION_MISMATCH");
    (0x00000187, L "VIDEO_DWMINIT_TIMEOUT_FALLBACK_BDD");
    (0x00000189, L "BAD_OBJECT_HEADER");
    (0x0000018B, L "SECURE_KERNEL_ERROR");
    (0x0000018C, L "HYPERGUARD_VIOLATION");
    (0x0000018D, L "SECURE_FAULT_UNHANDLED");
    (0x0000018E, L "KERNEL_PARTITION_REFERENCE_VIOLATION");
    (0x00000191, L "PF_DETECTED_CORRUPTION");
    (0x00000192, L "KERNEL_AUTO_BOOST_LOCK_ACQUISITION_WITH_RAISED_IRQL");
    (0x00000196, L "LOADER_ROLLBACK_DETECTED");
    (0x00000197, L "WIN32K_SECURITY_FAILURE");
    (0x00000199, L "KERNEL_STORAGE_SLOT_IN_USE");
    (0x0000019A, L "WORKER_THREAD_RETURNED_WHILE_ATTACHED_TO_SILO");
    (0x0000019B, L "TTM_FATAL_ERROR");
    (0x0000019C, L "WIN32K_POWER_WATCHDOG_TIMEOUT");
    (0x000001A0, L "TTM_WATCHDOG_TIMEOUT");
    (0x000001A2, L "WIN32K_CALLOUT_WATCHDOG_BUGCHECK");
    (0x000001AA, L "EXCEPTION_ON_INVALID_STACK");
    (0x000001AB, L "UNWIND_ON_INVALID_STACK");
    (0x000001C6, L "FAST_ERESOURCE_PRECONDITION_VIOLATION");
    (0x000001C7, L "STORE_DATA_STRUCTURE_CORRUPTION");
    (0x000001C8, L "MANUALLY_INITIATED_POWER_BUTTON_HOLD");
    (0x000001CA, L "SYNTHETIC_WATCHDOG_TIMEOUT");
    (0x000001CB, L "INVALID_SILO_DETACH");
    (0x000001CD, L "INVALID_CALLBACK_STACK_ADDRESS");
    (0x000001CE, L "INVALID_KERNEL_STACK_ADDRESS");
    (0x000001CF, L "HARDWARE_WATCHDOG_TIMEOUT");
    (0x000001D0, L "CPI_FIRMWARE_WATCHDOG_TIMEOUT");
    (0x000001D2, L "WORKER_THREAD_INVALID_STATE");
    (0x000001D3, L "WFP_INVALID_OPERATION");
    (0x000001D5, L "DRIVER_PNP_WATCHDOG");
    (0x000001D6, L "WORKER_THREAD_RETURNED_WITH_NON_DEFAULT_WORKLOAD_CLASS");
    (0x000001D7, L "EFS_FATAL_ERROR");
    (0x000001D8, L "UCMUCSI_FAILURE");
    (0x000001D9, L "HAL_IOMMU_INTERNAL_ERROR");
    (0x000001DA, L "HAL_BLOCKED_PROCESSOR_INTERNAL_ERROR");
    (0x000001DB, L "IPI_WATCHDOG_TIMEOUT");
    (0x000001DC, L "DMA_COMMON_BUFFER_VECTOR_ERROR");
    (0x000001DD, L "BUGCODE_MBBADAPTER_DRIVER");
    (0x000001DE, L "BUGCODE_WIFIADAPTER_DRIVER");
    (0x000001DF, L "PROCESSOR_START_TIMEOUT");
    (0x000001E4, L "VIDEO_DXGKRNL_SYSMM_FATAL_ERROR");
    (0x000001E9, L "ILLEGAL_ATS_INITIALIZATION");
    (0x000001EA, L "SECURE_PCI_CONFIG_SPACE_ACCESS_VIOLATION");
    (0x000001EB, L "DAM_WATCHDOG_TIMEOUT");
    (0x000001ED, L "HANDLE_ERROR_ON_CRITICAL_THREAD");
    (0x00000356, L "XBOX_ERACTRL_CS_TIMEOUT");
    (0x00000BFE, L "BC_BLUETOOTH_VERIFIER_FAULT");
    (0x00000BFF, L "BC_BTHMINI_VERIFIER_FAULT");
    (0x00020001, L "HYPERVISOR_ERROR");
    (0x1000007E, L "SYSTEM_THREAD_EXCEPTION_NOT_HANDLED_M");
    (0x1000007F, L "UNEXPECTED_KERNEL_MODE_TRAP_M");
    (0x1000008E, L "KERNEL_MODE_EXCEPTION_NOT_HANDLED_M");
    (0x100000EA, L "THREAD_STUCK_IN_DEVICE_DRIVER_M");
    (0x4000008A, L "THREAD_TERMINATE_HELD_MUTEX");
    (0xC0000218, L "STATUS_CANNOT_LOAD_REGISTRY_FILE");
    (0xC000021A, L "WINLOGON_FATAL_ERROR");
    (0xC0000221, L "STATUS_IMAGE_CHECKSUM_MISMATCH");
    (0xDEADDEAD, L "MANUALLY_INITIATED_CRASH1") ].

(** The assignments of [setLDAPCodes] (lines 501-563), in source order; key
    [0x09] is assigned twice (lines 510 and 511). *)
Definition LDAP_assignments : list (Z * wstring) :=
  [ (0x00, L "LDAP_SUCCESS");
    (0x01, L "LDAP_OPERATIONS_ERROR");
    (0x02, L "LDAP_PROTOCOL_ERROR");
    (0x03, L "LDAP_TIMELIMIT_EXCEEDED");
    (0x04, L "LDAP_SIZELIMIT_EXCEEDED");
    (0x05, L "LDAP_COMPARE_FALSE");
    (0x06, L "LDAP_COMPARE_TRUE");
    (0x07, L "LDAP_AUTH_METHOD_NOT_SUPPORTED");
    (0x08, L "LDAP_STRONG_AUTH_REQUIRED");
    (0x09, L "LDAP_REFERRAL_V2");
    (0x09, L "LDAP_PARTIAL_RESULTS");
    (0x0a, L "LDAP_REFERRAL");
    (0x0b, L "LDAP_ADMIN_LIMIT_EXCEEDED");
    (0x0c, L "LDAP_UNAVAILABLE_CRIT_EXTENSION");
    (0x0d, L "LDAP_CONFIDENTIALITY_REQUIRED");
    (0x0e, L "LDAP_SASL_BIND_IN_PROGRESS");
    (0x10, L "LDAP_NO_SUCH_ATTRIBUTE");
    (0x11, L "LDAP_UNDEFINED_TYPE");
    (0x12, L "LDAP_INAPPROPRIATE_MATCHING");
    (0x13, L "LDAP_CONSTRAINT_VIOLATION");
    (0x14, L "LDAP_ATTRIBUTE_OR_VALUE_EXISTS");
    (0x15, L "LDAP_INVALID_SYNTAX");
    (0x20, L "LDAP_NO_SUCH_OBJECT");
    (0x21, L "LDAP_ALIAS_PROBLEM");
    (0x22, L "LDAP_INVALID_DN_SYNTAX");
    (0x23, L "LDAP_IS_LEAF");
    (0x24, L "LDAP_ALIAS_DEREF_PROBLEM");
    (0x30, L "LDAP_INAPPROPRIATE_AUTH");
    (0x31, L "LDAP_INVALID_CREDENTIALS");
    (0x32, L "LDAP_INSUFFICIENT_RIGHTS");
    (0x33, L "LDAP_BUSY");
    (0x34, L "LDAP_UNAVAILABLE");
    (0x35, L "LDAP_UNWILLING_TO_PERFORM");
    (0x36, L "LDAP_LOOP_DETECT");
    (0x3C, L "LDAP_SORT_CONTROL_MISSING");
    (0x3D, L "LDAP_OFFSET_RANGE_ERROR");
    (0x40, L "LDAP_NAMING_VIOLATION");
    (0x41, L "LDAP_OBJECT_CLASS_VIOLATION");
    (0x42, L "LDAP_NOT_ALLOWED_ON_NONLEAF");
    (0x43, L "LDAP_NOT_ALLOWED_ON_RDN");
    (0x44, L "LDAP_ALREADY_EXISTS");
    (0x45, L "LDAP_NO_OBJECT_CLASS_MODS");
    (0x46, L "LDAP_RESULTS_TOO_LARGE");
    (0x47, L "LDAP_AFFECTS_MULTIPLE_DSAS");
    (0x4c, L "LDAP_VIRTUAL_LIST_VIEW_ERROR");
    (0x50, L "LDAP_OTHER");
    (0x51, L "LDAP_SERVER_DOWN");
    (0x52, L "LDAP_LOCAL_ERROR");
    (0x53, L "LDAP_ENCODING_ERROR");
    (0x54, L "LDAP_DECODING_ERROR");
    (0x55, L "LDAP_TIMEOUT");
    (0x56, L "LDAP_AUTH_UNKNOWN");
    (0x57, L "LDAP_FILTER_ERROR");
    (0x58, L "LDAP_USER_CANCELLED");
    (0x59, L "LDAP_PARAM_ERROR");
    (0x5a, L "LDAP_NO_MEMORY");
    (0x5b, L "LDAP_CONNECT_ERROR");
    (0x5c, L "LDAP_NOT_SUPPORTED");
    (0x5e, L "LDAP_NO_RESULTS_RETURNED");
    (0x5d, L "LDAP_CONTROL_NOT_FOUND");
    (0x5f, L "LDAP_MORE_RESULTS_TO_RETURN");
    (0x60, L "LDAP_CLIENT_LOOP");
    (0x61, L "LDAP_REFERRAL_LIMIT_EXCEEDED") ].

(** The assignments of [setWUCodes] (lines 588-1197), in source order.  The
    keys carry the suffix [L] in the source; the literal of 32-bit [long] that
    exceeds [0x7FFFFFFF] is unsigned and is narrowed to [int] by the
    subscript. *)
Definition WU_assignments : list (Z * wstring) :=
  [ (0x00240001, L "WU_S_SERVICE_STOP\r\n(Windows Update Agent was stopped successfully)");
    (0x00240002, L "WU_S_SELFUPDATE\r\n(Windows Update Agent updated itself)");
    (0x00240003, L "WU_S_UPDATE_ERROR\r\n(Operation completed successfully but there were errors applying the updates)");
    (0x00240004, L "WU_S_MARKED_FOR_DISCONNECT\r\n(A callback was marked to be disconnected later because the request to disconnect the operation came while a callback was executing)");
    (0x00240005, L "WU_S_REBOOT_REQUIRED\r\n(The system must be restarted to complete installation of the update)");
    (0x00240006, L "WU_S_ALREADY_INSTALLED\r\n(The update to be installed is already installed on the system)");
    (0x00240007, L "WU_S_ALREADY_UNINSTALLED\r\n(The update to be removed is not installed on the system)");
    (0x00240008, L "WU_S_ALREADY_DOWNLOADED\r\n(The update to be downloaded has already been downloaded)");
    (0x00240009, L "WU_S_SOME_UPDATES_SKIPPED_ON_BATTERY\r\n(The operation completed successfully, but some updates were skipped because the system is running on batteries)");
    (0x0024000A, L "WU_S_ALREADY_REVERTED\r\n(The update to be reverted is not present on the system)");
    (0x00240010, L "WU_S_SEARCH_CRITERIA_NOT_SUPPORTED\r\n(The operation is skipped because the update service does not support the requested search criteria)");
    (0x00242015, L "WU_S_UH_INSTALLSTILLPENDING\r\n(The installation operation for the update is still in progress)");
    (0x00242016, L "WU_S_UH_DOWNLOAD_SIZE_CALCULATED\r\n(The actual download size has been calculated by the handler)");
    (0x00245001, L "WU_S_SIH_NOOP\r\n(No operation was required by the server-initiated healing server response)");
    (0x00246001, L "WU_S_DM_ALREADYDOWNLOADING\r\n(The update to be downloaded is already being downloaded)");
    (0x00247101, L "WU_S_METADATA_SKIPPED_BY_ENFORCEMENTMODE\r\n(Metadata verification was skipped by enforcement mode)");
    (0x00247102, L "WU_S_METADATA_IGNORED_SIGNATURE_VERIFICATION\r\n(A server configuration refresh resulted in metadata signature verification to be ignored)");
    (0x00248001, L "WU_S_SEARCH_LOAD_SHEDDING\r\n(Search operation completed successfully but one or more services were shedding load)");
    (0x00248002, L "WU_S_AAD_DEVICE_TICKET_NOT_NEEDED\r\n(There was no need to retrieve an AAD device ticket)");
    (0x80240001, L "WU_E_NO_SERVICE\r\n(Windows Update Agent was unable to provide the service)");
    (0x80240002, L "WU_E_MAX_CAPACITY_REACHED\r\n(The maximum capacity of the service was exceeded)");
    (0x80240003, L "WU_E_UNKNOWN_ID\r\n(An ID cannot be found)");
    (0x80240004, L "WU_E_NOT_INITIALIZED\r\n(The object could not be initialized)");
    (0x80240005, L "WU_E_RANGEOVERLAP\r\n(The update handler requested a byte range overlapping a previously requested range)");
    (0x80240006, L "WU_E_TOOMANYRANGES\r\n(The requested number of byte ranges exceeds the maximum number (2^31 - 1))");
    (0x80240007, L "WU_E_INVALIDINDEX\r\n(The index to a collection was invalid)");
    (0x80240008, L "WU_E_ITEMNOTFOUND\r\n(The key for the item queried could not be found)");
    (0x80240009, L "WU_E_OPERATIONINPROGRESS\r\n(Another conflicting operation was in progress. Some operations such as installation cannot be performed twice simultaneously)");
    (0x8024000A, L "WU_E_COULDNOTCANCEL\r\n(Cancellation of the operation was not allowed)");
    (0x8024000B, L "WU_E_CALL_CANCELLED\r\n(Operation was cancelled)");
    (0x8024000C, L "WU_E_NOOP\r\n(No operation was required)");
    (0x8024000D, L "WU_E_XML_MISSINGDATA\r\n(Windows Update Agent could not find required information in the update's XML data)");
    (0x8024000E, L "WU_E_XML_INVALID\r\n(Windows Update Agent found invalid information in the update's XML data)");
    (0x8024000F, L "WU_E_CYCLE_DETECTED\r\n(Circular update relationships were detected in the metadata)");
    (0x80240010, L "WU_E_TOO_DEEP_RELATION\r\n(Update relationships too deep to evaluate were evaluated)");
    (0x80240011, L "WU_E_INVALID_RELATIONSHIP\r\n(An invalid update relationship was detected)");
    (0x80240012, L "WU_E_REG_VALUE_INVALID\r\n(An invalid registry value was read)");
    (0x80240013, L "WU_E_DUPLICATE_ITEM\r\n(Operation tried to add a duplicate item to a list)");
    (0x80240014, L "WU_E_INVALID_INSTALL_REQUESTED\r\n(Updates requested for install are not installable by caller)");
    (0x80240016, L "WU_E_INSTALL_NOT_ALLOWED\r\n(Operation tried to install while another installation was in progress or the system was pending a mandatory restart)");
    (0x80240017, L "WU_E_NOT_APPLICABLE\r\n(Operation was not performed because there are no applicable updates)");
    (0x80240018, L "WU_E_NO_USERTOKEN\r\n(Operation failed because a required user token is missing)");
    (0x80240019, L "WU_E_EXCLUSIVE_INSTALL_CONFLICT\r\n(An exclusive update cannot be installed with other updates at the same time)");
    (0x8024001A, L "WU_E_POLICY_NOT_SET\r\n(A policy value was not set)");
    (0x8024001B, L "WU_E_SELFUPDATE_IN_PROGRESS\r\n(The operation could not be performed because the Windows Update Agent is self-updating)");
    (0x8024001D, L "WU_E_INVALID_UPDATE\r\n(An update contains invalid metadata)");
    (0x8024001E, L "WU_E_SERVICE_STOP\r\n(Operation did not complete because the service or system was being shut down)");
    (0x8024001F, L "WU_E_NO_CONNECTION\r\n(Operation did not complete because the network connection was unavailable)");
    (0x80240020, L "WU_E_NO_INTERACTIVE_USER\r\n(Operation did not complete because there is no logged-on interactive user)");
    (0x80240021, L "WU_E_TIME_OUT\r\n(Operation did not complete because it timed out)");
    (0x80240022, L "WU_E_ALL_UPDATES_FAILED\r\n(Operation failed for all the updates)");
    (0x80240023, L "WU_E_EULAS_DECLINED\r\n(The license terms for all updates were declined)");
    (0x80240024, L "WU_E_NO_UPDATE\r\n(There are no updates)");
    (0x80240025, L "WU_E_USER_ACCESS_DISABLED\r\n(Group Policy settings prevented access to Windows Update)");
    (0x80240026, L "WU_E_INVALID_UPDATE_TYPE\r\n(The type of update is invalid)");
    (0x80240027, L "WU_E_URL_TOO_LONG\r\n(The URL exceeded the maximum length)");
    (0x80240028, L "WU_E_UNINSTALL_NOT_ALLOWED\r\n(The update could not be uninstalled because the request did not originate from a WSUS server)");
    (0x80240029, L "WU_E_INVALID_PRODUCT_LICENSE\r\n(Search may have missed some updates before there is an unlicensed application on the system)");
    (0x8024002A, L "WU_E_MISSING_HANDLER\r\n(A component required to detect applicable updates was missing)");
    (0x8024002B, L "WU_E_LEGACYSERVER\r\n(An operation did not complete because it requires a newer version of server)");
    (0x8024002C, L "WU_E_BIN_SOURCE_ABSENT\r\n(A delta-compressed update could not be installed because it required the source)");
    (0x8024002D, L "WU_E_SOURCE_ABSENT\r\n(A full-file update could not be installed because it required the source)");
    (0x8024002E, L "WU_E_WU_DISABLED\r\n(Access to an unmanaged server is not allowed)");
    (0x8024002F, L "WU_E_CALL_CANCELLED_BY_POLICY\r\n(Operation did not complete because the DisableWindowsUpdateAccess policy was set)");
    (0x80240030, L "WU_E_INVALID_PROXY_SERVER\r\n(The format of the proxy list was invalid)");
    (0x80240031, L "WU_E_INVALID_FILE\r\n(The file is in the wrong format)");
    (0x80240032, L "WU_E_INVALID_CRITERIA\r\n(The search criteria string was invalid)");
    (0x80240033, L "WU_E_EULA_UNAVAILABLE\r\n(License terms could not be downloaded)");
    (0x80240034, L "WU_E_DOWNLOAD_FAILED\r\n(Update failed to download)");
    (0x80240035, L "WU_E_UPDATE_NOT_PROCESSED\r\n(The update was not processed)");
    (0x80240036, L "WU_E_INVALID_OPERATION\r\n(The object's current state did not allow the operation)");
    (0x80240037, L "WU_E_NOT_SUPPORTED\r\n(The functionality for the operation is not supported)");
    (0x80240038, L "WU_E_WINHTTP_INVALID_FILE\r\n(The downloaded file has an unexpected content type)");
    (0x80240039, L "WU_E_TOO_MANY_RESYNC\r\n(Agent is asked by server to resync too many times)");
    (0x80240040, L "WU_E_NO_SERVER_CORE_SUPPORT\r\n(WUA API method does not run on Server Core installation)");
    (0x80240041, L "WU_E_SYSPREP_IN_PROGRESS\r\n(Service is not available while sysprep is running)");
    (0x80240042, L "WU_E_UNKNOWN_SERVICE\r\n(The update service is no longer registered with AU)");
    (0x80240043, L "WU_E_NO_UI_SUPPORT\r\n(There is no support for WUA UI)");
    (0x80240044, L "WU_E_PER_MACHINE_UPDATE_ACCESS_DENIED\r\n(Only administrators can perform this operation on per-machine updates)");
    (0x80240045, L "WU_E_UNSUPPORTED_SEARCHSCOPE\r\n(A search was attempted with a scope that is not currently supported for this type of search)");
    (0x80240046, L "WU_E_BAD_FILE_URL\r\n(The URL does not point to a file)");
    (0x80240047, L "WU_E_REVERT_NOT_ALLOWED\r\n(The update could not be reverted)");
    (0x80240048, L "WU_E_INVALID_NOTIFICATION_INFO\r\n(The featured update notification info returned by the server is invalid)");
    (0x80240049, L "WU_E_OUTOFRANGE\r\n(The data is out of range)");
    (0x8024004A, L "WU_E_SETUP_IN_PROGRESS\r\n(Windows Update agent operations are not available while OS setup is running)");
    (0x8024004B, L "WU_E_ORPHANED_DOWNLOAD_JOB\r\n(An orphaned downloadjob was found with no active callers)");
    (0x8024004C, L "WU_E_LOW_BATTERY\r\n(An update could not be installed because the system battery power level is too low)");
    (0x8024004D, L "WU_E_INFRASTRUCTUREFILE_INVALID_FORMAT\r\n(The downloaded infrastructure file is incorrectly formatted)");
    (0x8024004E, L "WU_E_INFRASTRUCTUREFILE_REQUIRES_SSL\r\n(The infrastructure file must be downloaded using strong SSL)");
    (0x8024004F, L "WU_E_IDLESHUTDOWN_OPCOUNT_DISCOVERY\r\n(A discovery call contributed to a non-zero operation count at idle timer shutdown)");
    (0x80240050, L "WU_E_IDLESHUTDOWN_OPCOUNT_SEARCH\r\n(A search call contributed to a non-zero operation count at idle timer shutdown)");
    (0x80240051, L "WU_E_IDLESHUTDOWN_OPCOUNT_DOWNLOAD\r\n(A download call contributed to a non-zero operation count at idle timer shutdown)");
    (0x80240052, L "WU_E_IDLESHUTDOWN_OPCOUNT_INSTALL\r\n(An install call contributed to a non-zero operation count at idle timer shutdown)");
    (0x80240053, L "WU_E_IDLESHUTDOWN_OPCOUNT_OTHER\r\n(An unspecified call contributed to a non-zero operation count at idle timer shutdown)");
    (0x80240054, L "WU_E_INTERACTIVE_CALL_CANCELLED\r\n(An interactive user cancelled this operation, which was started from the Windows Update Agent UI)");
    (0x80240055, L "WU_E_AU_CALL_CANCELLED\r\n(Automatic Updates cancelled this operation because it applies to an update that is no longer applicable to this computer)");
    (0x80240056, L "WU_E_SYSTEM_UNSUPPORTED\r\n(This version or edition of the operating system doesn't support the needed functionality)");
    (0x80240057, L "WU_E_NO_SUCH_HANDLER_PLUGIN\r\n(The requested update download or install handler, or update applicability expression evaluator, is not provided by this Agent plugin)");
    (0x80240058, L "WU_E_INVALID_SERIALIZATION_VERSION\r\n(The requested serialization version is not supported)");
    (0x80240059, L "WU_E_NETWORK_COST_EXCEEDS_POLICY\r\n(The current network cost does not meet the conditions set by the network cost policy)");
    (0x8024005A, L "WU_E_CALL_CANCELLED_BY_HIDE\r\n(The call is cancelled because it applies to an update that is hidden (no longer applicable to this computer))");
    (0x8024005B, L "WU_E_CALL_CANCELLED_BY_INVALID\r\n(The call is cancelled because it applies to an update that is invalid (no longer applicable to this computer))");
    (0x8024005C, L "WU_E_INVALID_VOLUMEID\r\n(The specified volume id is invalid)");
    (0x8024005D, L "WU_E_UNRECOGNIZED_VOLUMEID\r\n(The specified volume id is unrecognized by the system)");
    (0x8024005E, L "WU_E_EXTENDEDERROR_NOTSET\r\n(The installation extended error code is not specified)");
    (0x8024005F, L "WU_E_EXTENDEDERROR_FAILED\r\n(The installation extended error code is set to general fail)");
    (0x80240060, L "WU_E_IDLESHUTDOWN_OPCOUNT_SERVICEREGISTRATION\r\n(A service registration call contributed to a non-zero operation count at idle timer shutdown)");
    (0x80240061, L "WU_E_FILETRUST_SHA2SIGNATURE_MISSING\r\n(Signature validation of the file fails to find valid SHA2+ signature on MS signed payload)");
    (0x80240062, L "WU_E_UPDATE_NOT_APPROVED\r\n(The update is not in the servicing approval list)");
    (0x80240063, L "WU_E_CALL_CANCELLED_BY_INTERACTIVE_SEARCH\r\n(The search call was cancelled by another interactive search against the same service)");
    (0x80240064, L "WU_E_INSTALL_JOB_RESUME_NOT_ALLOWED\r\n(Resume of install job not allowed due to another installation in progress)");
    (0x80240065, L "WU_E_INSTALL_JOB_NOT_SUSPENDED\r\n(Resume of install job not allowed because job is not suspended)");
    (0x80240066, L "WU_E_INSTALL_USERCONTEXT_ACCESSDENIED\r\n(User context passed to installation from caller with insufficient privileges)");
    (0x80240067, L "WU_E_STANDBY_ACTIVITY_NOT_ALLOWED\r\n(Operation is not allowed because the device is in DC (Direct Current) and DS (Disconnected Standby))");
    (0x80240068, L "WU_E_COULD_NOT_EVALUATE_PROPERTY\r\n(The property could not be evaluated)");
    (0x80240FFF, L "WU_E_UNEXPECTED\r\n(An operation failed due to reasons not covered by another error code)");
    (0x80241001, L "WU_E_MSI_WRONG_VERSION\r\n(Search may have missed some updates because the Windows Installer is less than version 3.1)");
    (0x80241002, L "WU_E_MSI_NOT_CONFIGURED\r\n(Search may have missed some updates because the Windows Installer is not configured)");
    (0x80241003, L "WU_E_MSP_DISABLED\r\n(Search may have missed some updates because policy has disabled Windows Installer patching)");
    (0x80241004, L "WU_E_MSI_WRONG_APP_CONTEXT\r\n(An update could not be applied because the application is installed per-user)");
    (0x80241005, L "WU_E_MSI_NOT_PRESENT\r\n(Search may have missed some updates because the Windows Installer is less than version 3.1)");
    (0x80241FFF, L "WU_E_MSP_UNEXPECTED\r\n(Search may have missed some updates because there was a failure of the Windows Installer)");
    (0x80244000, L "WU_E_PT_SOAPCLIENT_BASE\r\n(WU_E_PT_SOAPCLIENT_* error codes map to the SOAPCLIENT_ERROR enum of the ATL Server Library)");
    (0x80244001, L "WU_E_PT_SOAPCLIENT_INITIALIZE\r\n(Same as SOAPCLIENT_INITIALIZE_ERROR - initialization of the SOAP client failed, possibly because of an MSXML installation failure)");
    (0x80244002, L "WU_E_PT_SOAPCLIENT_OUTOFMEMORY\r\n(Same as SOAPCLIENT_OUTOFMEMORY - SOAP client failed because it ran out of memory)");
    (0x80244003, L "WU_E_PT_SOAPCLIENT_GENERATE\r\n(Same as SOAPCLIENT_GENERATE_ERROR - SOAP client failed to generate the request)");
    (0x80244004, L "WU_E_PT_SOAPCLIENT_CONNECT\r\n(Same as SOAPCLIENT_CONNECT_ERROR - SOAP client failed to connect to the server)");
    (0x80244005, L "WU_E_PT_SOAPCLIENT_SEND\r\n(Same as SOAPCLIENT_SEND_ERROR - SOAP client failed to send a message for reasons of WU_E_WINHTTP_* error codes)");
    (0x80244006, L "WU_E_PT_SOAPCLIENT_SERVER\r\n(Same as SOAPCLIENT_SERVER_ERROR - SOAP client failed because there was a server error)");
    (0x80244007, L "WU_E_PT_SOAPCLIENT_SOAPFAULT\r\n(Same as SOAPCLIENT_SOAPFAULT - SOAP client failed because there was a SOAP fault for reasons of WU_E_PT_SOAP_* error codes)");
    (0x80244008, L "WU_E_PT_SOAPCLIENT_PARSEFAULT\r\n(Same as SOAPCLIENT_PARSEFAULT_ERROR - SOAP client failed to parse a SOAP fault)");
    (0x80244009, L "WU_E_PT_SOAPCLIENT_READ\r\n(Same as SOAPCLIENT_READ_ERROR - SOAP client failed while reading the response from the server)");
    (0x8024400A, L "WU_E_PT_SOAPCLIENT_PARSE\r\n(Same as SOAPCLIENT_PARSE_ERROR - SOAP client failed to parse the response from the server)");
    (0x8024400B, L "WU_E_PT_SOAP_VERSION\r\n(Same as SOAP_E_VERSION_MISMATCH - SOAP client found an unrecognizable namespace for the SOAP envelope)");
    (0x8024400C, L "WU_E_PT_SOAP_MUST_UNDERSTAND\r\n(Same as SOAP_E_MUST_UNDERSTAND - SOAP client was unable to understand a header)");
    (0x8024400D, L "WU_E_PT_SOAP_CLIENT\r\n(Same as SOAP_E_CLIENT - SOAP client found the message was malformed; fix before resending)");
    (0x8024400E, L "WU_E_PT_SOAP_SERVER\r\n(Same as SOAP_E_SERVER - The SOAP message could not be processed due to a server error; resend later)");
    (0x8024400F, L "WU_E_PT_WMI_ERROR\r\n(There was an unspecified Windows Management Instrumentation (WMI) error)");
    (0x80244010, L "WU_E_PT_EXCEEDED_MAX_SERVER_TRIPS\r\n(The number of round trips to the server exceeded the maximum limit)");
    (0x80244011, L "WU_E_PT_SUS_SERVER_NOT_SET\r\n(WUServer policy value is missing in the registry)");
    (0x80244012, L "WU_E_PT_DOUBLE_INITIALIZATION\r\n(Initialization failed because the object was already initialized)");
    (0x80244013, L "WU_E_PT_INVALID_COMPUTER_NAME\r\n(The computer name could not be determined)");
    (0x80244015, L "WU_E_PT_REFRESH_CACHE_REQUIRED\r\n(The reply from the server indicates that the server was changed or the cookie was invalid; refresh the state of the internal cache and retry)");
    (0x80244016, L "WU_E_PT_HTTP_STATUS_BAD_REQUEST\r\n(Same as HTTP status 400 - the server could not process the request due to invalid syntax)");
    (0x80244017, L "WU_E_PT_HTTP_STATUS_DENIED\r\n(Same as HTTP status 401 - the requested resource requires user authentication)");
    (0x80244018, L "WU_E_PT_HTTP_STATUS_FORBIDDEN\r\n(Same as HTTP status 403 - server understood the request, but declined to fulfill it)");
    (0x80244019, L "WU_E_PT_HTTP_STATUS_NOT_FOUND\r\n(Same as HTTP status 404 - the server cannot find the requested URI (Uniform Resource Identifier))");
    (0x8024401A, L "WU_E_PT_HTTP_STATUS_BAD_METHOD\r\n(Same as HTTP status 405 - the HTTP method is not allowed)");
    (0x8024401B, L "WU_E_PT_HTTP_STATUS_PROXY_AUTH_REQ\r\n(Same as HTTP status 407 - proxy authentication is required)");
    (0x8024401C, L "WU_E_PT_HTTP_STATUS_REQUEST_TIMEOUT\r\n(Same as HTTP status 408 - the server timed out waiting for the request)");
    (0x8024401D, L "WU_E_PT_HTTP_STATUS_CONFLICT\r\n(Same as HTTP status 409 - the request was not completed due to a conflict with the current state of the resource)");
    (0x8024401E, L "WU_E_PT_HTTP_STATUS_GONE\r\n(Same as HTTP status 410 - requested resource is no longer available at the server)");
    (0x8024401F, L "WU_E_PT_HTTP_STATUS_SERVER_ERROR\r\n(Same as HTTP status 500 - an error internal to the server prevented fulfilling the request)");
    (0x80244020, L "WU_E_PT_HTTP_STATUS_NOT_SUPPORTED\r\n(Same as HTTP status 500 - server does not support the functionality required to fulfill the request)");
    (0x80244021, L "WU_E_PT_HTTP_STATUS_BAD_GATEWAY\r\n(Same as HTTP status 502 - the server, while acting as a gateway or proxy, received an invalid response from the upstream server it accessed in attempting to fulfill the request)");
    (0x80244022, L "WU_E_PT_HTTP_STATUS_SERVICE_UNAVAIL\r\n(Same as HTTP status 503 - the service is temporarily overloaded)");
    (0x80244023, L "WU_E_PT_HTTP_STATUS_GATEWAY_TIMEOUT\r\n(Same as HTTP status 503 - the request was timed out waiting for a gateway)");
    (0x80244024, L "WU_E_PT_HTTP_STATUS_VERSION_NOT_SUP\r\n(Same as HTTP status 505 - the server does not support the HTTP protocol version used for the request)");
    (0x80244025, L "WU_E_PT_FILE_LOCATIONS_CHANGED\r\n(Operation failed due to a changed file location; refresh internal state and resend)");
    (0x80244026, L "WU_E_PT_REGISTRATION_NOT_SUPPORTED\r\n(Operation failed because Windows Update Agent does not support registration with a non-WSUS server)");
    (0x80244027, L "WU_E_PT_NO_AUTH_PLUGINS_REQUESTED\r\n(The server returned an empty authentication information list)");
    (0x80244028, L "WU_E_PT_NO_AUTH_COOKIES_CREATED\r\n(Windows Update Agent was unable to create any valid authentication cookies)");
    (0x80244029, L "WU_E_PT_INVALID_CONFIG_PROP\r\n(A configuration property value was wrong)");
    (0x8024402A, L "WU_E_PT_CONFIG_PROP_MISSING\r\n(A configuration property value was missing)");
    (0x8024402B, L "WU_E_PT_HTTP_STATUS_NOT_MAPPED\r\n(The HTTP request could not be completed and the reason did not correspond to any of the WU_E_PT_HTTP_* error codes)");
    (0x8024402C, L "WU_E_PT_WINHTTP_NAME_NOT_RESOLVED\r\n(Same as ERROR_WINHTTP_NAME_NOT_RESOLVED - the proxy server or target server name cannot be resolved)");
    (0x8024402D, L "WU_E_PT_LOAD_SHEDDING\r\n(The server is shedding load)");
    (0x8024402E, L "WU_E_PT_CLIENT_ENFORCED_LOAD_SHEDDING\r\n(Windows Update Agent is enforcing honoring the service load shedding interval)");
    (0x8024502D, L "WU_E_PT_SAME_REDIR_ID\r\n(Windows Update Agent failed to download a redirector cabinet file with a new redirectorId value from the server during the recovery)");
    (0x8024502E, L "WU_E_PT_NO_MANAGED_RECOVER\r\n(A redirector recovery action did not complete because the server is managed)");
    (0x8024402F, L "WU_E_PT_ECP_SUCCEEDED_WITH_ERRORS\r\n(External cab file processing completed with some errors)");
    (0x80244030, L "WU_E_PT_ECP_INIT_FAILED\r\n(The external cab processor initialization did not complete)");
    (0x80244031, L "WU_E_PT_ECP_INVALID_FILE_FORMAT\r\n(The format of a metadata file was invalid)");
    (0x80244032, L "WU_E_PT_ECP_INVALID_METADATA\r\n(External cab processor found invalid metadata)");
    (0x80244033, L "WU_E_PT_ECP_FAILURE_TO_EXTRACT_DIGEST\r\n(The file digest could not be extracted from an external cab file)");
    (0x80244034, L "WU_E_PT_ECP_FAILURE_TO_DECOMPRESS_CAB_FILE\r\n(An external cab file could not be decompressed)");
    (0x80244035, L "WU_E_PT_ECP_FILE_LOCATION_ERROR\r\n(External cab processor was unable to get file locations)");
    (0x80240436, L "WU_E_PT_CATALOG_SYNC_REQUIRED\r\n(The server does not support category-specific search; Full catalog search has to be issued instead)");
    (0x80240437, L "WU_E_PT_SECURITY_VERIFICATION_FAILURE\r\n(There was a problem authorizing with the service)");
    (0x80240438, L "WU_E_PT_ENDPOINT_UNREACHABLE\r\n(There is no route or network connectivity to the endpoint)");
    (0x80240439, L "WU_E_PT_INVALID_FORMAT\r\n(The data received does not meet the data contract expectations)");
    (0x8024043A, L "WU_E_PT_INVALID_URL\r\n(The url is invalid)");
    (0x8024043B, L "WU_E_PT_NWS_NOT_LOADED\r\n(Unable to load NWS runtime)");
    (0x8024043C, L "WU_E_PT_PROXY_AUTH_SCHEME_NOT_SUPPORTED\r\n(The proxy auth scheme is not supported)");
    (0x8024043D, L "WU_E_SERVICEPROP_NOTAVAIL\r\n(The requested service property is not available)");
    (0x8024043E, L "WU_E_PT_ENDPOINT_REFRESH_REQUIRED\r\n(The endpoint provider plugin requires online refresh)");
    (0x8024043F, L "WU_E_PT_ENDPOINTURL_NOTAVAIL\r\n(A URL for the requested service endpoint is not available)");
    (0x80240440, L "WU_E_PT_ENDPOINT_DISCONNECTED\r\n(The connection to the service endpoint died)");
    (0x80240441, L "WU_E_PT_INVALID_OPERATION\r\n(The operation is invalid because protocol talker is in an inappropriate state)");
    (0x80240442, L "WU_E_PT_OBJECT_FAULTED\r\n(The object is in a faulted state due to a previous error)");
    (0x80240443, L "WU_E_PT_NUMERIC_OVERFLOW\r\n(The operation would lead to numeric overflow)");
    (0x80240444, L "WU_E_PT_OPERATION_ABORTED\r\n(The operation was aborted)");
    (0x80240445, L "WU_E_PT_OPERATION_ABANDONED\r\n(The operation was abandoned)");
    (0x80240446, L "WU_E_PT_QUOTA_EXCEEDED\r\n(A quota was exceeded)");
    (0x80240447, L "WU_E_PT_NO_TRANSLATION_AVAILABLE\r\n(The information was not available in the specified language)");
    (0x80240448, L "WU_E_PT_ADDRESS_IN_USE\r\n(The address is already being used)");
    (0x80240449, L "WU_E_PT_ADDRESS_NOT_AVAILABLE\r\n(The address is not valid for this context)");
    (0x8024044A, L "WU_E_PT_OTHER\r\n(Unrecognized error occurred in the Windows Web Services framework)");
    (0x8024044B, L "WU_E_PT_SECURITY_SYSTEM_FAILURE\r\n(A security operation failed in the Windows Web Services framework)");
    (0x80244100, L "WU_E_PT_DATA_BOUNDARY_RESTRICTED\r\n(The client is data boundary restricted and needs to talk to a restricted endpoint)");
    (0x80244101, L "WU_E_PT_GENERAL_AAD_CLIENT_ERROR\r\n(The client hit an error in retrieving AAD device ticket)");
    (0x80244FFF, L "WU_E_PT_UNEXPECTED\r\n(A communication error not covered by another WU_E_PT_* error code)");
    (0x80245001, L "WU_E_REDIRECTOR_LOAD_XML\r\n(The redirector XML document could not be loaded into the DOM class)");
    (0x80245002, L "WU_E_REDIRECTOR_S_FALSE\r\n(The redirector XML document is missing some required information)");
    (0x80245003, L "WU_E_REDIRECTOR_ID_SMALLER\r\n(The redirectorId in the downloaded redirector cab is less than in the cached cab)");
    (0x80245004, L "WU_E_REDIRECTOR_UNKNOWN_SERVICE\r\n(The service ID is not supported in the service environment)");
    (0x80245005, L "WU_E_REDIRECTOR_UNSUPPORTED_CONTENTTYPE\r\n(The response from the redirector server had an unsupported content type)");
    (0x80245006, L "WU_E_REDIRECTOR_INVALID_RESPONSE\r\n(The response from the redirector server had an error status or was invalid)");
    (0x80245008, L "WU_E_REDIRECTOR_ATTRPROVIDER_EXCEEDED_MAX_NAMEVALUE\r\n(The maximum number of name value pairs was exceeded by the attribute provider)");
    (0x80245009, L "WU_E_REDIRECTOR_ATTRPROVIDER_INVALID_NAME\r\n(The name received from the attribute provider was invalid)");
    (0x8024500A, L "WU_E_REDIRECTOR_ATTRPROVIDER_INVALID_VALUE\r\n(The value received from the attribute provider was invalid)");
    (0x8024500B, L "WU_E_REDIRECTOR_SLS_GENERIC_ERROR\r\n(There was an error in connecting to or parsing the response from the Service Locator Service redirector server)");
    (0x8024500C, L "WU_E_REDIRECTOR_CONNECT_POLICY\r\n(Connections to the redirector server are disallowed by managed policy)");
    (0x8024500D, L "WU_E_REDIRECTOR_ONLINE_DISALLOWED\r\n(The redirector would go online but is disallowed by caller configuration)");
    (0x802450FF, L "WU_E_REDIRECTOR_UNEXPECTED\r\n(The redirector failed for reasons not covered by another WU_E_REDIRECTOR_* error code)");
    (0x80245101, L "WU_E_SIH_VERIFY_DOWNLOAD_ENGINE\r\n(Verification of the servicing engine package failed)");
    (0x80245102, L "WU_E_SIH_VERIFY_DOWNLOAD_PAYLOAD\r\n(Verification of a servicing package failed)");
    (0x80245103, L "WU_E_SIH_VERIFY_STAGE_ENGINE\r\n(Verification of the staged engine failed)");
    (0x80245104, L "WU_E_SIH_VERIFY_STAGE_PAYLOAD\r\n(Verification of a staged payload failed)");
    (0x80245105, L "WU_E_SIH_ACTION_NOT_FOUND\r\n(An internal error occurred where the servicing action was not found)");
    (0x80245106, L "WU_E_SIH_SLS_PARSE\r\n(There was a parse error in the service environment response)");
    (0x80245107, L "WU_E_SIH_INVALIDHASH\r\n(A downloaded file failed an integrity check)");
    (0x80245108, L "WU_E_SIH_NO_ENGINE\r\n(No engine was provided by the server-initiated healing server response)");
    (0x80245109, L "WU_E_SIH_POST_REBOOT_INSTALL_FAILED\r\n(Post-reboot install failed)");
    (0x8024510A, L "WU_E_SIH_POST_REBOOT_NO_CACHED_SLS_RESPONSE\r\n(There were pending reboot actions, but cached SLS response was not found post-reboot)");
    (0x8024510B, L "WU_E_SIH_PARSE\r\n(Parsing command line arguments failed)");
    (0x8024510C, L "WU_E_SIH_SECURITY\r\n(Security check failed)");
    (0x8024510D, L "WU_E_SIH_PPL\r\n(PPL check failed)");
    (0x8024510E, L "WU_E_SIH_POLICY\r\n(Execution was disabled by policy)");
    (0x8024510F, L "WU_E_SIH_STDEXCEPTION\r\n(A standard exception was caught)");
    (0x80245110, L "WU_E_SIH_NONSTDEXCEPTION\r\n(A non-standard exception was caught)");
    (0x80245111, L "WU_E_SIH_ENGINE_EXCEPTION\r\n(The server-initiated healing engine encountered an exception not covered by another WU_E_SIH_* error code)");
    (0x80245112, L "WU_E_SIH_BLOCKED_FOR_PLATFORM\r\n(You are running SIH Client with cmd not supported on your platform)");
    (0x80245113, L "WU_E_SIH_ANOTHER_INSTANCE_RUNNING\r\n(Another SIH Client is already running)");
    (0x80245114, L "WU_E_SIH_DNSRESILIENCY_OFF\r\n(Disable DNS resiliency feature per service configuration)");
    (0x802451FF, L "WU_E_SIH_UNEXPECTED\r\n(There was a failure for reasons not covered by another WU_E_SIH_* error code)");
    (0x8024C001, L "WU_E_DRV_PRUNED\r\n(A driver was skipped)");
    (0x8024C002, L "WU_E_DRV_NOPROP_OR_LEGACY\r\n(A property for the driver could not be found. It may not conform with required specifications)");
    (0x8024C003, L "WU_E_DRV_REG_MISMATCH\r\n(The registry type read for the driver does not match the expected type)");
    (0x8024C004, L "WU_E_DRV_NO_METADATA\r\n(The driver update is missing metadata)");
    (0x8024C005, L "WU_E_DRV_MISSING_ATTRIBUTE\r\n(The driver update is missing a required attribute)");
    (0x8024C006, L "WU_E_DRV_SYNC_FAILED\r\n(Driver synchronization failed)");
    (0x8024C007, L "WU_E_DRV_NO_PRINTER_CONTENT\r\n(Information required for the synchronization of applicable printers is missing)");
    (0x8024C008, L "WU_E_DRV_DEVICE_PROBLEM\r\n(After installing a driver update, the updated device has reported a problem)");
    (0x8024CFFF, L "WU_E_DRV_UNEXPECTED\r\n(A driver error not covered by another WU_E_DRV_* code)");
    (0x80248000, L "WU_E_DS_SHUTDOWN\r\n(An operation failed because Windows Update Agent is shutting down)");
    (0x80248001, L "WU_E_DS_INUSE\r\n(An operation failed because the data store was in use)");
    (0x80248002, L "WU_E_DS_INVALID\r\n(The current and expected states of the data store do not match)");
    (0x80248003, L "WU_E_DS_TABLEMISSING\r\n(The data store is missing a table)");
    (0x80248004, L "WU_E_DS_TABLEINCORRECT\r\n(The data store contains a table with unexpected columns)");
    (0x80248005, L "WU_E_DS_INVALIDTABLENAME\r\n(A table could not be opened because the table is not in the data store)");
    (0x80248006, L "WU_E_DS_BADVERSION\r\n(The current and expected versions of the data store do not match)");
    (0x80248007, L "WU_E_DS_NODATA\r\n(The information requested is not in the data store)");
    (0x80248008, L "WU_E_DS_MISSINGDATA\r\n(The data store is missing required information or has a NULL in a table column that requires a non-null value)");
    (0x80248009, L "WU_E_DS_MISSINGREF\r\n(The data store is missing required information or has a reference to missing license terms, file, localized property or linked row)");
    (0x8024800A, L "WU_E_DS_UNKNOWNHANDLER\r\n(The update was not processed because its update handler could not be recognized)");
    (0x8024800B, L "WU_E_DS_CANTDELETE\r\n(The update was not deleted because it is still referenced by one or more services)");
    (0x8024800C, L "WU_E_DS_LOCKTIMEOUTEXPIRED\r\n(The data store section could not be locked within the allotted time)");
    (0x8024800D, L "WU_E_DS_NOCATEGORIES\r\n(The category was not added because it contains no parent categories and is not a top-level category itself)");
    (0x8024800E, L "WU_E_DS_ROWEXISTS\r\n(The row was not added because an existing row has the same primary key)");
    (0x8024800F, L "WU_E_DS_STOREFILELOCKED\r\n(The data store could not be initialized because it was locked by another process)");
    (0x80248010, L "WU_E_DS_CANNOTREGISTER\r\n(The data store is not allowed to be registered with COM in the current process)");
    (0x80248011, L "WU_E_DS_UNABLETOSTART\r\n(Could not create a data store object in another process)");
    (0x80248013, L "WU_E_DS_DUPLICATEUPDATEID\r\n(The server sent the same update to the client with two different revision IDs)");
    (0x80248014, L "WU_E_DS_UNKNOWNSERVICE\r\n(An operation did not complete because the service is not in the data store)");
    (0x80248015, L "WU_E_DS_SERVICEEXPIRED\r\n(An operation did not complete because the registration of the service has expired)");
    (0x80248016, L "WU_E_DS_DECLINENOTALLOWED\r\n(A request to hide an update was declined because it is a mandatory update or because it was deployed with a deadline)");
    (0x80248017, L "WU_E_DS_TABLESESSIONMISMATCH\r\n(A table was not closed because it is not associated with the session)");
    (0x80248018, L "WU_E_DS_SESSIONLOCKMISMATCH\r\n(A table was not closed because it is not associated with the session)");
    (0x80248019, L "WU_E_DS_NEEDWINDOWSSERVICE\r\n(A request to remove the Windows Update service or to unregister it with Automatic Updates was declined because it is a built-in service and/or Automatic Updates cannot fall back to another service)");
    (0x8024801A, L "WU_E_DS_INVALIDOPERATION\r\n(A request was declined because the operation is not allowed)");
    (0x8024801B, L "WU_E_DS_SCHEMAMISMATCH\r\n(The schema of the current data store and the schema of a table in a backup XML document do not match)");
    (0x8024801C, L "WU_E_DS_RESETREQUIRED\r\n(The data store requires a session reset; release the session and retry with a new session)");
    (0x8024801D, L "WU_E_DS_IMPERSONATED\r\n(A data store operation did not complete because it was requested with an impersonated identity)");
    (0x8024801E, L "WU_E_DS_DATANOTAVAILABLE\r\n(An operation against update metadata did not complete because the data was never received from server)");
    (0x8024801F, L "WU_E_DS_DATANOTLOADED\r\n(An operation against update metadata did not complete because the data was available but not loaded from datastore)");
    (0x80248020, L "WU_E_DS_NODATA_NOSUCHREVISION\r\n(A data store operation did not complete because no such update revision is known)");
    (0x80248021, L "WU_E_DS_NODATA_NOSUCHUPDATE\r\n(A data store operation did not complete because no such update is known)");
    (0x80248022, L "WU_E_DS_NODATA_EULA\r\n(A data store operation did not complete because an update's EULA information is missing)");
    (0x80248023, L "WU_E_DS_NODATA_SERVICE\r\n(A data store operation did not complete because a service's information is missing)");
    (0x80248024, L "WU_E_DS_NODATA_COOKIE\r\n(A data store operation did not complete because a service's synchronization information is missing)");
    (0x80248025, L "WU_E_DS_NODATA_TIMER\r\n(A data store operation did not complete because a timer's information is missing)");
    (0x80248026, L "WU_E_DS_NODATA_CCR\r\n(A data store operation did not complete because a download's information is missing)");
    (0x80248027, L "WU_E_DS_NODATA_FILE\r\n(A data store operation did not complete because a file's information is missing)");
    (0x80248028, L "WU_E_DS_NODATA_DOWNLOADJOB\r\n(A data store operation did not complete because a download job's information is missing)");
    (0x80248029, L "WU_E_DS_NODATA_TMI\r\n(A data store operation did not complete because a service's timestamp information is missing)");
    (0x80248FFF, L "WU_E_DS_UNEXPECTED\r\n(A data store error not covered by another WU_E_DS_* code)");
    (0x80249001, L "WU_E_INVENTORY_PARSEFAILED\r\n(Parsing of the rule file failed)");
    (0x80249002, L "WU_E_INVENTORY_GET_INVENTORY_TYPE_FAILED\r\n(Failed to get the requested inventory type from the server)");
    (0x80249003, L "WU_E_INVENTORY_RESULT_UPLOAD_FAILED\r\n(Failed to upload inventory result to the server)");
    (0x80249004, L "WU_E_INVENTORY_UNEXPECTED\r\n(There was an inventory error not covered by another error code)");
    (0x80249005, L "WU_E_INVENTORY_WMI_ERROR\r\n(A WMI error occurred when enumerating the instances for a particular class)");
    (0x8024A000, L "WU_E_AU_NOSERVICE\r\n(Automatic Updates was unable to service incoming requests)");
    (0x8024A002, L "WU_E_AU_NONLEGACYSERVER\r\n(The old version of the Automatic Updates client has stopped because the WSUS server has been upgraded)");
    (0x8024A003, L "WU_E_AU_LEGACYCLIENTDISABLED\r\n(The old version of the Automatic Updates client was disabled)");
    (0x8024A004, L "WU_E_AU_PAUSED\r\n(Automatic Updates was unable to process incoming requests because it was paused)");
    (0x8024A005, L "WU_E_AU_NO_REGISTERED_SERVICE\r\n(No unmanaged service is registered with AU)");
    (0x8024A006, L "WU_E_AU_DETECT_SVCID_MISMATCH\r\n(The default service registered with AU changed during the search)");
    (0x8024A007, L "WU_E_REBOOT_IN_PROGRESS\r\n(A reboot is in progress)");
    (0x8024A008, L "WU_E_AU_OOBE_IN_PROGRESS\r\n(Automatic Updates can't process incoming requests while Windows Welcome is running)");
    (0x8024AFFF, L "WU_E_AU_UNEXPECTED\r\n(An Automatic Updates error not covered by another WU_E_AU * code)");
    (0x80242000, L "WU_E_UH_REMOTEUNAVAILABLE\r\n(A request for a remote update handler could not be completed because no remote process is available)");
    (0x80242001, L "WU_E_UH_LOCALONLY\r\n(A request for a remote update handler could not be completed because the handler is local only)");
    (0x80242002, L "WU_E_UH_UNKNOWNHANDLER\r\n(A request for an update handler could not be completed because the handler could not be recognized)");
    (0x80242003, L "WU_E_UH_REMOTEALREADYACTIVE\r\n(A remote update handler could not be created because one already exists)");
    (0x80242004, L "WU_E_UH_DOESNOTSUPPORTACTION\r\n(A request for the handler to install (uninstall) an update could not be completed because the update does not support install (uninstall))");
    (0x80242005, L "WU_E_UH_WRONGHANDLER\r\n(An operation did not complete because the wrong handler was specified)");
    (0x80242006, L "WU_E_UH_INVALIDMETADATA\r\n(A handler operation could not be completed because the update contains invalid metadata)");
    (0x80242007, L "WU_E_UH_INSTALLERHUNG\r\n(An operation could not be completed because the installer exceeded the time limit)");
    (0x80242008, L "WU_E_UH_OPERATIONCANCELLED\r\n(An operation being done by the update handler was cancelled)");
    (0x80242009, L "WU_E_UH_BADHANDLERXML\r\n(An operation could not be completed because the handler-specific metadata is invalid)");
    (0x8024200A, L "WU_E_UH_CANREQUIREINPUT\r\n(A request to the handler to install an update could not be completed because the update requires user input)");
    (0x8024200B, L "WU_E_UH_INSTALLERFAILURE\r\n(The installer failed to install (uninstall) one or more updates)");
    (0x8024200C, L "WU_E_UH_FALLBACKTOSELFCONTAINED\r\n(The update handler should download self-contained content rather than delta-compressed content for the update)");
    (0x8024200D, L "WU_E_UH_NEEDANOTHERDOWNLOAD\r\n(The update handler did not install the update because it needs to be downloaded again)");
    (0x8024200E, L "WU_E_UH_NOTIFYFAILURE\r\n(The update handler failed to send notification of the status of the install (uninstall) operation)");
    (0x8024200F, L "WU_E_UH_INCONSISTENT_FILE_NAMES\r\n(The file names contained in the update metadata and in the update package are inconsistent)");
    (0x80242010, L "WU_E_UH_FALLBACKERROR\r\n(The update handler failed to fall back to the self-contained content)");
    (0x80242011, L "WU_E_UH_TOOMANYDOWNLOADREQUESTS\r\n(The update handler has exceeded the maximum number of download requests)");
    (0x80242012, L "WU_E_UH_UNEXPECTEDCBSRESPONSE\r\n(The update handler has received an unexpected response from CBS)");
    (0x80242013, L "WU_E_UH_BADCBSPACKAGEID\r\n(The update metadata contains an invalid CBS package identifier)");
    (0x80242014, L "WU_E_UH_POSTREBOOTSTILLPENDING\r\n(The post-reboot operation for the update is still in progress)");
    (0x80242015, L "WU_E_UH_POSTREBOOTRESULTUNKNOWN\r\n(The result of the post-reboot operation for the update could not be determined)");
    (0x80242016, L "WU_E_UH_POSTREBOOTUNEXPECTEDSTATE\r\n(The state of the update after its post-reboot operation has completed is unexpected)");
    (0x80242017, L "WU_E_UH_NEW_SERVICING_STACK_REQUIRED\r\n(The OS servicing stack must be updated before this update is downloaded or installed)");
    (0x80242018, L "WU_E_UH_CALLED_BACK_FAILURE\r\n(A callback installer called back with an error)");
    (0x80242019, L "WU_E_UH_CUSTOMINSTALLER_INVALID_SIGNATURE\r\n(The custom installer signature did not match the signature required by the update)");
    (0x8024201A, L "WU_E_UH_UNSUPPORTED_INSTALLCONTEXT\r\n(The installer does not support the installation configuration)");
    (0x8024201B, L "WU_E_UH_INVALID_TARGETSESSION\r\n(The targeted session for install is invalid)");
    (0x8024201C, L "WU_E_UH_DECRYPTFAILURE\r\n(The handler failed to decrypt the update files)");
    (0x8024201D, L "WU_E_UH_HANDLER_DISABLEDUNTILREBOOT\r\n(The update handler is disabled until the system reboots)");
    (0x8024201E, L "WU_E_UH_APPX_NOT_PRESENT\r\n(The AppX infrastructure is not present on the system)");
    (0x8024201F, L "WU_E_UH_NOTREADYTOCOMMIT\r\n(The update cannot be committed because it has not been previously installed or staged)");
    (0x80242020, L "WU_E_UH_APPX_INVALID_PACKAGE_VOLUME\r\n(The specified volume is not a valid AppX package volume)");
    (0x80242021, L "WU_E_UH_APPX_DEFAULT_PACKAGE_VOLUME_UNAVAILABLE\r\n(The configured default storage volume is unavailable)");
    (0x80242022, L "WU_E_UH_APPX_INSTALLED_PACKAGE_VOLUME_UNAVAILABLE\r\n(The volume on which the application is installed is unavailable)");
    (0x80242023, L "WU_E_UH_APPX_PACKAGE_FAMILY_NOT_FOUND\r\n(The specified package family is not present on the system)");
    (0x80242024, L "WU_E_UH_APPX_SYSTEM_VOLUME_NOT_FOUND\r\n(Unable to find a package volume marked as system)");
    (0x80242025, L "WU_E_UH_UA_SESSION_INFO_VERSION_NOT_SUPPORTED\r\n(UA does not support the version of OptionalSessionInfo)");
    (0x80242026, L "WU_E_UH_RESERVICING_REQUIRED_BASELINE\r\n(This operation cannot be completed. You must install the baseline update(s) before you can install this update)");
    (0x80242FFF, L "WU_E_UH_UNEXPECTED\r\n(An update handler error not covered by another WU_E_UH_* code)");
    (0x80246001, L "WU_E_DM_URLNOTAVAILABLE\r\n(A download manager operation could not be completed because the requested file does not have a URL)");
    (0x80246002, L "WU_E_DM_INCORRECTFILEHASH\r\n(A download manager operation could not be completed because the file digest was not recognized)");
    (0x80246003, L "WU_E_DM_UNKNOWNALGORITHM\r\n(A download manager operation could not be completed because the file metadata requested an unrecognized hash algorithm)");
    (0x80246004, L "WU_E_DM_NEEDDOWNLOADREQUEST\r\n(An operation could not be completed because a download request is required from the download handler)");
    (0x80246005, L "WU_E_DM_NONETWORK\r\n(A download manager operation could not be completed because the network connection was unavailable)");
    (0x80246006, L "WU_E_DM_WRONGBITSVERSION\r\n(A download manager operation could not be completed because the version of Background Intelligent Transfer Service (BITS) is incompatible)");
    (0x80246007, L "WU_E_DM_NOTDOWNLOADED\r\n(The update has not been downloaded)");
    (0x80246008, L "WU_E_DM_FAILTOCONNECTTOBITS\r\n(A download manager operation failed because the download manager was unable to connect the Background Intelligent Transfer Service (BITS))");
    (0x80246009, L "WU_E_DM_BITSTRANSFERERROR\r\n(A download manager operation failed because there was an unspecified Background Intelligent Transfer Service (BITS) transfer error)");
    (0x8024600A, L "WU_E_DM_DOWNLOADLOCATIONCHANGED\r\n(A download must be restarted because the location of the source of the download has changed)");
    (0x8024600B, L "WU_E_DM_CONTENTCHANGED\r\n(A download must be restarted because the update content changed in a new revision)");
    (0x8024600C, L "WU_E_DM_DOWNLOADLIMITEDBYUPDATESIZE\r\n(A download failed because the current network limits downloads by update size for the update service)");
    (0x8024600E, L "WU_E_DM_UNAUTHORIZED\r\n(The download failed because the client was denied authorization to download the content)");
    (0x8024600F, L "WU_E_DM_BG_ERROR_TOKEN_REQUIRED\r\n(The download failed because the user token associated with the BITS job no longer exists)");
    (0x80246010, L "WU_E_DM_DOWNLOADSANDBOXNOTFOUND\r\n(The sandbox directory for the downloaded update was not found)");
    (0x80246011, L "WU_E_DM_DOWNLOADFILEPATHUNKNOWN\r\n(The downloaded update has an unknown file path)");
    (0x80246012, L "WU_E_DM_DOWNLOADFILEMISSING\r\n(One or more of the files for the downloaded update is missing)");
    (0x80246013, L "WU_E_DM_UPDATEREMOVED\r\n(An attempt was made to access a downloaded update that has already been removed)");
    (0x80246014, L "WU_E_DM_READRANGEFAILED\r\n(Windows Update couldn't find a needed portion of a downloaded update's file)");
    (0x80246016, L "WU_E_DM_UNAUTHORIZED_NO_USER\r\n(The download failed because the client was denied authorization to download the content due to no user logged on)");
    (0x80246017, L "WU_E_DM_UNAUTHORIZED_LOCAL_USER\r\n(The download failed because the local user was denied authorization to download the content)");
    (0x80246018, L "WU_E_DM_UNAUTHORIZED_DOMAIN_USER\r\n(The download failed because the domain user was denied authorization to download the content)");
    (0x80246019, L "WU_E_DM_UNAUTHORIZED_MSA_USER\r\n(The download failed because the MSA account associated with the user was denied authorization to download the content)");
    (0x8024601A, L "WU_E_DM_FALLINGBACKTOBITS\r\n(The download will be continued by falling back to BITS to download the content)");
    (0x8024601B, L "WU_E_DM_DOWNLOAD_VOLUME_CONFLICT\r\n(Another caller has requested download to a different volume)");
    (0x8024601C, L "WU_E_DM_SANDBOX_HASH_MISMATCH\r\n(The hash of the update's sandbox does not match the expected value)");
    (0x8024601D, L "WU_E_DM_HARDRESERVEID_CONFLICT\r\n(The hard reserve id specified conflicts with an id from another caller)");
    (0x8024601E, L "WU_E_DM_DOSVC_REQUIRED\r\n(The update has to be downloaded via DO)");
    (0x8024601F, L "WU_E_DM_DOWNLOADTYPE_CONFLICT\r\n(Windows Update only supports one download type per update at one time. The download failure is by design here since the same update with different download type is operating. Please try again later)");
    (0x80246FFF, L "WU_E_DM_UNEXPECTED\r\n(There was a download manager error not covered by another WU_E_DM_* error code)");
    (0x8024D001, L "WU_E_SETUP_INVALID_INFDATA\r\n(Windows Update Agent could not be updated because an INF file contains invalid information)");
    (0x8024D002, L "WU_E_SETUP_INVALID_IDENTDATA\r\n(Windows Update Agent could not be updated because the wuident.cab file contains invalid information)");
    (0x8024D003, L "WU_E_SETUP_ALREADY_INITIALIZED\r\n(Windows Update Agent could not be updated because of an internal error that caused setup initialization to be performed twice)");
    (0x8024D004, L "WU_E_SETUP_NOT_INITIALIZED\r\n(Windows Update Agent could not be updated because setup initialization never completed successfully)");
    (0x8024D005, L "WU_E_SETUP_SOURCE_VERSION_MISMATCH\r\n(Windows Update Agent could not be updated because the versions specified in the INF do not match the actual source file versions)");
    (0x8024D006, L "WU_E_SETUP_TARGET_VERSION_GREATER\r\n(Windows Update Agent could not be updated because a WUA file on the target system is newer than the corresponding source file)");
    (0x8024D007, L "WU_E_SETUP_REGISTRATION_FAILED\r\n(Windows Update Agent could not be updated because regsvr32.exe returned an error)");
    (0x8024D008, L "WU_E_SELFUPDATE_SKIP_ON_FAILURE\r\n(An update to the Windows Update Agent was skipped because previous attempts to update have failed)");
    (0x8024D009, L "WU_E_SETUP_SKIP_UPDATE\r\n(An update to the Windows Update Agent was skipped due to a directive in the wuident.cab file)");
    (0x8024D00A, L "WU_E_SETUP_UNSUPPORTED_CONFIGURATION\r\n(Windows Update Agent could not be updated because the current system configuration is not supported)");
    (0x8024D00B, L "WU_E_SETUP_BLOCKED_CONFIGURATION\r\n(Windows Update Agent could not be updated because the system is configured to block the update)");
    (0x8024D00C, L "WU_E_SETUP_REBOOT_TO_FIX\r\n(Windows Update Agent could not be updated because a restart of the system is required)");
    (0x8024D00D, L "WU_E_SETUP_ALREADYRUNNING\r\n(Windows Update Agent setup is already running)");
    (0x8024D00E, L "WU_E_SETUP_REBOOTREQUIRED\r\n(Windows Update Agent setup package requires a reboot to complete installation)");
    (0x8024D00F, L "WU_E_SETUP_HANDLER_EXEC_FAILURE\r\n(Windows Update Agent could not be updated because the setup handler failed during execution)");
    (0x8024D010, L "WU_E_SETUP_INVALID_REGISTRY_DATA\r\n(Windows Update Agent could not be updated because the registry contains invalid information)");
    (0x8024D011, L "WU_E_SELFUPDATE_REQUIRED\r\n(Windows Update Agent must be updated before search can continue)");
    (0x8024D012, L "WU_E_SELFUPDATE_REQUIRED_ADMIN\r\n(Windows Update Agent must be updated before search can continue.  An administrator is required to perform the operation)");
    (0x8024D013, L "WU_E_SETUP_WRONG_SERVER_VERSION\r\n(Windows Update Agent could not be updated because the server does not contain update information for this version)");
    (0x8024D014, L "WU_E_SETUP_DEFERRABLE_REBOOT_PENDING\r\n(Windows Update Agent is successfully updated, but a reboot is required to complete the setup)");
    (0x8024D015, L "WU_E_SETUP_NON_DEFERRABLE_REBOOT_PENDING\r\n(Windows Update Agent is successfully updated, but a reboot is required to complete the setup)");
    (0x8024D016, L "WU_E_SETUP_FAIL\r\n(Windows Update Agent could not be updated because of an unknown error)");
    (0x8024DFFF, L "WU_E_SETUP_UNEXPECTED\r\n(Windows Update Agent could not be updated because of an error not covered by another WU_E_SETUP_* error code)");
    (0x8024E001, L "WU_E_EE_UNKNOWN_EXPRESSION\r\n(An expression evaluator operation could not be completed because an expression was unrecognized)");
    (0x8024E002, L "WU_E_EE_INVALID_EXPRESSION\r\n(An expression evaluator operation could not be completed because an expression was invalid)");
    (0x8024E003, L "WU_E_EE_MISSING_METADATA\r\n(An expression evaluator operation could not be completed because an expression contains an incorrect number of metadata nodes)");
    (0x8024E004, L "WU_E_EE_INVALID_VERSION\r\n(An expression evaluator operation could not be completed because the version of the serialized expression data is invalid)");
    (0x8024E005, L "WU_E_EE_NOT_INITIALIZED\r\n(The expression evaluator could not be initialized)");
    (0x8024E006, L "WU_E_EE_INVALID_ATTRIBUTEDATA\r\n(An expression evaluator operation could not be completed because there was an invalid attribute)");
    (0x8024E007, L "WU_E_EE_CLUSTER_ERROR\r\n(An expression evaluator operation could not be completed because the cluster state of the computer could not be determined)");
    (0x8024EFFF, L "WU_E_EE_UNEXPECTED\r\n(There was an expression evaluator error not covered by another WU_E_EE_* error code)");
    (0x80243001, L "WU_E_INSTALLATION_RESULTS_UNKNOWN_VERSION\r\n(The results of download and installation could not be read from the registry due to an unrecognized data format version)");
    (0x80243002, L "WU_E_INSTALLATION_RESULTS_INVALID_DATA\r\n(The results of download and installation could not be read from the registry due to an invalid data format)");
    (0x80243003, L "WU_E_INSTALLATION_RESULTS_NOT_FOUND\r\n(The results of download and installation are not available; the operation may have failed to start)");
    (0x80243004, L "WU_E_TRAYICON_FAILURE\r\n(A failure occurred when trying to create an icon in the taskbar notification area)");
    (0x80243FFD, L "WU_E_NON_UI_MODE\r\n(Unable to show UI when in non-UI mode; WU client UI modules may not be installed)");
    (0x80243FFE, L "WU_E_WUCLTUI_UNSUPPORTED_VERSION\r\n(Unsupported version of WU client UI exported functions)");
    (0x80243FFF, L "WU_E_AUCLIENT_UNEXPECTED\r\n(There was a user interface error not covered by another WU_E_AUCLIENT_* error code)");
    (0x8024F001, L "WU_E_REPORTER_EVENTCACHECORRUPT\r\n(The event cache file was defective)");
    (0x8024F002, L "WU_E_REPORTER_EVENTNAMESPACEPARSEFAILED\r\n(The XML in the event namespace descriptor could not be parsed)");
    (0x8024F003, L "WU_E_INVALID_EVENT\r\n(The XML in the event namespace descriptor could not be parsed)");
    (0x8024F004, L "WU_E_SERVER_BUSY\r\n(The server rejected an event because the server was too busy)");
    (0x8024F005, L "WU_E_CALLBACK_COOKIE_NOT_FOUND\r\n(The specified callback cookie is not found)");
    (0x8024FFFF, L "WU_E_REPORTER_UNEXPECTED\r\n(There was a reporter error not covered by another error code)");
    (0x80247001, L "WU_E_OL_INVALID_SCANFILE\r\n(An operation could not be completed because the scan package was invalid)");
    (0x80247002, L "WU_E_OL_NEWCLIENT_REQUIRED\r\n(An operation could not be completed because the scan package requires a greater version of the Windows Update Agent)");
    (0x80247003, L "WU_E_INVALID_EVENT_PAYLOAD\r\n(An invalid event payload was specified)");
    (0x80247004, L "WU_E_INVALID_EVENT_PAYLOADSIZE\r\n(The size of the event payload submitted is invalid)");
    (0x80247005, L "WU_E_SERVICE_NOT_REGISTERED\r\n(The service is not registered)");
    (0x80247FFF, L "WU_E_OL_UNEXPECTED\r\n(Search using the scan package failed)");
    (0x80247100, L "WU_E_METADATA_NOOP\r\n(No operation was required by update metadata verification)");
    (0x80247101, L "WU_E_METADATA_CONFIG_INVALID_BINARY_ENCODING\r\n(The binary encoding of metadata config data was invalid)");
    (0x80247102, L "WU_E_METADATA_FETCH_CONFIG\r\n(Unable to fetch required configuration for metadata signature verification)");
    (0x80247104, L "WU_E_METADATA_INVALID_PARAMETER\r\n(A metadata verification operation failed due to an invalid parameter)");
    (0x80247105, L "WU_E_METADATA_UNEXPECTED\r\n(A metadata verification operation failed due to reasons not covered by another error code)");
    (0x80247106, L "WU_E_METADATA_NO_VERIFICATION_DATA\r\n(None of the update metadata had verification data, which may be disabled on the update server)");
    (0x80247107, L "WU_E_METADATA_BAD_FRAGMENTSIGNING_CONFIG\r\n(The fragment signing configuration used for verifying update metadata signatures was bad)");
    (0x80247108, L "WU_E_METADATA_FAILURE_PROCESSING_FRAGMENTSIGNING_CONFIG\r\n(There was an unexpected operational failure while parsing fragment signing configuration)");
    (0x80247120, L "WU_E_METADATA_XML_MISSING\r\n(Required xml data was missing from configuration)");
    (0x80247121, L "WU_E_METADATA_XML_FRAGMENTSIGNING_MISSING\r\n(Required fragmentsigning data was missing from xml configuration)");
    (0x80247122, L "WU_E_METADATA_XML_MODE_MISSING\r\n(Required mode data was missing from xml configuration)");
    (0x80247123, L "WU_E_METADATA_XML_MODE_INVALID\r\n(An invalid metadata enforcement mode was detected)");
    (0x80247124, L "WU_E_METADATA_XML_VALIDITY_INVALID\r\n(An invalid timestamp validity window configuration was detected)");
    (0x80247125, L "WU_E_METADATA_XML_LEAFCERT_MISSING\r\n(Required leaf certificate data was missing from xml configuration)");
    (0x80247126, L "WU_E_METADATA_XML_INTERMEDIATECERT_MISSING\r\n(Required intermediate certificate data was missing from xml configuration)");
    (0x80247127, L "WU_E_METADATA_XML_LEAFCERT_ID_MISSING\r\n(Required leaf certificate id attribute was missing from xml configuration)");
    (0x80247128, L "WU_E_METADATA_XML_BASE64CERDATA_MISSING\r\n(Required certificate base64CerData attribute was missing from xml configuration)");
    (0x80247140, L "WU_E_METADATA_BAD_SIGNATURE\r\n(The metadata for an update was found to have a bad or invalid digital signature)");
    (0x80247141, L "WU_E_METADATA_UNSUPPORTED_HASH_ALG\r\n(An unsupported hash algorithm for metadata verification was specified)");
    (0x80247142, L "WU_E_METADATA_SIGNATURE_VERIFY_FAILED\r\n(An error occurred during an update's metadata signature verification)");
    (0x80247150, L "WU_E_METADATATRUST_CERTIFICATECHAIN_VERIFICATION\r\n(An failure occurred while verifying trust for metadata signing certificate chains)");
    (0x80247151, L "WU_E_METADATATRUST_UNTRUSTED_CERTIFICATECHAIN\r\n(A metadata signing certificate had an untrusted certificate chain)");
    (0x80247160, L "WU_E_METADATA_TIMESTAMP_TOKEN_MISSING\r\n(An expected metadata timestamp token was missing)");
    (0x80247161, L "WU_E_METADATA_TIMESTAMP_TOKEN_VERIFICATION_FAILED\r\n(A metadata Timestamp token failed verification)");
    (0x80247162, L "WU_E_METADATA_TIMESTAMP_TOKEN_UNTRUSTED\r\n(A metadata timestamp token signer certificate chain was untrusted)");
    (0x80247163, L "WU_E_METADATA_TIMESTAMP_TOKEN_VALIDITY_WINDOW\r\n(A metadata signature timestamp token was no longer within the validity window)");
    (0x80247164, L "WU_E_METADATA_TIMESTAMP_TOKEN_SIGNATURE\r\n(A metadata timestamp token failed signature validation)");
    (0x80247165, L "WU_E_METADATA_TIMESTAMP_TOKEN_CERTCHAIN\r\n(A metadata timestamp token certificate failed certificate chain verification)");
    (0x80247166, L "WU_E_METADATA_TIMESTAMP_TOKEN_REFRESHONLINE\r\n(A failure occurred when refreshing a missing timestamp token from the network)");
    (0x80247167, L "WU_E_METADATA_TIMESTAMP_TOKEN_ALL_BAD\r\n(All update metadata verification timestamp tokens from the timestamp token cache are invalid)");
    (0x80247168, L "WU_E_METADATA_TIMESTAMP_TOKEN_NODATA\r\n(No update metadata verification timestamp tokens exist in the timestamp token cache)");
    (0x80247169, L "WU_E_METADATA_TIMESTAMP_TOKEN_CACHELOOKUP\r\n(An error occurred during cache lookup of update metadata verification timestamp token)");
    (0x8024717E, L "WU_E_METADATA_TIMESTAMP_TOKEN_VALIDITYWINDOW_UNEXPECTED\r\n(An metadata timestamp token validity window failed unexpectedly due to reasons not covered by another error code)");
    (0x8024717F, L "WU_E_METADATA_TIMESTAMP_TOKEN_UNEXPECTED\r\n(An metadata timestamp token verification operation failed due to reasons not covered by another error code)");
    (0x80247180, L "WU_E_METADATA_CERT_MISSING\r\n(An expected metadata signing certificate was missing)");
    (0x80247181, L "WU_E_METADATA_LEAFCERT_BAD_TRANSPORT_ENCODING\r\n(The transport encoding of a metadata signing leaf certificate was malformed)");
    (0x80247182, L "WU_E_METADATA_INTCERT_BAD_TRANSPORT_ENCODING\r\n(The transport encoding of a metadata signing intermediate certificate was malformed)");
    (0x80247183, L "WU_E_METADATA_CERT_UNTRUSTED\r\n(A metadata certificate chain was untrusted)");
    (0x8024B001, L "WU_E_WUTASK_INPROGRESS\r\n(The task is currently in progress)");
    (0x8024B002, L "WU_E_WUTASK_STATUS_DISABLED\r\n(The operation cannot be completed since the task status is currently disabled)");
    (0x8024B003, L "WU_E_WUTASK_NOT_STARTED\r\n(The operation cannot be completed since the task is not yet started)");
    (0x8024B004, L "WU_E_WUTASK_RETRY\r\n(The task was stopped and needs to be run again to complete)");
    (0x8024B005, L "WU_E_WUTASK_CANCELINSTALL_DISALLOWED\r\n(Cannot cancel a non-scheduled install)");
    (0x8024B101, L "WU_E_UNKNOWN_HARDWARECAPABILITY\r\n(Hardware capability meta data was not found after a sync with the service)");
    (0x8024B102, L "WU_E_BAD_XML_HARDWARECAPABILITY\r\n(Hardware capability meta data was malformed and/or failed to parse)");
    (0x8024B103, L "WU_E_WMI_NOT_SUPPORTED\r\n(Unable to complete action due to WMI dependency, which isn't supported on this platform)");
    (0x8024B104, L "WU_E_UPDATE_MERGE_NOT_ALLOWED\r\n(Merging of the update is not allowed)");
    (0x8024B105, L "WU_E_SKIPPED_UPDATE_INSTALLATION\r\n(Installing merged updates only. So skipping non mergeable updates)");
    (0x8024B201, L "WU_E_SLS_INVALID_REVISION\r\n(SLS response returned invalid revision number)");
    (0x8024B301, L "WU_E_FILETRUST_DUALSIGNATURE_RSA\r\n(File signature validation fails to find valid RSA signature on infrastructure payload)");
    (0x8024B302, L "WU_E_FILETRUST_DUALSIGNATURE_ECC\r\n(File signature validation fails to find valid ECC signature on infrastructure payload)");
    (0x8024B303, L "WU_E_TRUST_SUBJECT_NOT_TRUSTED\r\n(The subject is not trusted by WU for the specified action)");
    (0x8024B304, L "WU_E_TRUST_PROVIDER_UNKNOWN\r\n(Unknown trust provider for WU)") ].

Inductive table := tWU | tLDAP | tBugCheck.

(** The three global maps of the program. *)
Record globals := Globals {
  g_mWU : gmap Z wstring;
  g_mLDAP : gmap Z wstring;
  g_mBugCheck : gmap Z wstring
}.

Definition get_table (t : table) (g : globals) : gmap Z wstring :=
  match t with
  | tWU => g_mWU g
  | tLDAP => g_mLDAP g
  | tBugCheck => g_mBugCheck g
  end.

Definition set_table (t : table) (m : gmap Z wstring) (g : globals) : globals :=
  match t with
  | tWU => Globals m (g_mLDAP g) (g_mBugCheck g)
  | tLDAP => Globals (g_mWU g) m (g_mBugCheck g)
  | tBugCheck => Globals (g_mWU g) (g_mLDAP g) m
  end.

(** One statement [m[key] = text]: the subscript narrows the key to [int],
    creates the entry when it is missing, and the assignment overwrites its
    value. *)
Definition assign (m : gmap Z wstring) (d : Z * wstring) : gmap Z wstring :=
  <[int32 d.1 := d.2]> m.

Definition assign_all (ds : list (Z * wstring)) (m : gmap Z wstring) :
    gmap Z wstring :=
  foldl assign m ds.

Definition setBugCheckCodes (g : globals) : globals :=
  set_table tBugCheck (assign_all BugCheck_assignments (g_mBugCheck g)) g.

Definition setLDAPCodes (g : globals) : globals :=
  set_table tLDAP (assign_all LDAP_assignments (g_mLDAP g)) g.

Definition setWUCodes (g : globals) : globals :=
  set_table tWU (assign_all WU_assignments (g_mWU g)) g.

(** The globals are default-constructed (empty) before [wWinMain] runs. *)
Definition static_init : globals := Globals ∅ ∅ ∅.

(** The tables as [wWinMain] leaves them before it opens the dialog (lines
    1228-1234). *)
Definition startup_globals : globals :=
  setBugCheckCodes (setLDAPCodes (setWUCodes static_init)).

Definition assignments_of (t : table) : list (Z * wstring) :=
  match t with
  | tWU => WU_assignments
  | tLDAP => LDAP_assignments
  | tBugCheck => BugCheck_assignments
  end.

(** ** What the program asks of Windows *)

(** The routines of Windows that the search command consults.  Their code is
    not part of the repository, so the program is modelled over any choice of
    them:
    - [StrToIntEx s] is [StrToIntEx(s, STIF_SUPPORT_HEX, &iValue)]: [Some v]
      when it returns [TRUE] and stores [v], [None] when it returns [FALSE];
    - [FormatMessage_SYSTEM id] and [FormatMessage_HMODULE id] are the buffers
      [FormatMessage] allocates from the system table and from the message
      table of ntdll.dll; the number of characters it returns is the length of
      the buffer, and a failed call returns 0, which is the empty buffer here;
    - [GetModuleHandle_ntdll] tells whether [GetModuleHandle(L"ntdll.dll")] is
      not [NULL];
    - [RegSetKeyValue_succeeds s] tells whether [RegSetKeyValue] stores [s]
      as the value [LastInput] (it returns [ERROR_SUCCESS]) or fails and
      leaves the registry as it is. *)
Class OS := {
  StrToIntEx : wstring -> option Z;
  FormatMessage_SYSTEM : Z -> wstring;
  GetModuleHandle_ntdll : bool;
  FormatMessage_HMODULE : Z -> wstring;
  RegSetKeyValue_succeeds : wstring -> bool
}.

(** [StrTrim(psz, pszTrimChars)] of shlwapi (lines 1447 and 1458), a routine
    of Windows, by its contract: the characters of [pszTrimChars] are removed
    from both ends of the string, nothing in between is touched. *)
Fixpoint trim_leading (set : wstring) (s : wstring) : wstring :=
  match s with
  | [] => []
  | c :: s' => if wcschr set c then trim_leading set s' else s
  end.

Definition StrTrim (psz : wstring) (pszTrimChars : wstring) : wstring :=
  rev (trim_leading pszTrimChars (rev (trim_leading pszTrimChars psz))).

(** The case [WM_CHAR] of [SignedIntegerHexSubclassProc] (lines 1289-1298),
    the filter on what is typed into the input control: [true] when the
    character is let through, [at_start] is [IsAtStartOfEditControl]. *)
Definition SignedIntegerHexSubclassProc_WM_CHAR (at_start : bool)
    (ch : wchar_t) : bool :=
  if ch <? 32 then true (* let control character through *)
  else if ((ch =? 45) || (ch =? 0x2212)) && at_start then true
  else if wcschr (L "0123456789xabcdefABCDEF") ch then true
  else false.

(** ** The state the dialog procedure works on *)

(** A call the search command makes to one of its five sources. *)
Inductive query :=
  | Q_FormatMessage_SYSTEM (id : Z)
  | Q_GetModuleHandle
  | Q_FormatMessage_HMODULE (id : Z)
  | Q_count (t : table) (k : Z)
  | Q_subscript (t : table) (k : Z).

(** [IDC_INPUT] and [IDC_OUTPUT] hold the text of the two controls, [None]
    when [GetDlgItem] yields [NULL]; [LastInput] is the registry value
    [HKCU\Software\CodingABI\TranslateErrorCode\LastInput]; [queries] records
    the calls to the sources, oldest first. *)
Record world := World {
  tables : globals;
  IDC_INPUT : option wstring;
  IDC_OUTPUT : option wstring;
  LastInput : option wstring;
  ended : bool;
  queries : list query
}.

Definition with_tables (g : globals) (w : world) : world :=
  World g (IDC_INPUT w) (IDC_OUTPUT w) (LastInput w) (ended w) (queries w).
Definition with_input (s : option wstring) (w : world) : world :=
  World (tables w) s (IDC_OUTPUT w) (LastInput w) (ended w) (queries w).
Definition with_output (s : option wstring) (w : world) : world :=
  World (tables w) (IDC_INPUT w) s (LastInput w) (ended w) (queries w).
Definition with_LastInput (s : option wstring) (w : world) : world :=
  World (tables w) (IDC_INPUT w) (IDC_OUTPUT w) s (ended w) (queries w).
Definition with_ended (b : bool) (w : world) : world :=
  World (tables w) (IDC_INPUT w) (IDC_OUTPUT w) (LastInput w) b (queries w).
Definition with_queries (q : list query) (w : world) : world :=
  World (tables w) (IDC_INPUT w) (IDC_OUTPUT w) (LastInput w) (ended w) q.

(** Statements of the program: state transformers with a result. *)
Definition M (A : Type) : Type := world -> A * world.

#[global] Instance M_ret : MRet M := fun A a w => (a, w).
#[global] Instance M_bind : MBind M :=
  fun A B f m w => let (a, w') := m w in f a w'.

Definition gets {A : Type} (f : world -> A) : M A := fun w => (f w, w).
Definition modify (f : world -> world) : M unit := fun w => (tt, f w).

Definition asked (q : query) : M unit :=
  modify (fun w => with_queries (queries w ++ [q]) w).

(** [m.count(k)] of [std::map]: 1 when the key is present, 0 otherwise; the
    map is not changed. *)
Definition count (t : table) (k : Z) : M Z :=
  asked (Q_count t k);;
  m ← gets (fun w => get_table t (tables w));
  mret (match m !! k with Some _ => 1 | None => 0 end).

(** [m[k]] of [std::map] read as a value: the mapped string when the key is
    present; when it is missing, an entry with the empty string is inserted
    first. *)
Definition subscript (t : table) (k : Z) : M wstring :=
  asked (Q_subscript t k);;
  m ← gets (fun w => get_table t (tables w));
  match m !! k with
  | Some s => mret s
  | None =>
      modify (fun w => with_tables (set_table t (<[k := []]> m) (tables w)) w);;
      mret []
  end.

Section Program.
Context `{OS}.

Definition FormatMessage_FROM_SYSTEM (id : Z) : M wstring :=
  asked (Q_FormatMessage_SYSTEM id);; mret (FormatMessage_SYSTEM id).

Definition FormatMessage_FROM_HMODULE (id : Z) : M wstring :=
  asked (Q_FormatMessage_HMODULE id);; mret (FormatMessage_HMODULE id).

Definition GetModuleHandle : M bool :=
  asked Q_GetModuleHandle;; mret GetModuleHandle_ntdll.

(** Max chars for error code input edit control. *)
Definition MAXVALUELENTH : nat := 30.

(** [GetWindowText(hInput, szValue, MAXVALUELENTH + 1)]: at most
    [MAXVALUELENTH] characters are copied. *)
Definition GetWindowText (text : wstring) : wstring := take MAXVALUELENTH text.

(** [RegSetKeyValue(..., L"LastInput", REG_SZ, szValue, ...)] (line 1430); the
    program does not look at the status it returns. *)
Definition RegSetKeyValue_LastInput (szValue : wstring) : M unit :=
  if RegSetKeyValue_succeeds szValue
  then modify (with_LastInput (Some szValue))
  else mret tt.

Definition SetWindowText_output (s : wstring) : M unit :=
  modify (with_output (Some s)).

(** Lines 1435-1440: the numeric values. *)
Definition numeric_values (iValue : Z) : wstring :=
  (L "DWORD \t" ++ to_wstring_unsigned (DWORD iValue) ++ L "\r\n")
    ++ (L "int \t" ++ to_wstring_int iValue ++ L "\r\n")
    ++ (L "Hex \t" ++ snwprintf_0x08X iValue).

(** Lines 1431-1475 of [WndProcMainDialog]: the message for [iValue]. *)
Definition translate (iValue : Z) : M wstring :=
  let sMessage := numeric_values iValue in
  (* Get message for Win32/HRESULT *)
  messageBuffer ← FormatMessage_FROM_SYSTEM iValue;
  let size := Z.of_nat (length messageBuffer) in
  let sMessage :=
    if 0 <? size
    then sMessage ++ L "\r\n\r\nWin32/HRESULT: " ++ StrTrim messageBuffer (L "\n")
    else sMessage in
  (* Get message for NTSTATUS *)
  hDLL ← GetModuleHandle;
  sMessage ←
    (if (hDLL : bool) then
       (* the module argument of [FormatMessage] is a second call (line 1456) *)
       GetModuleHandle;;
       messageBuffer ← FormatMessage_FROM_HMODULE iValue;
       let size := Z.of_nat (length messageBuffer) in
       mret (if 0 <? size
             then sMessage ++ L "\r\n\r\nNTSTATUS: " ++ StrTrim messageBuffer (L "\r\n")
             else sMessage)
     else mret sMessage);
  (* Get message for windows update *)
  n ← count tWU iValue;
  sMessage ←
    (if 0 <? (n : Z) then
       s ← subscript tWU iValue; mret (sMessage ++ L "\r\n\r\nWU: " ++ s)
     else mret sMessage);
  (* Get message for LDAP *)
  n ← count tLDAP iValue;
  sMessage ←
    (if 0 <? (n : Z) then
       s ← subscript tLDAP iValue; mret (sMessage ++ L "\r\n\r\nLDAP: " ++ s)
     else mret sMessage);
  (* Get message for stop codes *)
  n ← count tBugCheck iValue;
  sMessage ←
    (if 0 <? (n : Z) then
       s ← subscript tBugCheck iValue;
       mret (sMessage ++ L "\r\n\r\nStopCode/BugCheck: " ++ s)
     else mret sMessage);
  mret sMessage.

(** Lines 1421-1482: the command [IDOK] or [IDC_BUTTONSEARCH]. *)
Definition search : M unit :=
  hInput ← gets IDC_INPUT;
  match hInput with
  | None => mret tt
  | Some text =>
      let szValue := GetWindowText text in
      match StrToIntEx szValue with
      | None => mret tt
      | Some v =>
          let iValue := int32 v in
          (* Store input in registry *)
          RegSetKeyValue_LastInput szValue;;
          sMessage ← translate iValue;
          hOutput ← gets IDC_OUTPUT;
          match hOutput with
          | None => mret tt
          | Some _ => SetWindowText_output sMessage (* Set output text *)
          end
      end
  end.

(** Lines 1334-1348 of [WM_INITDIALOG]: the stored input is put back into the
    input control.  The first [RegGetValue] accepts a value of at most
    [(MAXVALUELENTH + 2) * sizeof(WCHAR)] bytes, the second one reads into a
    buffer of [MAXVALUELENTH + 1] characters and fails on a longer value, so a
    value is restored when it has at most [MAXVALUELENTH] characters. *)
Definition restore_LastInput : M unit :=
  hInput ← gets IDC_INPUT;
  stored ← gets LastInput;
  match hInput, stored with
  | Some _, Some szValue =>
      if (length szValue <=? MAXVALUELENTH)%nat
      then modify (with_input (Some szValue))
      else mret tt
  | _, _ => mret tt
  end.

Inductive command := IDCANCEL | IDOK | IDC_BUTTONSEARCH | other_command.
Inductive message := WM_INITDIALOG | WM_COMMAND (id : command) | other_message.

(** The dialog procedure, as far as the state of this model goes (tool tips,
    colors and the link to the project page are left out); the result is
    [true] for [(INT_PTR)TRUE]. *)
Definition WndProcMainDialog (msg : message) : M bool :=
  match msg with
  | WM_INITDIALOG => restore_LastInput;; mret false
  | WM_COMMAND IDCANCEL => modify (with_ended true);; mret true
  | WM_COMMAND IDOK | WM_COMMAND IDC_BUTTONSEARCH => search;; mret false
  | _ => mret false
  end.

(** [DialogBox]: the dialog procedure receives the messages one after the
    other. *)
Definition DialogBox (msgs : list message) : M unit :=
  fun w => (tt, foldl (fun w msg => (WndProcMainDialog msg w).2) w msgs).

(** [wWinMain] (lines 1228-1237): the three tables are filled, then the dialog
    runs; [input], [output] and [registry] are what the dialog and the
    registry hold when it opens. *)
Definition wWinMain (input output registry : option wstring)
    (msgs : list message) : world :=
  (DialogBox msgs
     (World startup_globals input output registry false [])).2.

End Program.

(** ** The report as the specification describes it *)

(** The five sources of spec 4.3, in the order of its steps 2 to 6. *)
Inductive source := Win32_HRESULT | NTSTATUS | WU | LDAP | StopCode_BugCheck.

Definition all_sources : list source :=
  [Win32_HRESULT; NTSTATUS; WU; LDAP; StopCode_BugCheck].

Definition label (s : source) : wstring :=
  match s with
  | Win32_HRESULT => L "Win32/HRESULT"
  | NTSTATUS => L "NTSTATUS"
  | WU => L "WU"
  | LDAP => L "LDAP"
  | StopCode_BugCheck => L "StopCode/BugCheck"
  end.

(** The first call the program makes to a source. *)
Definition probe (s : source) (v : Z) : query :=
  match s with
  | Win32_HRESULT => Q_FormatMessage_SYSTEM v
  | NTSTATUS => Q_GetModuleHandle
  | WU => Q_count tWU v
  | LDAP => Q_count tLDAP v
  | StopCode_BugCheck => Q_count tBugCheck v
  end.

Definition is_probe (q : query) : bool :=
  match q with
  | Q_FormatMessage_SYSTEM _ | Q_GetModuleHandle | Q_count _ _ => true
  | Q_FormatMessage_HMODULE _ | Q_subscript _ _ => false
  end.

Definition nonempty (s : wstring) : option wstring :=
  match s with [] => None | _ :: _ => Some s end.

Section Report.
Context `{OS}.

(** The two lookups of the System Message Provider of spec 6. *)
Definition genericStatusText (v : Z) : option wstring :=
  nonempty (FormatMessage_SYSTEM v).

Definition kernelStatusText (v : Z) : option wstring :=
  if GetModuleHandle_ntdll then nonempty (FormatMessage_HMODULE v) else None.

(** What a source yields for [v], as the text of its section; [None] when the
    source has no match. *)
Definition yield (g : globals) (v : Z) (s : source) : option wstring :=
  match s with
  | Win32_HRESULT => (fun d => StrTrim d (L "\n")) <$> genericStatusText v
  | NTSTATUS => (fun d => StrTrim d (L "\r\n")) <$> kernelStatusText v
  | WU => g_mWU g !! v
  | LDAP => g_mLDAP g !! v
  | StopCode_BugCheck => g_mBugCheck g !! v
  end.

(** A labeled section, with the blank line that separates it from what
    precedes it. *)
Definition section (s : source) (text : wstring) : wstring :=
  L "\r\n\r\n" ++ label s ++ L ": " ++ text.

(** The sources that match [v] with their texts, in the fixed order. *)
Definition hits (g : globals) (v : Z) : list (source * wstring) :=
  omap (fun s => pair s <$> yield g v s) all_sources.

Definition report (g : globals) (v : Z) : wstring :=
  numeric_values v ++ concat (map (fun h => section h.1 h.2) (hits g v)).

(** The calls a resolution of [v] makes, in order. *)
Definition queries_of (g : globals) (v : Z) : list query :=
  [Q_FormatMessage_SYSTEM v; Q_GetModuleHandle]
  ++ (if GetModuleHandle_ntdll
      then [Q_GetModuleHandle; Q_FormatMessage_HMODULE v] else [])
  ++ flat_map (fun t => Q_count t v ::
                 match get_table t g !! v with
                 | Some _ => [Q_subscript t v]
                 | None => []
                 end) [tWU; tLDAP; tBugCheck].

(** The registry after [RegSetKeyValue] has been asked to store [szValue]. *)
Definition written (szValue : wstring) (w : world) : world :=
  if RegSetKeyValue_succeeds szValue
  then with_LastInput (Some szValue) w
  else w.

(** What the search command leaves behind, case by case. *)
Definition after_search (w : world) : world :=
  match IDC_INPUT w with
  | None => w
  | Some text =>
      match StrToIntEx (GetWindowText text) with
      | None => w
      | Some v =>
          let w1 :=
            with_queries (queries w ++ queries_of (tables w) (int32 v))
              (written (GetWindowText text) w) in
          match IDC_OUTPUT w with
          | None => w1
          | Some _ => with_output (Some (report (tables w) (int32 v))) w1
          end
      end
  end.

End Report.

(** ** The Value Parser as the specification describes it *)

(** The program parses with the routine [StrToIntEx] of Windows, called at
    line 1428, whose code is not part of the repository.  The definitions of
    this part follow spec 4.2 and spec 8 instead. *)

(** Modelled from the spec: the leading sign of spec 4.2, [-] or the Unicode
    minus U+2212; the code of [StrToIntEx] is missing. *)
Definition is_minus (c : wchar_t) : bool := (c =? 45) || (c =? 0x2212).

(** Modelled from the spec: the letter of the prefix [0x] or [0X] of spec 4.2;
    the code of [StrToIntEx] is missing. *)
Definition is_x (c : wchar_t) : bool := (c =? 120) || (c =? 88).

(** Modelled from the spec: the number after the sign, plain decimal digits or
    a [0x]/[0X]-prefixed sequence of hexadecimal digits of either case (spec
    4.2); the code of [StrToIntEx] is missing. *)
Definition magnitude (s : wstring) : option Z :=
  match s with
  | [] => None
  | c0 :: c1 :: d :: ds =>
      if (c0 =? 48) && is_x c1 then hex_value (d :: ds) else dec_value s
  | _ => dec_value s
  end.

(** Modelled from the spec: the range that a 32-bit signed or unsigned integer
    represents (spec 4.2: a value outside it fails; spec 8: [0xFFFFFFFF] is
    accepted); the code of [StrToIntEx] is missing. *)
Definition in_range (n : Z) : bool := (- 2 ^ 31 <=? n) && (n <=? 2 ^ 32 - 1).

(** Modelled from the spec: the number a text denotes, an optional leading
    sign and a magnitude (spec 4.2), before the range is looked at; the code
    of [StrToIntEx] is missing. *)
Definition literal_value (s : wstring) : option Z :=
  match s with
  | [] => None
  | c :: s' =>
      if is_minus c then Z.opp <$> magnitude s' else magnitude s
  end.

(** Modelled from the spec: the Value Parser of spec 4.2, in place of
    [StrToIntEx], whose code is missing.  No value for the empty text, for a
    text that is not a literal and for a number outside the range; otherwise
    the number as a signed 32-bit integer ([0xFFFFFFFF] parses to -1, spec
    8). *)
Definition ValueParser (s : wstring) : option Z :=
  match literal_value s with
  | Some n => if in_range n then Some (int32 n) else None
  | None => None
  end.

(** The grammar of the literals, stated apart from the parser. *)
Inductive literal : wstring -> Z -> Prop :=
  | literal_dec ds n :
      ds <> [] -> dec_value ds = Some n -> literal ds n
  | literal_hex x ds n :
      is_x x = true -> ds <> [] -> hex_value ds = Some n ->
      literal (48 :: x :: ds) n.

Inductive signed_literal : wstring -> Z -> Prop :=
  | unsigned_literal s n : literal s n -> signed_literal s n
  | negative_literal c s n :
      is_minus c = true -> literal s n -> signed_literal (c :: s) (- n).

(** The characters of the class [[0-9a-fA-Fx-]] of spec 4.2. *)
Definition in_spec_class (c : wchar_t) : bool :=
  wcschr (L "0123456789abcdefABCDEFx-") c.

(** The characters a literal of the grammar is made of: the class above, the
    upper-case [X] of the prefix and the Unicode minus. *)
Definition literal_char (c : wchar_t) : bool :=
  in_spec_class c || (c =? 88) || (c =? 0x2212).

(** ** A machine to run the program on *)

(** An instance of [OS] for the examples: the parser is the one of the
    specification, the system table knows the codes 0 and 5 with the texts
    Windows has for them (in English), ntdll.dll is loaded and its table knows
    the code 0, the registry can be written. *)
Definition example_FormatMessage_SYSTEM (id : Z) : wstring :=
  if id =? 0 then L "The operation completed successfully.\r\n"
  else if id =? 5 then L "Access is denied.\r\n"
  else [].

Definition example_FormatMessage_HMODULE (id : Z) : wstring :=
  if id =? 0 then L "STATUS_SUCCESS\r\n" else [].

Definition example_OS : OS :=
  {| StrToIntEx := ValueParser;
     FormatMessage_SYSTEM := example_FormatMessage_SYSTEM;
     GetModuleHandle_ntdll := true;
     FormatMessage_HMODULE := example_FormatMessage_HMODULE;
     RegSetKeyValue_succeeds := fun _ => true |}.

(** A machine on which neither table of messages knows any code (the stub of
    spec 9). *)
Definition silent_OS : OS :=
  {| StrToIntEx := ValueParser;
     FormatMessage_SYSTEM := fun _ => [];
     GetModuleHandle_ntdll := true;
     FormatMessage_HMODULE := fun _ => [];
     RegSetKeyValue_succeeds := fun _ => true |}.


(** A machine like [example_OS] whose registry cannot be written. *)
Definition read_only_OS : OS :=
  {| StrToIntEx := ValueParser;
     FormatMessage_SYSTEM := example_FormatMessage_SYSTEM;
     GetModuleHandle_ntdll := true;
     FormatMessage_HMODULE := example_FormatMessage_HMODULE;
     RegSetKeyValue_succeeds := fun _ => false |}.

(** The dialog as [wWinMain] opens it, with [text] in the input control. *)
Definition opened (text : wstring) : world :=
  World startup_globals (Some text) (Some []) None false [].

(** [contains needle hay]: [needle] occurs in [hay] as a run of consecutive
    characters. *)
Fixpoint starts_with (needle hay : wstring) : bool :=
  match needle, hay with
  | [], _ => true
  | _ :: _, [] => false
  | a :: needle', b :: hay' => (a =? b) && starts_with needle' hay'
  end.

Fixpoint contains (needle hay : wstring) : bool :=
  starts_with needle hay ||
  match hay with
  | [] => false
  | _ :: hay' => contains needle hay'
  end.

(** The decimal text of an [int]: an optional [-] and digits. *)
Definition signed_dec_value (s : wstring) : option Z :=
  match s with
  | c :: ds => if c =? 45 then Z.opp <$> dec_value ds else dec_value s
  | [] => dec_value s
  end.

Definition is_upper_hex (c : wchar_t) : bool :=
  ((48 <=? c) && (c <=? 57)) || ((65 <=? c) && (c <=? 70)).

(** ** The hexadecimal conversion and its buffer, as written *)

(** The digits the conversion [%X] prints for an unsigned value: upper case,
    no leading zero, one digit for 0; [fuel] bounds their number (eight for
    32 bits). *)
Fixpoint hex_minimal (fuel : nat) (n : Z) (acc : wstring) : wstring :=
  match fuel with
  | O => acc
  | S fuel' =>
      let acc' := digit_char (n mod 16) :: acc in
      if n / 16 =? 0 then acc' else hex_minimal fuel' (n / 16) acc'
  end.

(** The conversion [%08X]: the digits of [%X], padded on the left with zeros
    to a width of eight. *)
Definition printf_08X (n : Z) : wstring :=
  let ds := hex_minimal 8 n [] in
  replicate (8 - length ds) 48 ++ ds.

(** [_snwprintf_s(buffer, sizeOfBuffer, _TRUNCATE, ...)]: what the buffer
    holds in front of its terminator, the formatted text cut to
    [sizeOfBuffer - 1] characters. *)
Definition snwprintf_s_TRUNCATE (sizeOfBuffer : nat) (formatted : wstring) :
    wstring :=
  take (sizeOfBuffer - 1) formatted.

(** Char length for DWORD to hex conversion (line 1431). *)
Definition _MAX_ITOSTR_BASE16_COUNT : nat := 8 + 1.

(** Lines 1432 and 1436: [szHex] has [_MAX_ITOSTR_BASE16_COUNT + 2] elements
    and receives the format [0x%08X] of [iValue]. *)
Definition szHex (iValue : Z) : wstring :=
  snwprintf_s_TRUNCATE (_MAX_ITOSTR_BASE16_COUNT + 2)
    (L "0x" ++ printf_08X (DWORD iValue)).

(** ** The brush of the output control *)

(** [g_hbrOutputBackground] (0 is [NULL]) and the brushes that have been
    created and not deleted. *)
Record gdi := Gdi {
  g_hbrOutputBackground : Z;
  live_brushes : list Z
}.

(** The two messages that touch the brush.  [WM_CTLCOLORSTATIC] comes with
    whether its control is [IDC_OUTPUT] and with the handle that
    [CreateSolidBrush] returns if it is called (0 when it fails). *)
Inductive paint_message :=
  | WM_CTLCOLORSTATIC (for_output : bool) (CreateSolidBrush_result : Z)
  | WM_DESTROY.

(** [DeleteObject(h)]: the brush is no longer live. *)
Fixpoint DeleteObject (h : Z) (live : list Z) : list Z :=
  match live with
  | [] => []
  | h' :: live' => if h' =? h then live' else h' :: DeleteObject h live'
  end.

(** The cases [WM_CTLCOLORSTATIC] (lines 1396-1409) and [WM_DESTROY] (lines
    1410-1415) of [WndProcMainDialog]; the result is the [INT_PTR]
    returned. *)
Definition WndProcMainDialog_paint (msg : paint_message) (s : gdi) : Z * gdi :=
  match msg with
  | WM_CTLCOLORSTATIC true created =>
      if g_hbrOutputBackground s =? 0 then
        (created,
         Gdi created
           (if created =? 0 then live_brushes s else created :: live_brushes s))
      else (g_hbrOutputBackground s, s)
  | WM_CTLCOLORSTATIC false _ => (0, s)
  | WM_DESTROY =>
      if g_hbrOutputBackground s =? 0 then (0, s)
      else (0, Gdi 0 (DeleteObject (g_hbrOutputBackground s) (live_brushes s)))
  end.

Definition paint_run (msgs : list paint_message) (s : gdi) : gdi :=
  foldl (fun s msg => (WndProcMainDialog_paint msg s).2) s msgs.

(** [g_hbrOutputBackground] is [NULL] when the program starts (line 50). *)
Definition gdi_init : gdi := Gdi 0 [].

(** ** Reading the stored input back, as written *)

Definition sizeof_WCHAR : nat := 2.

(** [RegGetValue(..., RRF_RT_REG_SZ, &keyType, NULL, &valueSize)] (line
    1340) on a stored string: the size of its data in bytes, the characters
    and the terminator. *)
Definition RegGetValue_size (stored : wstring) : nat :=
  (length stored + 1) * sizeof_WCHAR.

(** [RegGetValue(..., &szValue, &valueSize)] (line 1344) with a buffer of
    [valueSize] bytes: the string when its data fits, [None] for
    [ERROR_MORE_DATA] otherwise. *)
Definition RegGetValue_data (valueSize : nat) (stored : wstring) :
    option wstring :=
  if (RegGetValue_size stored <=? valueSize)%nat then Some stored else None.

(** Lines 1326-1348 of [WM_INITDIALOG], step by step; a missing value makes
    the first [RegGetValue] fail. *)
Definition restore_LastInput_as_written : M unit :=
  hInput ← gets IDC_INPUT;
  match hInput with
  | None => mret tt
  | Some _ =>
      stored ← gets LastInput;
      match stored with
      | None => mret tt
      | Some value =>
          let valueSize := RegGetValue_size value in
          if (0 <? valueSize)%nat
             && (valueSize <=? (MAXVALUELENTH + 2) * sizeof_WCHAR)%nat
          then
            let valueSize := ((MAXVALUELENTH + 1) * sizeof_WCHAR)%nat in
            match RegGetValue_data valueSize value with
            | Some szValue => modify (with_input (Some szValue))
            | None => mret tt
            end
          else mret tt
      end
  end.

(** ** A session *)

(** The state of a session that started with [output] in the output control
    and [registry] in the registry.  The registry holds what it held at the
    start or an accepted text whose write succeeded; and either no search has
    been accepted yet, or the output control, if there is one, shows the
    report of the last accepted text and the registry holds that text unless
    its write failed. *)
Definition in_step `{OS} (output registry : option wstring) (w : world) :
    Prop :=
  tables w = startup_globals
  /\ (is_Some (IDC_OUTPUT w) <-> is_Some output)
  /\ (LastInput w = registry
      \/ exists s v,
           LastInput w = Some s
           /\ (length s <= MAXVALUELENTH)%nat
           /\ StrToIntEx s = Some v
           /\ RegSetKeyValue_succeeds s = true)
  /\ ((LastInput w = registry /\ IDC_OUTPUT w = output)
      \/ exists s v,
           (length s <= MAXVALUELENTH)%nat
           /\ StrToIntEx s = Some v
           /\ IDC_OUTPUT w =
                (fun _ => report startup_globals (int32 v)) <$> output
           /\ (LastInput w = Some s \/ RegSetKeyValue_succeeds s = false)).

(** One brush at most, and it is the one the global names. *)
Definition one_brush (s : gdi) : Prop :=
  live_brushes s =
  if g_hbrOutputBackground s =? 0 then [] else [g_hbrOutputBackground s].

(** ** The header and the table sections, read off the source *)

(** A decimal text in the form [std::to_wstring] gives it: digits, at least
    one, no leading zero except for the number 0 itself. *)
Definition canonical_decimal (u : wstring) (n : Z) : Prop :=
  u <> [] /\ (head u = Some 48 -> u = [48]) /\ dec_value u = Some n.

(** The same for [std::to_wstring] at [int]: a minus sign in front of the
    magnitude of a negative number, no sign otherwise. *)
Definition canonical_signed (i : wstring) (v : Z) : Prop :=
  if v <? 0 then exists m, i = 45 :: m /\ canonical_decimal m (- v)
  else canonical_decimal i v.

(** The sections of the System Message Provider for [v]. *)
Definition system_sections `{OS} (v : Z) : wstring :=
  from_option (fun d => section Win32_HRESULT (StrTrim d (L "\n"))) []
    (genericStatusText v)
  ++ from_option (fun d => section NTSTATUS (StrTrim d (L "\r\n"))) []
       (kernelStatusText v).

(** The section of a table for [v], read off the assignments of the source:
    the text of the last assignment whose literal is the bit pattern of [v],
    no section when there is none. *)
Definition section_by_pattern (s : source) (t : table) (v : Z) : wstring :=
  from_option (fun d : Z * wstring => section s d.2) []
    (last (filter (fun d : Z * wstring => d.1 = DWORD v) (assignments_of t))).

(** * Properties *)

(** ** Running the search command *)

Section Running.
Context `{OS}.

Lemma positive_length (s : wstring) :
  (0 <? Z.of_nat (length s)) = match s with [] => false | _ => true end.
Proof. destruct s; reflexivity. Qed.

Lemma section_literal s t :
  section s t =
  match s with
  | Win32_HRESULT => L "\r\n\r\nWin32/HRESULT: "
  | NTSTATUS => L "\r\n\r\nNTSTATUS: "
  | WU => L "\r\n\r\nWU: "
  | LDAP => L "\r\n\r\nLDAP: "
  | StopCode_BugCheck => L "\r\n\r\nStopCode/BugCheck: "
  end ++ t.
Proof. destruct s; reflexivity. Qed.

Ltac step_world :=
  unfold with_queries, with_tables, with_LastInput, with_output;
  cbn [tables queries IDC_INPUT IDC_OUTPUT LastInput ended get_table nonempty
       fmap option_fmap option_map Z.ltb Z.compare].

(** The message built for [iValue] is the report of the specification, the
    calls are those of [queries_of], and nothing else of the state moves. *)
Lemma translate_run v w :
  translate v w =
  (report (tables w) v, with_queries (queries w ++ queries_of (tables w) v) w).
Proof.
  unfold translate, report, hits, queries_of, yield, genericStatusText,
    kernelStatusText.
  unfold FormatMessage_FROM_SYSTEM, GetModuleHandle, FormatMessage_FROM_HMODULE.
  generalize (numeric_values v) as hd. intros hd.
  unfold count, subscript, asked, gets, modify, mbind, M_bind, mret, M_ret.
  rewrite !positive_length.
  destruct w as [g i o r e q].
  cbn [all_sources omap list_omap flat_map]. step_world.
  destruct (g_mWU g !! v) as [s1|] eqn:E1;
  destruct (g_mLDAP g !! v) as [s2|] eqn:E2;
  destruct (g_mBugCheck g !! v) as [s3|] eqn:E3;
  destruct (FormatMessage_SYSTEM v) as [|c1 m1];
  destruct GetModuleHandle_ntdll;
  try destruct (FormatMessage_HMODULE v) as [|c2 m2];
  repeat (step_world; rewrite ?E1, ?E2, ?E3);
  cbn [map concat fst snd]; rewrite ?section_literal;
  rewrite <- ?app_assoc; cbn [app]; rewrite ?app_nil_r; reflexivity.
Qed.

Lemma search_run w : search w = (tt, after_search w).
Proof.
  unfold search, after_search, gets, mbind, M_bind, mret, M_ret.
  destruct (IDC_INPUT w) as [text|] eqn:Ein; [|reflexivity].
  destruct (StrToIntEx (GetWindowText text)) as [v|]; [|reflexivity].
  unfold RegSetKeyValue_LastInput, written, SetWindowText_output, modify.
  destruct (RegSetKeyValue_succeeds (GetWindowText text));
    cbn [mret M_ret]; rewrite translate_run; step_world;
    destruct (IDC_OUTPUT w); reflexivity.
Qed.

Lemma after_search_tables w : tables (after_search w) = tables w.
Proof.
  unfold after_search, written.
  destruct (IDC_INPUT w) as [text|]; [|reflexivity].
  destruct (StrToIntEx (GetWindowText text)); [|reflexivity].
  destruct (RegSetKeyValue_succeeds (GetWindowText text));
    destruct (IDC_OUTPUT w); reflexivity.
Qed.

Lemma after_search_input w : IDC_INPUT (after_search w) = IDC_INPUT w.
Proof.
  unfold after_search, written.
  destruct (IDC_INPUT w) as [text|] eqn:E; [|exact E].
  destruct (StrToIntEx (GetWindowText text)); [|exact E].
  destruct (RegSetKeyValue_succeeds (GetWindowText text));
    destruct (IDC_OUTPUT w); exact E.
Qed.

Lemma restore_LastInput_run w :
  exists input, restore_LastInput w = (tt, with_input input w).
Proof.
  unfold restore_LastInput, gets, modify, mbind, M_bind, mret, M_ret.
  destruct w as [g [i|] o [r|] e q]; cbn [IDC_INPUT LastInput];
    try (eexists (Some _); reflexivity); try (exists None; reflexivity).
  destruct (length r <=? MAXVALUELENTH)%nat;
    [exists (Some r)|exists (Some i)]; reflexivity.
Qed.

Lemma WndProcMainDialog_tables msg w :
  tables (WndProcMainDialog msg w).2 = tables w.
Proof.
  destruct msg as [|[| | |]|]; try reflexivity;
    unfold WndProcMainDialog, mbind, M_bind.
  - destruct (restore_LastInput_run w) as [input ->]. reflexivity.
  - rewrite search_run. apply after_search_tables.
  - rewrite search_run. apply after_search_tables.
Qed.

Lemma yield_hit g v s t : (s, t) ∈ hits g v <-> yield g v s = Some t.
Proof.
  unfold hits. rewrite list_elem_of_omap. split.
  - intros (s' & _ & Hs). destruct (yield g v s') eqn:E; [|discriminate].
    injection Hs as -> ->. exact E.
  - intros Hy. exists s. split; [destruct s; set_solver|].
    rewrite Hy. reflexivity.
Qed.

Lemma omap_pair_fst {A B : Type} (f : A -> option B) (l : list A) :
  (omap (fun a => pair a <$> f a) l).*1 = filter (fun a => is_Some (f a)) l.
Proof.
  induction l as [|a l IH]; [reflexivity|].
  rewrite filter_cons. cbn [omap list_omap].
  destruct (f a) as [b|] eqn:E; cbn [fmap option_fmap option_map].
  - rewrite decide_True by (eexists; reflexivity).
    cbn [fmap list_fmap fst]. f_equal. exact IH.
  - rewrite decide_False by (intros [b Hb]; discriminate). exact IH.
Qed.

Lemma hits_sources g v :
  (hits g v).*1 = filter (fun s => is_Some (yield g v s)) all_sources.
Proof. apply omap_pair_fst. Qed.

(** The calls that start a lookup, among the calls of a resolution:
    [GetModuleHandle] is called a second time, as the module argument of
    [FormatMessage], when ntdll.dll is loaded. *)
Lemma probes_of g v :
  filter (fun q => is_probe q = true) (queries_of g v) =
  Q_FormatMessage_SYSTEM v :: Q_GetModuleHandle
    :: (if GetModuleHandle_ntdll then [Q_GetModuleHandle] else [])
    ++ [Q_count tWU v; Q_count tLDAP v; Q_count tBugCheck v].
Proof.
  unfold queries_of.
  destruct GetModuleHandle_ntdll;
    cbn [flat_map get_table];
    destruct (g_mWU g !! v), (g_mLDAP g !! v), (g_mBugCheck g !! v);
    reflexivity.
Qed.

(** The first call to each of the five sources is made, in the order of the
    sources, whatever the sources answer. *)
Lemma probes_in_order g v :
  sublist ((fun s => probe s v) <$> all_sources) (queries_of g v).
Proof.
  unfold queries_of.
  destruct GetModuleHandle_ntdll;
    cbn [flat_map get_table];
    destruct (g_mWU g !! v), (g_mLDAP g !! v), (g_mBugCheck g !! v);
    cbn [app fmap list_fmap all_sources probe];
    repeat first [apply sublist_nil | apply sublist_skip | apply sublist_cons].
Qed.

End Running.

(** ** The aggregator *)

(** C1: for every value, the aggregator asks all five sources, whatever the
    others answered, and appends one section per source that matched, in the
    order Win32/HRESULT, NTSTATUS, WU, LDAP, StopCode/BugCheck.  The message is
    the numeric header followed by the sections of [hits]; the sources shown
    are exactly the sources of [all_sources] that yield a text, in that order,
    each with its own text (two sources that yield the same text are both
    shown); a section starts with a blank line ([\r\n\r\n]), then its label;
    and among the calls made, the first calls to the five sources are always
    there, in the order of the sources: the calls that start a lookup are
    [FormatMessage] on the system table, [GetModuleHandle] (once more as the
    argument of [FormatMessage] when ntdll.dll is loaded) and the three
    [count]s, none left out. *)
Theorem aggregator_asks_all_sources_in_order `{OS} (v : Z) (w : world) :
  (translate v w).1 =
    numeric_values v
      ++ concat (map (fun h => section h.1 h.2) (hits (tables w) v))
  /\ (hits (tables w) v).*1 =
       filter (fun s => is_Some (yield (tables w) v s)) all_sources
  /\ (forall s t, (s, t) ∈ hits (tables w) v <-> yield (tables w) v s = Some t)
  /\ (forall s t, section s t = L "\r\n\r\n" ++ label s ++ L ": " ++ t)
  /\ exists asked,
       queries (translate v w).2 = queries w ++ asked
       /\ sublist ((fun s => probe s v) <$> all_sources) asked
       /\ filter (fun q => is_probe q = true) asked =
            Q_FormatMessage_SYSTEM v :: Q_GetModuleHandle
              :: (if GetModuleHandle_ntdll then [Q_GetModuleHandle] else [])
              ++ [Q_count tWU v; Q_count tLDAP v; Q_count tBugCheck v].
Proof.
  rewrite translate_run. cbn [fst snd].
  split; [reflexivity|].
  split; [apply hits_sources|].
  split; [intros s t; apply yield_hit|].
  split; [reflexivity|].
  exists (queries_of (tables w) v). split; [reflexivity|].
  split; [apply probes_in_order|apply probes_of].
Qed.

(** ** The tables are read-only *)

Section ReadOnly.
Context `{OS}.

Lemma DialogBox_tables msgs w : tables (DialogBox msgs w).2 = tables w.
Proof.
  unfold DialogBox. cbn [snd]. revert w.
  induction msgs as [|msg msgs IH]; intros w; [reflexivity|].
  cbn [foldl]. rewrite IH. apply WndProcMainDialog_tables.
Qed.

(** Every subscript among the calls of a resolution comes right after the
    [count] of the same key in the same table, and the key is in the table. *)
Lemma subscript_guarded g v pre t k post :
  queries_of g v = pre ++ Q_subscript t k :: post ->
  is_Some (get_table t g !! k) /\ exists pre', pre = pre' ++ [Q_count t k].
Proof.
  unfold queries_of. cbn [flat_map get_table].
  destruct GetModuleHandle_ntdll;
    destruct (g_mWU g !! v) as [s1|] eqn:E1;
    destruct (g_mLDAP g !! v) as [s2|] eqn:E2;
    destruct (g_mBugCheck g !! v) as [s3|] eqn:E3;
    cbn [app]; intros Heq.
  all: repeat (destruct pre as [|? pre]; cbn [app] in Heq;
            [ try discriminate Heq | injection Heq as ? Heq; subst ]).
  all: try (destruct pre; discriminate Heq).
  all: injection Heq as Ht Hk _; subst t k; cbn [get_table]; split; [eauto|].
  all: first [ exists []; reflexivity
             | eexists [_]; reflexivity
             | eexists [_; _]; reflexivity
             | eexists [_; _; _]; reflexivity
             | eexists [_; _; _; _]; reflexivity
             | eexists [_; _; _; _; _]; reflexivity
             | eexists [_; _; _; _; _; _]; reflexivity
             | eexists [_; _; _; _; _; _; _]; reflexivity
             | eexists [_; _; _; _; _; _; _; _]; reflexivity
             | eexists [_; _; _; _; _; _; _; _; _]; reflexivity ].
Qed.

(** The subscript alone is not read-only: on a key that is missing it adds an
    entry. *)
Lemma subscript_miss_inserts t k w :
  get_table t (tables w) !! k = None ->
  get_table t (tables (subscript t k w).2) !! k = Some [].
Proof.
  intros Hk.
  unfold subscript, asked, gets, modify, mbind, M_bind, mret, M_ret.
  unfold with_queries. cbn [tables]. rewrite Hk. cbn [snd with_tables tables].
  destruct t; cbn [get_table set_table g_mWU g_mLDAP g_mBugCheck];
    apply lookup_insert_eq.
Qed.

End ReadOnly.

(** C9: the three code tables are never mutated after [wWinMain] has built
    them.  A resolution leaves the tables as they are, on a hit and on a miss;
    so does every message the dialog procedure handles, hence the tables are
    the startup tables for as long as the dialog runs.  The reason: every
    subscript the resolution makes follows the [count] of the same key in the
    same table, and the key is present; an unguarded subscript on a missing
    key would have inserted an entry. *)
Theorem tables_read_only_after_startup `{OS} :
  (forall v w, tables (translate v w).2 = tables w)
  /\ (forall msg w, tables (WndProcMainDialog msg w).2 = tables w)
  /\ (forall input output registry msgs,
        tables (wWinMain input output registry msgs) = startup_globals)
  /\ (forall v w pre t k post,
        queries (translate v w).2 = queries w ++ pre ++ Q_subscript t k :: post ->
        is_Some (get_table t (tables w) !! k)
        /\ exists pre', pre = pre' ++ [Q_count t k])
  /\ (forall t k w,
        get_table t (tables w) !! k = None ->
        tables (subscript t k w).2 <> tables w).
Proof.
  split; [intros v w; rewrite translate_run; reflexivity|].
  split; [apply WndProcMainDialog_tables|].
  split; [intros; unfold wWinMain; rewrite DialogBox_tables; reflexivity|].
  split.
  - intros v w pre t k post. rewrite translate_run. cbn [snd].
    unfold with_queries; cbn [queries]. intros Heq.
    apply app_inv_head in Heq. eapply subscript_guarded; exact Heq.
  - intros t k w Hk Heq. pose proof (subscript_miss_inserts t k w Hk) as Hs.
    rewrite Heq, Hk in Hs. discriminate.
Qed.

(** ** Rejected input *)

(** C6: when the Value Parser rejects the text of the input control, the
    command returns with the state exactly as it found it: no source has been
    asked (the aggregator has not run), the output control has not been
    written (no report), and nothing reports an error.  Rejection is the only
    way for the command not to produce a report: with both controls in place,
    either the parser rejects the text and nothing moves, or it yields a value
    and the report for that value is shown. *)
Theorem rejected_input_shows_nothing `{OS} (w : world) (text : wstring) :
  IDC_INPUT w = Some text ->
  StrToIntEx (GetWindowText text) = None ->
  search w = (tt, w)
  /\ WndProcMainDialog (WM_COMMAND IDOK) w = (false, w)
  /\ WndProcMainDialog (WM_COMMAND IDC_BUTTONSEARCH) w = (false, w)
  /\ (forall w' text',
        IDC_INPUT w' = Some text' -> is_Some (IDC_OUTPUT w') ->
        (StrToIntEx (GetWindowText text') = None /\ search w' = (tt, w'))
        \/ (exists v,
              StrToIntEx (GetWindowText text') = Some v
              /\ IDC_OUTPUT (search w').2 = Some (report (tables w') (int32 v)))).
Proof.
  intros Hin Hrej.
  assert (Hs : search w = (tt, w)).
  { rewrite search_run. unfold after_search. rewrite Hin, Hrej. reflexivity. }
  split; [exact Hs|].
  split; [unfold WndProcMainDialog, mbind, M_bind; rewrite Hs; reflexivity|].
  split; [unfold WndProcMainDialog, mbind, M_bind; rewrite Hs; reflexivity|].
  intros w' text' Hin' [out Hout]. rewrite search_run. unfold after_search.
  rewrite Hin', Hout.
  destruct (StrToIntEx (GetWindowText text')) as [v|]; [right|left].
  - exists v. split; reflexivity.
  - split; reflexivity.
Qed.

Lemma rejected_input_shows_nothing_witness :
  @search example_OS (opened (L "abc")) = (tt, opened (L "abc")).
Proof.
  exact (proj1 (@rejected_input_shows_nothing example_OS (opened (L "abc"))
                  (L "abc") eq_refl eq_refl)).
Defined.

(** C10: when the Value Parser rejects the text, the output control and the
    stored [LastInput] are left as they were, whatever the message; and a
    message changes [LastInput] only when it is a search whose text the parser
    accepted, in which case the text parsed is what is stored. *)
Theorem rejected_input_keeps_output_and_LastInput `{OS}
    (msg : message) (w : world) (text : wstring) :
  IDC_INPUT w = Some text ->
  StrToIntEx (GetWindowText text) = None ->
  IDC_OUTPUT (WndProcMainDialog msg w).2 = IDC_OUTPUT w
  /\ LastInput (WndProcMainDialog msg w).2 = LastInput w
  /\ (forall msg0 w0,
        LastInput (WndProcMainDialog msg0 w0).2 <> LastInput w0 ->
        (msg0 = WM_COMMAND IDOK \/ msg0 = WM_COMMAND IDC_BUTTONSEARCH)
        /\ exists text0 v,
             IDC_INPUT w0 = Some text0
             /\ StrToIntEx (GetWindowText text0) = Some v
             /\ LastInput (WndProcMainDialog msg0 w0).2
                = Some (GetWindowText text0)).
Proof.
  intros Hin Hrej.
  assert (Hs : after_search w = w).
  { unfold after_search. rewrite Hin, Hrej. reflexivity. }
  assert (Hmsg : IDC_OUTPUT (WndProcMainDialog msg w).2 = IDC_OUTPUT w
                 /\ LastInput (WndProcMainDialog msg w).2 = LastInput w).
  { destruct msg as [|[| | |]|]; try (split; reflexivity);
      unfold WndProcMainDialog, mbind, M_bind;
      [ destruct (restore_LastInput_run w) as [input ->]
      | rewrite search_run, Hs | rewrite search_run, Hs ];
      split; reflexivity. }
  destruct Hmsg as [Ho Hl]. split; [exact Ho|]. split; [exact Hl|].
  intros msg0 w0 Hne.
  assert (Hsearch : LastInput (after_search w0) <> LastInput w0 ->
            exists text0 v,
              IDC_INPUT w0 = Some text0
              /\ StrToIntEx (GetWindowText text0) = Some v
              /\ LastInput (after_search w0) = Some (GetWindowText text0)).
  { unfold after_search, written.
    destruct (IDC_INPUT w0) as [text0|]; [|intros []; reflexivity].
    destruct (StrToIntEx (GetWindowText text0)) as [v|] eqn:Ev;
      [|intros []; reflexivity].
    destruct (RegSetKeyValue_succeeds (GetWindowText text0));
      [|intros []; destruct (IDC_OUTPUT w0); reflexivity].
    intros _. exists text0, v.
    destruct (IDC_OUTPUT w0); (split; [reflexivity|]); (split; [exact Ev|]);
      reflexivity. }
  destruct msg0 as [|[| | |]|]; try (exfalso; apply Hne; reflexivity);
    unfold WndProcMainDialog, mbind, M_bind in Hne |- *.
  - exfalso. apply Hne.
    destruct (restore_LastInput_run w0) as [input ->]. reflexivity.
  - rewrite search_run in Hne |- *; cbn [snd mret M_ret] in Hne |- *.
    split; [auto|apply Hsearch; exact Hne].
  - rewrite search_run in Hne |- *; cbn [snd mret M_ret] in Hne |- *.
    split; [auto|apply Hsearch; exact Hne].
Qed.

Lemma rejected_input_keeps_output_and_LastInput_witness :
  IDC_OUTPUT (@WndProcMainDialog example_OS (WM_COMMAND IDOK)
                (World startup_globals (Some (L "12g")) (Some (L "old report"))
                   (Some (L "0x05")) false [])).2
  = Some (L "old report")
  /\ LastInput (@WndProcMainDialog example_OS (WM_COMMAND IDOK)
                  (World startup_globals (Some (L "12g")) (Some (L "old report"))
                     (Some (L "0x05")) false [])).2
     = Some (L "0x05").
Proof.
  pose proof (@rejected_input_keeps_output_and_LastInput example_OS
                (WM_COMMAND IDOK)
                (World startup_globals (Some (L "12g")) (Some (L "old report"))
                   (Some (L "0x05")) false [])
                (L "12g") eq_refl eq_refl) as (Ho & Hl & _).
  split; [exact Ho|exact Hl].
Defined.

(** ** Determinism *)

(** C8: two runs of the search command on the same input text give the same
    outcome when the System Message Provider is the same for both.  For two
    states that agree on the tables and on the input text and that both have
    an output control, either both runs are rejected and leave their state
    untouched, or both show the same report, character for character.  The
    state a run leaves behind agrees with the state it started from on the
    tables and on the input text and still has its output control, so this
    covers a run and its repetition. *)
Theorem search_deterministic `{OS} (w1 w2 : world) :
  tables w1 = tables w2 ->
  IDC_INPUT w1 = IDC_INPUT w2 ->
  is_Some (IDC_OUTPUT w1) ->
  is_Some (IDC_OUTPUT w2) ->
  ((search w1 = (tt, w1) /\ search w2 = (tt, w2))
   \/ (exists sMessage,
         IDC_OUTPUT (search w1).2 = Some sMessage
         /\ IDC_OUTPUT (search w2).2 = Some sMessage))
  /\ tables (search w1).2 = tables w1
  /\ IDC_INPUT (search w1).2 = IDC_INPUT w1
  /\ is_Some (IDC_OUTPUT (search w1).2).
Proof.
  intros Ht Hi [o1 Ho1] [o2 Ho2]. rewrite !search_run. cbn [snd].
  split.
  - unfold after_search. rewrite <- Hi, <- Ht, Ho1, Ho2.
    destruct (IDC_INPUT w1) as [text|]; [|left; split; reflexivity].
    destruct (StrToIntEx (GetWindowText text)) as [v|];
      [|left; split; reflexivity].
    right. exists (report (tables w1) (int32 v)). split; reflexivity.
  - split; [apply after_search_tables|]. split; [apply after_search_input|].
    unfold after_search.
    destruct (IDC_INPUT w1) as [text|]; [|rewrite Ho1; eauto].
    destruct (StrToIntEx (GetWindowText text)); [|rewrite Ho1; eauto].
    rewrite Ho1. eexists; reflexivity.
Qed.

Lemma search_deterministic_witness :
  ((@search example_OS (opened (L "0x05")) = (tt, opened (L "0x05"))
    /\ @search example_OS
         (World startup_globals (Some (L "0x05")) (Some (L "old report"))
            (Some (L "7")) false [])
       = (tt, World startup_globals (Some (L "0x05")) (Some (L "old report"))
                (Some (L "7")) false []))
   \/ (exists sMessage,
         IDC_OUTPUT (@search example_OS (opened (L "0x05"))).2 = Some sMessage
         /\ IDC_OUTPUT
              (@search example_OS
                 (World startup_globals (Some (L "0x05"))
                    (Some (L "old report")) (Some (L "7")) false [])).2
            = Some sMessage)).
Proof.
  refine (proj1 (@search_deterministic example_OS (opened (L "0x05"))
                   (World startup_globals (Some (L "0x05"))
                      (Some (L "old report")) (Some (L "7")) false [])
                   eq_refl eq_refl _ _)); eexists; reflexivity.
Defined.

(** ** The tables at startup *)

Lemma assign_all_app ds1 ds2 m :
  assign_all (ds1 ++ ds2) m = assign_all ds2 (assign_all ds1 m).
Proof. unfold assign_all. apply foldl_app. Qed.

Lemma assign_all_other ds key m :
  (forall d, d ∈ ds -> int32 d.1 <> key) ->
  assign_all ds m !! key = m !! key.
Proof.
  revert m. induction ds as [|d ds IH]; intros m Hds; [reflexivity|].
  change (assign_all (d :: ds) m) with (assign_all ds (assign m d)).
  rewrite IH by (intros d' Hd'; apply Hds; right; exact Hd').
  unfold assign. apply lookup_insert_ne. apply Hds. left.
Qed.

(** The last assignment to a key is the one a lookup sees. *)
Lemma assign_all_last ds k s rest m :
  (forall d, d ∈ rest -> int32 d.1 <> int32 k) ->
  assign_all (ds ++ (k, s) :: rest) m !! int32 k = Some s.
Proof.
  intros Hrest. rewrite assign_all_app.
  change (assign_all ((k, s) :: rest) ?m')
    with (assign_all rest (assign m' (k, s))).
  rewrite assign_all_other by exact Hrest.
  unfold assign. apply lookup_insert_eq.
Qed.

(** A lookup only finds what some assignment stored. *)
Lemma assign_all_origin ds key s :
  assign_all ds ∅ !! key = Some s ->
  exists k, (k, s) ∈ ds /\ int32 k = key.
Proof.
  induction ds as [|[k' s'] ds IH] using rev_ind; [discriminate|].
  rewrite assign_all_app.
  change (assign_all [(k', s')] ?m') with (<[int32 k' := s']> m').
  destruct (decide (int32 k' = key)) as [<-|Hne].
  - rewrite lookup_insert_eq. intros [= <-]. exists k'. split; [|reflexivity].
    apply elem_of_app. right. left.
  - rewrite lookup_insert_ne by exact Hne. intros Hs.
    destruct (IH Hs) as (k & Hk & Hkey). exists k. split; [|exact Hkey].
    apply elem_of_app. left. exact Hk.
Qed.

Lemma startup_table t :
  get_table t startup_globals = assign_all (assignments_of t) ∅.
Proof. destruct t; reflexivity. Qed.

Lemma startup_WU_5 : g_mWU startup_globals !! 5 = None.
Proof. vm_compute. reflexivity. Qed.

Lemma startup_LDAP_5 :
  g_mLDAP startup_globals !! 5 = Some (L "LDAP_COMPARE_FALSE").
Proof. vm_compute. reflexivity. Qed.

Lemma startup_BugCheck_5 :
  g_mBugCheck startup_globals !! 5 = Some (L "INVALID_PROCESS_ATTACH_ATTEMPT").
Proof. vm_compute. reflexivity. Qed.

(** C4: after [wWinMain] has built the tables, the LDAP table maps [0x09] to
    [LDAP_PARTIAL_RESULTS].  [setLDAPCodes] assigns [0x09] twice in a row,
    first [LDAP_REFERRAL_V2], then [LDAP_PARTIAL_RESULTS], and never again; the
    later assignment to a key is always the one a lookup sees; no key of the
    table maps to [LDAP_REFERRAL_V2]; and the LDAP section of the report for 9
    carries [LDAP_PARTIAL_RESULTS]. *)
Theorem LDAP_0x09_last_definition_wins :
  g_mLDAP startup_globals !! 0x09 = Some (L "LDAP_PARTIAL_RESULTS")
  /\ (exists pre post,
        LDAP_assignments =
          pre ++ [(0x09, L "LDAP_REFERRAL_V2"); (0x09, L "LDAP_PARTIAL_RESULTS")]
              ++ post
        /\ forall d, d ∈ post -> int32 d.1 <> int32 0x09)
  /\ (forall ds k s rest m,
        (forall d, d ∈ rest -> int32 d.1 <> int32 k) ->
        assign_all (ds ++ (k, s) :: rest) m !! int32 k = Some s)
  /\ (forall k, g_mLDAP startup_globals !! k <> Some (L "LDAP_REFERRAL_V2"))
  /\ (forall (os : OS),
        @yield os startup_globals 0x09 LDAP = Some (L "LDAP_PARTIAL_RESULTS")).
Proof.
  assert (H9 : g_mLDAP startup_globals !! 0x09 = Some (L "LDAP_PARTIAL_RESULTS"))
    by (vm_compute; reflexivity).
  split; [exact H9|].
  split.
  { exists (take 9 LDAP_assignments), (drop 11 LDAP_assignments).
    split; [reflexivity|].
    apply Forall_forall. apply (bool_decide_unpack _). vm_compute. exact I. }
  split; [apply assign_all_last|].
  split.
  { assert (HF : map_Forall (fun _ s => s <> L "LDAP_REFERRAL_V2")
                   (g_mLDAP startup_globals))
      by (apply (bool_decide_unpack _); vm_compute; exact I).
    intros k Hk. exact (HF k _ Hk eq_refl). }
  intros os. exact H9.
Qed.

(** ** The report for 0x05 *)

(** What the program shows for the input [0x05] on a machine whose message
    tables know no code. *)
Example report_0x05_silent :
  IDC_OUTPUT (@search silent_OS (opened (L "0x05"))).2 =
  Some (L "DWORD \t5\r\nint \t5\r\nHex \t0x00000005\r\n\r\nLDAP: LDAP_COMPARE_FALSE\r\n\r\nStopCode/BugCheck: INVALID_PROCESS_ATTACH_ATTEMPT").
Proof. vm_compute. reflexivity. Qed.

(** C2, as stated, fails: for the input [0x05] the report has its LDAP section
    with [LDAP_COMPARE_FALSE] and no WU section, but it does have a
    StopCode/BugCheck section, because [setBugCheckCodes] defines the key
    [0x00000005] (line 107). *)
Lemma report_0x05_has_BugCheck_section :
  ~ (exists r,
       IDC_OUTPUT (@search silent_OS (opened (L "0x05"))).2 = Some r
       /\ contains (L "\r\n\r\nLDAP: LDAP_COMPARE_FALSE") r = true
       /\ contains (L "\r\n\r\nWU: ") r = false
       /\ contains (L "\r\n\r\nStopCode/BugCheck: ") r = false).
Proof.
  intros (r & Hr & _ & _ & Hbug).
  rewrite report_0x05_silent in Hr. injection Hr as <-.
  vm_compute in Hbug. discriminate Hbug.
Qed.

(** C2, amended: for the input [0x05], parsed as 5, the report shown is the
    numeric header followed by the sections of the System Message Provider (if
    any), by the LDAP section with [LDAP_COMPARE_FALSE] and by the
    StopCode/BugCheck section with [INVALID_PROCESS_ATTACH_ATTEMPT]; there is
    no WU section. *)
Theorem report_for_0x05 `{OS} (w : world) :
  StrToIntEx (L "0x05") = Some 5 ->
  tables w = startup_globals ->
  IDC_INPUT w = Some (L "0x05") ->
  is_Some (IDC_OUTPUT w) ->
  exists system,
    IDC_OUTPUT (search w).2 =
      Some (numeric_values 5
              ++ concat (map (fun h => section h.1 h.2) system)
              ++ section LDAP (L "LDAP_COMPARE_FALSE")
              ++ section StopCode_BugCheck (L "INVALID_PROCESS_ATTACH_ATTEMPT"))
    /\ hits (tables w) 5 =
         system ++ [(LDAP, L "LDAP_COMPARE_FALSE");
                    (StopCode_BugCheck, L "INVALID_PROCESS_ATTACH_ATTEMPT")]
    /\ (forall h, h ∈ system -> h.1 = Win32_HRESULT \/ h.1 = NTSTATUS)
    /\ (forall t, (WU, t) ∉ hits (tables w) 5).
Proof.
  intros Hparse Ht Hin [out Hout].
  assert (Hhits : exists system,
            hits (tables w) 5 =
              system ++ [(LDAP, L "LDAP_COMPARE_FALSE");
                         (StopCode_BugCheck, L "INVALID_PROCESS_ATTACH_ATTEMPT")]
            /\ forall h, h ∈ system -> h.1 = Win32_HRESULT \/ h.1 = NTSTATUS).
  { rewrite Ht. unfold hits, all_sources. cbn [omap list_omap].
    change (yield startup_globals 5 WU) with (g_mWU startup_globals !! 5).
    change (yield startup_globals 5 LDAP) with (g_mLDAP startup_globals !! 5).
    change (yield startup_globals 5 StopCode_BugCheck)
      with (g_mBugCheck startup_globals !! 5).
    rewrite startup_WU_5, startup_LDAP_5, startup_BugCheck_5.
    cbn [fmap option_fmap option_map].
    destruct (yield startup_globals 5 Win32_HRESULT) as [t1|];
      destruct (yield startup_globals 5 NTSTATUS) as [t2|];
      cbn [fmap option_fmap option_map];
      [ exists [(Win32_HRESULT, t1); (NTSTATUS, t2)]
      | exists [(Win32_HRESULT, t1)]
      | exists [(NTSTATUS, t2)]
      | exists [] ];
      (split; [reflexivity|]); intros h Hh;
      repeat (apply elem_of_cons in Hh as [->|Hh]; [auto|]);
      inversion Hh. }
  destruct Hhits as (system & Hsys & Hlabels). exists system.
  split.
  { rewrite search_run. unfold after_search.
    rewrite Hin. change (GetWindowText (L "0x05")) with (L "0x05").
    rewrite Hparse, Hout. change (int32 5) with 5.
    unfold with_output; cbn [IDC_OUTPUT]. unfold report. rewrite Hsys.
    rewrite map_app, concat_app. cbn [map concat fst snd].
    rewrite app_nil_r. reflexivity. }
  split; [exact Hsys|]. split; [exact Hlabels|].
  intros t Hwu. rewrite Hsys in Hwu. apply elem_of_app in Hwu as [Hwu|Hwu].
  - destruct (Hlabels _ Hwu) as [Hl|Hl]; discriminate Hl.
  - repeat (apply elem_of_cons in Hwu as [Hwu|Hwu]; [discriminate Hwu|]).
    inversion Hwu.
Qed.

Lemma report_for_0x05_witness :
  exists system,
    IDC_OUTPUT (@search example_OS (opened (L "0x05"))).2 =
      Some (numeric_values 5
              ++ concat (map (fun h => section h.1 h.2) system)
              ++ section LDAP (L "LDAP_COMPARE_FALSE")
              ++ section StopCode_BugCheck (L "INVALID_PROCESS_ATTACH_ATTEMPT")).
Proof.
  destruct (@report_for_0x05 example_OS (opened (L "0x05")))
    as (system & Hout & _).
  - reflexivity.
  - reflexivity.
  - reflexivity.
  - eexists; reflexivity.
  - exists system. exact Hout.
Defined.

(** ** The numeric header *)

Lemma dec_digit_char d : 0 <= d < 10 -> dec_digit (digit_char d) = Some d.
Proof.
  intros Hd.
  assert (Hc : d = 0 \/ d = 1 \/ d = 2 \/ d = 3 \/ d = 4 \/ d = 5 \/ d = 6
               \/ d = 7 \/ d = 8 \/ d = 9) by lia.
  repeat (destruct Hc as [->|Hc]; [reflexivity|]). subst d. reflexivity.
Qed.

Lemma hex_digit_char d : 0 <= d < 16 -> hex_digit (digit_char d) = Some d.
Proof.
  intros Hd.
  assert (Hc : d = 0 \/ d = 1 \/ d = 2 \/ d = 3 \/ d = 4 \/ d = 5 \/ d = 6
               \/ d = 7 \/ d = 8 \/ d = 9 \/ d = 10 \/ d = 11 \/ d = 12
               \/ d = 13 \/ d = 14 \/ d = 15) by lia.
  repeat (destruct Hc as [->|Hc]; [reflexivity|]). subst d. reflexivity.
Qed.

Lemma upper_hex_digit_char d : 0 <= d < 16 -> is_upper_hex (digit_char d) = true.
Proof.
  intros Hd.
  assert (Hc : d = 0 \/ d = 1 \/ d = 2 \/ d = 3 \/ d = 4 \/ d = 5 \/ d = 6
               \/ d = 7 \/ d = 8 \/ d = 9 \/ d = 10 \/ d = 11 \/ d = 12
               \/ d = 13 \/ d = 14 \/ d = 15) by lia.
  repeat (destruct Hc as [->|Hc]; [reflexivity|]). subst d. reflexivity.
Qed.

(** Reading the decimal digits of [n] in front of [acc] is reading [acc] with
    [n] already read. *)
Lemma read_decimal fuel n acc :
  0 <= n < 10 ^ Z.of_nat fuel ->
  read_digits 10 dec_digit (decimal fuel n acc) 0 =
  read_digits 10 dec_digit acc n.
Proof.
  revert n acc. induction fuel as [|fuel IH]; intros n acc Hn.
  - change (10 ^ Z.of_nat 0) with 1 in Hn.
    assert (n = 0) as -> by lia. reflexivity.
  - cbn [decimal].
    assert (Hd : 0 <= n mod 10 < 10) by (apply Z.mod_pos_bound; lia).
    assert (Hn' : n = n / 10 * 10 + n mod 10)
      by (rewrite Z.mul_comm; apply Z.div_mod; lia).
    destruct (n / 10 =? 0) eqn:Hq.
    + apply Z.eqb_eq in Hq. cbn [read_digits].
      rewrite dec_digit_char by exact Hd. f_equal. lia.
    + apply Z.eqb_neq in Hq. rewrite IH.
      * cbn [read_digits]. rewrite dec_digit_char by exact Hd. f_equal. lia.
      * rewrite Nat2Z.inj_succ, Z.pow_succ_r in Hn by lia.
        split; [apply Z.div_pos; lia|].
        apply Z.div_lt_upper_bound; lia.
Qed.

Lemma dec_value_to_wstring_unsigned n :
  0 <= n < 2 ^ 32 -> dec_value (to_wstring_unsigned n) = Some n.
Proof.
  intros Hn. unfold dec_value, to_wstring_unsigned.
  rewrite read_decimal; [reflexivity|].
  change (10 ^ Z.of_nat 10) with 10000000000. lia.
Qed.

Lemma decimal_head fuel n acc :
  0 <= n -> acc <> [] -> head acc <> Some 45 ->
  head (decimal fuel n acc) <> Some 45.
Proof.
  revert n acc. induction fuel as [|fuel IH]; intros n acc Hn Hacc Hhd;
    [exact Hhd|].
  cbn [decimal]. destruct (n / 10 =? 0).
  - cbn [head]. unfold digit_char. destruct (n mod 10 <? 10) eqn:E.
    + pose proof (Z.mod_pos_bound n 10). intros [= Heq]. lia.
    + pose proof (Z.mod_pos_bound n 10). intros [= Heq]. lia.
  - apply IH; [apply Z.div_pos; lia|discriminate|].
    cbn [head]. unfold digit_char. destruct (n mod 10 <? 10) eqn:E.
    + pose proof (Z.mod_pos_bound n 10). intros [= Heq]. lia.
    + pose proof (Z.mod_pos_bound n 10). intros [= Heq]. lia.
Qed.

Lemma decimal_S fuel n acc :
  decimal (S fuel) n acc =
  if n / 10 =? 0 then digit_char (n mod 10) :: acc
  else decimal fuel (n / 10) (digit_char (n mod 10) :: acc).
Proof. reflexivity. Qed.

Lemma to_wstring_unsigned_no_sign n :
  0 <= n -> head (to_wstring_unsigned n) <> Some 45.
Proof.
  intros Hn. unfold to_wstring_unsigned. rewrite (decimal_S 9).
  assert (Hd : head [digit_char (n mod 10)] <> Some 45).
  { cbn [head]. unfold digit_char. pose proof (Z.mod_pos_bound n 10).
    destruct (n mod 10 <? 10); intros [= Heq]; lia. }
  destruct (n / 10 =? 0); [exact Hd|].
  apply decimal_head; [apply Z.div_pos; lia|discriminate|exact Hd].
Qed.

Lemma signed_dec_value_to_wstring_int v :
  is_int v -> signed_dec_value (to_wstring_int v) = Some v.
Proof.
  intros Hv. unfold is_int in Hv. unfold to_wstring_int.
  destruct (v <? 0) eqn:Hneg.
  - apply Z.ltb_lt in Hneg. cbn [signed_dec_value Z.eqb Pos.eqb].
    rewrite dec_value_to_wstring_unsigned by lia.
    cbn [fmap option_fmap option_map]. f_equal. lia.
  - apply Z.ltb_ge in Hneg.
    pose proof (to_wstring_unsigned_no_sign v Hneg) as Hhd.
    pose proof (dec_value_to_wstring_unsigned v) as Hdec.
    unfold signed_dec_value.
    destruct (to_wstring_unsigned v) as [|c s]; [apply Hdec; lia|].
    destruct (c =? 45) eqn:Hc; [|apply Hdec; lia].
    apply Z.eqb_eq in Hc. subst c. exfalso. apply Hhd. reflexivity.
Qed.

Lemma read_hex_digits k v acc a :
  0 <= v ->
  read_digits 16 hex_digit (hex_digits k v acc) a =
  read_digits 16 hex_digit acc (a * 16 ^ Z.of_nat k + v mod 16 ^ Z.of_nat k).
Proof.
  revert v acc a. induction k as [|k IH]; intros v acc a Hv.
  - change (16 ^ Z.of_nat 0) with 1. rewrite Z.mod_1_r. f_equal. lia.
  - cbn [hex_digits]. rewrite IH by (apply Z.div_pos; lia).
    cbn [read_digits].
    rewrite hex_digit_char by (apply Z.mod_pos_bound; lia).
    f_equal. rewrite Nat2Z.inj_succ, Z.pow_succ_r by lia.
    rewrite (Z.rem_mul_r v 16 (16 ^ Z.of_nat k)) by lia. lia.
Qed.

Lemma hex_digits_length k v acc :
  length (hex_digits k v acc) = (k + length acc)%nat.
Proof.
  revert v acc. induction k as [|k IH]; intros v acc; [reflexivity|].
  cbn [hex_digits]. rewrite IH. cbn [length]. lia.
Qed.

Lemma hex_digits_upper k v acc :
  forallb is_upper_hex acc = true ->
  forallb is_upper_hex (hex_digits k v acc) = true.
Proof.
  revert v acc. induction k as [|k IH]; intros v acc Hacc; [exact Hacc|].
  cbn [hex_digits]. apply IH. cbn [forallb].
  rewrite upper_hex_digit_char by (apply Z.mod_pos_bound; lia). exact Hacc.
Qed.

(** The three renderings of the header denote the same 32-bit value. *)
Lemma numeric_values_denote v :
  is_int v ->
  exists u i h,
    numeric_values v =
      L "DWORD \t" ++ u ++ L "\r\nint \t" ++ i ++ L "\r\nHex \t0x" ++ h
    /\ dec_value u = Some (DWORD v)
    /\ signed_dec_value i = Some v
    /\ length h = 8%nat
    /\ forallb is_upper_hex h = true
    /\ hex_value h = Some (DWORD v).
Proof.
  intros Hv.
  assert (Hd : 0 <= DWORD v < 2 ^ 32) by (apply Z.mod_pos_bound; lia).
  exists (to_wstring_unsigned (DWORD v)), (to_wstring_int v),
    (hex_digits 8 (DWORD v) []).
  split.
  { unfold numeric_values, snwprintf_0x08X. rewrite <- !app_assoc. reflexivity. }
  split; [apply dec_value_to_wstring_unsigned; exact Hd|].
  split; [apply signed_dec_value_to_wstring_int; exact Hv|].
  split; [apply hex_digits_length|].
  split; [apply hex_digits_upper; reflexivity|].
  unfold hex_value. rewrite read_hex_digits by lia. cbn [read_digits].
  f_equal. change (16 ^ Z.of_nat 8) with (2 ^ 32).
  rewrite Z.mod_small by exact Hd. lia.
Qed.

(** A 32-bit literal narrows to [v] exactly when it is the bit pattern of
    [v]. *)
Lemma int32_bit_pattern k v :
  0 <= k < 2 ^ 32 -> is_int v -> (int32 k = v <-> k = DWORD v).
Proof.
  unfold int32, DWORD, is_int. intros Hk Hv.
  change (2 ^ 31) with 2147483648 in *. change (2 ^ 32) with 4294967296 in *.
  destruct (Z_lt_dec k 2147483648) as [Hlt|Hge].
  - rewrite (Z.mod_small (k + 2147483648)) by lia. split; intros Heq.
    + subst v. rewrite Z.mod_small; lia.
    + destruct (Z_lt_dec v 0) as [Hneg|Hpos].
      * replace v with ((v + 4294967296) + (-1) * 4294967296) in Heq at 1 by lia.
        rewrite Z.mod_add in Heq by lia. rewrite Z.mod_small in Heq; lia.
      * rewrite Z.mod_small in Heq; lia.
  - replace (k + 2147483648) with ((k - 2147483648) + 1 * 4294967296) by lia.
    rewrite Z.mod_add by lia. rewrite (Z.mod_small (k - 2147483648)) by lia.
    split; intros Heq.
    + subst v.
      replace (k - 2147483648 - 2147483648)
        with (k + (-1) * 4294967296) by lia.
      rewrite Z.mod_add by lia. rewrite Z.mod_small; lia.
    + destruct (Z_lt_dec v 0) as [Hneg|Hpos].
      * replace v with ((v + 4294967296) + (-1) * 4294967296) in Heq by lia.
        rewrite Z.mod_add in Heq by lia. rewrite Z.mod_small in Heq; lia.
      * rewrite Z.mod_small in Heq; lia.
Qed.

Lemma int32_is_int z : is_int (int32 z).
Proof.
  unfold int32, is_int. pose proof (Z.mod_pos_bound (z + 2 ^ 31) (2 ^ 32)). lia.
Qed.

Lemma literals_are_32_bit t d :
  d ∈ assignments_of t -> 0 <= d.1 < 2 ^ 32.
Proof.
  revert d. apply Forall_forall.
  destruct t; apply (bool_decide_unpack _); vm_compute; exact I.
Qed.

(** What the program shows for [-1] on a machine whose message tables know no
    code: the header alone, no table defines the key [0xFFFFFFFF]. *)
Example report_minus_one_silent :
  IDC_OUTPUT (@search silent_OS (opened (L "-1"))).2 =
  Some (L "DWORD \t4294967295\r\nint \t-1\r\nHex \t0xFFFFFFFF").
Proof. vm_compute. reflexivity. Qed.

(** A negative input finds the entry whose key is written as its bit
    pattern: -2145124351 is [0x80240001]. *)
Example report_negative_WU :
  IDC_OUTPUT (@search silent_OS (opened (L "-2145124351"))).2 =
  Some (L "DWORD \t2149842945\r\nint \t-2145124351\r\nHex \t0x80240001\r\n\r\nWU: WU_E_NO_SERVICE\r\n(Windows Update Agent was unable to provide the service)").
Proof. vm_compute. reflexivity. Qed.

(** ** Trimming *)

Lemma trim_leading_split set s :
  exists lead,
    s = lead ++ trim_leading set s
    /\ Forall (fun c => wcschr set c = true) lead.
Proof.
  induction s as [|c s (lead & Hs & Hlead)]; [exists []; split; [reflexivity|constructor]|].
  cbn [trim_leading]. destruct (wcschr set c) eqn:Hc.
  - exists (c :: lead). split; [cbn [app]; f_equal; exact Hs|].
    constructor; assumption.
  - exists []. split; [reflexivity|constructor].
Qed.

Lemma trim_leading_head set s c :
  head (trim_leading set s) = Some c -> wcschr set c = false.
Proof.
  induction s as [|c' s IH]; [discriminate|].
  cbn [trim_leading]. destruct (wcschr set c') eqn:Hc; [exact IH|].
  intros [= <-]. exact Hc.
Qed.

Lemma head_rev {A : Type} (l : list A) : head (rev l) = last l.
Proof.
  induction l as [|a l IH] using rev_ind; [reflexivity|].
  rewrite rev_app_distr, last_snoc. reflexivity.
Qed.

(** [StrTrim] cuts a run of characters of the set off each end, and what is
    left neither starts nor ends with a character of the set. *)
Lemma StrTrim_split psz set :
  exists lead trail,
    psz = lead ++ StrTrim psz set ++ trail
    /\ Forall (fun c => wcschr set c = true) lead
    /\ Forall (fun c => wcschr set c = true) trail
    /\ (forall c, last (StrTrim psz set) = Some c -> wcschr set c = false)
    /\ (forall c, head (StrTrim psz set) = Some c -> wcschr set c = false).
Proof.
  unfold StrTrim.
  destruct (trim_leading_split set psz) as (lead & Hpsz & Hlead).
  destruct (trim_leading_split set (rev (trim_leading set psz)))
    as (tr & Hrev & Htr).
  set (kept := trim_leading set (rev (trim_leading set psz))) in *.
  assert (Hmid : trim_leading set psz = rev kept ++ rev tr).
  { rewrite <- rev_app_distr, <- Hrev, rev_involutive. reflexivity. }
  exists lead, (rev tr).
  split; [rewrite <- Hmid; exact Hpsz|].
  split; [exact Hlead|].
  split; [apply Forall_rev; exact Htr|].
  split.
  - intros c Hc. rewrite <- head_rev, rev_involutive in Hc.
    exact (trim_leading_head _ _ _ Hc).
  - intros c Hc. apply (trim_leading_head set psz). rewrite Hmid.
    destruct (rev kept); [discriminate Hc|exact Hc].
Qed.

Lemma wcschr_LF c : wcschr (L "\n") c = true <-> c = 10.
Proof.
  cbn [L wcschr existsb]. rewrite orb_false_r. apply Z.eqb_eq.
Qed.

(** What line 1447 makes of the description of the generic status lookup:
    when it is not empty, the report continues, right after the numeric
    header, with the section labeled [Win32/HRESULT] whose text is the
    description as [StrTrim] with the set [\n] leaves it.  The description is
    that text between two runs of line feeds, and the text does not end with
    a line feed.  It is the first section of the report. *)
Lemma Win32_section_text `{OS} (v : Z) (w : world) :
  FormatMessage_SYSTEM v <> [] ->
  exists text rest lead trail,
    (translate v w).1 =
      numeric_values v ++ L "\r\n\r\nWin32/HRESULT: " ++ text ++ rest
    /\ text = StrTrim (FormatMessage_SYSTEM v) (L "\n")
    /\ FormatMessage_SYSTEM v = lead ++ text ++ trail
    /\ Forall (fun c => c = 10) trail
    /\ Forall (fun c => c = 10) lead
    /\ last text <> Some 10
    /\ head (hits (tables w) v) = Some (Win32_HRESULT, text).
Proof.
  intros Hne.
  destruct (StrTrim_split (FormatMessage_SYSTEM v) (L "\n"))
    as (lead & trail & Hsplit & Hlead & Htrail & Hlast & _).
  assert (Hhits : exists others,
            hits (tables w) v =
              (Win32_HRESULT, StrTrim (FormatMessage_SYSTEM v) (L "\n"))
                :: others).
  { unfold hits, all_sources. cbn [omap list_omap].
    unfold yield at 1. unfold genericStatusText.
    destruct (FormatMessage_SYSTEM v) as [|c d] eqn:Ed; [contradiction|].
    cbn [nonempty fmap option_fmap option_map]. eexists. reflexivity. }
  destruct Hhits as (others & Hhits).
  exists (StrTrim (FormatMessage_SYSTEM v) (L "\n")),
    (concat (map (fun h => section h.1 h.2) others)), lead, trail.
  split.
  { rewrite translate_run. cbn [fst]. unfold report. rewrite Hhits.
    cbn [map concat fst snd]. rewrite section_literal, <- app_assoc.
    reflexivity. }
  split; [reflexivity|]. split; [exact Hsplit|].
  split; [eapply Forall_impl; [exact Htrail|intros c; apply wcschr_LF]|].
  split; [eapply Forall_impl; [exact Hlead|intros c; apply wcschr_LF]|].
  split.
  - intros Hl. specialize (Hlast _ Hl). vm_compute in Hlast. discriminate Hlast.
  - rewrite Hhits. reflexivity.
Qed.

(** Of a description that ends with a carriage return and a line feed, the
    set [\n] takes the line feed only. *)
Lemma StrTrim_LF_of_CRLF (d : wstring) :
  head d <> Some 10 -> StrTrim (d ++ L "\r\n") (L "\n") = d ++ L "\r".
Proof.
  intros Hd. unfold StrTrim.
  assert (Hlead : trim_leading (L "\n") (d ++ L "\r\n") = d ++ L "\r\n").
  { destruct d as [|c d]; [reflexivity|].
    cbn [app trim_leading]. destruct (wcschr (L "\n") c) eqn:Hc; [|reflexivity].
    apply wcschr_LF in Hc. subst c. exfalso. apply Hd. reflexivity. }
  rewrite Hlead, rev_app_distr.
  change (rev (L "\r\n")) with [10; 13]. cbn [app trim_leading].
  change (wcschr (L "\n") 10) with true. change (wcschr (L "\n") 13) with false.
  cbn [rev]. rewrite rev_involutive. reflexivity.
Qed.

(** C7: the trailing newline of the description is not trimmed whole.  When
    the generic status lookup yields a description that ends with a carriage
    return and a line feed, as the messages of Windows do, the section
    labeled [Win32/HRESULT] is there, right after the numeric header, but its
    text is the description less its line feed only: [StrTrim] is given the
    set [\n] (line 1447), the carriage return stays and is the last character
    of the section.  (The NTSTATUS path, line 1458, gives the set [\r\n].) *)
Theorem Win32_section_keeps_carriage_return `{OS} (v : Z) (w : world)
    (d : wstring) :
  FormatMessage_SYSTEM v = d ++ L "\r\n" ->
  head d <> Some 10 ->
  (exists rest,
     (translate v w).1 =
       numeric_values v ++ L "\r\n\r\nWin32/HRESULT: " ++ (d ++ L "\r") ++ rest
     /\ (rest = [] \/ exists next, rest = L "\r\n\r\n" ++ next))
  /\ head (hits (tables w) v) = Some (Win32_HRESULT, d ++ L "\r")
  /\ last (d ++ L "\r") = Some 13
  /\ StrTrim (d ++ L "\r\n") (L "\r\n") <> d ++ L "\r".
Proof.
  intros Hdesc Hd.
  assert (Hhits : exists others,
            hits (tables w) v = (Win32_HRESULT, d ++ L "\r") :: others).
  { unfold hits, all_sources. cbn [omap list_omap].
    unfold yield at 1. unfold genericStatusText. rewrite Hdesc.
    assert (Hne : nonempty (d ++ L "\r\n") = Some (d ++ L "\r\n"))
      by (destruct d; reflexivity).
    rewrite Hne. cbn [fmap option_fmap option_map].
    rewrite StrTrim_LF_of_CRLF by exact Hd.
    eexists. reflexivity. }
  destruct Hhits as (others & Hhits).
  split.
  { exists (concat (map (fun h => section h.1 h.2) others)). split.
    - rewrite translate_run. cbn [fst]. unfold report. rewrite Hhits.
      cbn [map concat fst snd]. rewrite section_literal, <- !app_assoc.
      reflexivity.
    - destruct others as [|h others]; [left; reflexivity|right].
      cbn [map concat]. unfold section. rewrite <- !app_assoc.
      eexists. reflexivity. }
  split; [rewrite Hhits; reflexivity|].
  split; [apply last_snoc|].
  intros Heq.
  destruct (StrTrim_split (d ++ L "\r\n") (L "\r\n"))
    as (_ & _ & _ & _ & _ & Hlast & _).
  rewrite Heq in Hlast. specialize (Hlast 13 (last_snoc _ _)).
  vm_compute in Hlast. discriminate Hlast.
Qed.

Lemma Win32_section_keeps_carriage_return_witness :
  exists rest,
    (@translate example_OS 5 (opened (L "5"))).1 =
      numeric_values 5
        ++ L "\r\n\r\nWin32/HRESULT: " ++ L "Access is denied.\r" ++ rest.
Proof.
  destruct (@Win32_section_keeps_carriage_return example_OS 5 (opened (L "5"))
              (L "Access is denied.") eq_refl)
    as ((rest & Hmsg & _) & _).
  - vm_compute. discriminate.
  - exists rest. exact Hmsg.
Defined.

(** The report for [5] where the system table holds the text of Windows for
    it: the line of the Win32/HRESULT section ends with a carriage return
    before the blank line that separates it from the next section. *)
Example report_5_keeps_carriage_return :
  (@translate example_OS 5 (opened (L "5"))).1 =
  L "DWORD \t5\r\nint \t5\r\nHex \t0x00000005\r\n\r\nWin32/HRESULT: Access is denied.\r\r\n\r\nLDAP: LDAP_COMPARE_FALSE\r\n\r\nStopCode/BugCheck: INVALID_PROCESS_ATTACH_ATTEMPT".
Proof. vm_compute. reflexivity. Qed.

(** The carriage return of a description that ends with [\r\n] is not in the
    set [\n] and stays, for the NTSTATUS text the set is [\r\n]. *)
Example StrTrim_LF_keeps_CR :
  StrTrim (L "Access is denied.\r\n") (L "\n") = L "Access is denied.\r"
  /\ StrTrim (L "STATUS_SUCCESS\r\n") (L "\r\n") = L "STATUS_SUCCESS".
Proof. split; reflexivity. Qed.

(** ** The Value Parser of the specification *)

Lemma read_digits_all base digit s a n :
  read_digits base digit s a = Some n ->
  Forall (fun c => is_Some (digit c)) s.
Proof.
  revert a. induction s as [|c s IH]; intros a Hr; [constructor|].
  cbn [read_digits] in Hr. destruct (digit c) as [d|] eqn:Hd; [|discriminate].
  constructor; [exists d; exact Hd|exact (IH _ Hr)].
Qed.

Lemma dec_digit_range c d : dec_digit c = Some d -> 48 <= c <= 57.
Proof.
  unfold dec_digit. destruct ((48 <=? c) && (c <=? 57)) eqn:E; [|discriminate].
  apply andb_true_iff in E as [E1 E2]. lia.
Qed.

Lemma hex_digit_range c d :
  hex_digit c = Some d -> 48 <= c <= 57 \/ 65 <= c <= 70 \/ 97 <= c <= 102.
Proof.
  unfold hex_digit.
  destruct ((48 <=? c) && (c <=? 57)) eqn:E1;
    [apply andb_true_iff in E1 as [? ?]; lia|].
  destruct ((65 <=? c) && (c <=? 70)) eqn:E2;
    [apply andb_true_iff in E2 as [? ?]; lia|].
  destruct ((97 <=? c) && (c <=? 102)) eqn:E3;
    [apply andb_true_iff in E3 as [? ?]; lia|discriminate].
Qed.

Lemma dec_digit_not_sign c d : dec_digit c = Some d -> is_minus c = false.
Proof.
  intros Hd. apply dec_digit_range in Hd. unfold is_minus.
  apply orb_false_iff. split; apply Z.eqb_neq; lia.
Qed.

Lemma dec_digit_not_x c d : dec_digit c = Some d -> is_x c = false.
Proof.
  intros Hd. apply dec_digit_range in Hd. unfold is_x.
  apply orb_false_iff. split; apply Z.eqb_neq; lia.
Qed.

Lemma magnitude_literal s m : magnitude s = Some m <-> literal s m.
Proof.
  split.
  - destruct s as [|c0 [|c1 [|d ds]]]; cbn [magnitude]; intros Hm;
      try discriminate; try (apply literal_dec; [discriminate|exact Hm]).
    destruct ((c0 =? 48) && is_x c1) eqn:E.
    + apply andb_true_iff in E as [E0 Ex]. apply Z.eqb_eq in E0. subst c0.
      apply literal_hex; [exact Ex|discriminate|exact Hm].
    + apply literal_dec; [discriminate|exact Hm].
  - intros [ds n Hne Hdec|x ds n Hx Hne Hhex].
    + destruct ds as [|c0 [|c1 [|d ds]]]; cbn [magnitude];
        try contradiction; try exact Hdec.
      pose proof (read_digits_all _ _ _ _ _ Hdec) as Hall.
      apply Forall_cons in Hall as [_ Hall].
      apply Forall_cons in Hall as [[d1 Hd1] _].
      rewrite (dec_digit_not_x _ _ Hd1), andb_false_r. exact Hdec.
    + destruct ds as [|d ds]; [contradiction|].
      cbn [magnitude]. rewrite Hx. exact Hhex.
Qed.

Lemma literal_first s n :
  literal s n -> exists c s', s = c :: s' /\ is_minus c = false.
Proof.
  intros [ds m Hne Hdec|x ds m Hx Hne Hhex].
  - destruct ds as [|c ds]; [contradiction|]. exists c, ds.
    split; [reflexivity|].
    pose proof (read_digits_all _ _ _ _ _ Hdec) as Hall.
    apply Forall_cons in Hall as [[d Hd] _]. exact (dec_digit_not_sign _ _ Hd).
  - eexists _, _. split; reflexivity.
Qed.

Lemma literal_value_signed s n : literal_value s = Some n <-> signed_literal s n.
Proof.
  split.
  - destruct s as [|c s]; [discriminate|]. cbn [literal_value].
    destruct (is_minus c) eqn:Hc.
    + destruct (magnitude s) as [m|] eqn:Hm; [|discriminate].
      intros [= <-]. apply negative_literal; [exact Hc|].
      apply magnitude_literal. exact Hm.
    + intros Hm. apply unsigned_literal, magnitude_literal. exact Hm.
  - intros [s' m Hlit|c s' m Hc Hlit].
    + destruct (literal_first _ _ Hlit) as (c & s'' & -> & Hc).
      cbn [literal_value]. rewrite Hc. apply magnitude_literal. exact Hlit.
    + cbn [literal_value]. rewrite Hc.
      apply magnitude_literal in Hlit. rewrite Hlit. reflexivity.
Qed.

Lemma dec_digit_literal_char c d : dec_digit c = Some d -> literal_char c = true.
Proof.
  intros Hd. apply dec_digit_range in Hd.
  assert (Hc : c = 48 \/ c = 49 \/ c = 50 \/ c = 51 \/ c = 52 \/ c = 53
               \/ c = 54 \/ c = 55 \/ c = 56 \/ c = 57) by lia.
  repeat (destruct Hc as [->|Hc]; [reflexivity|]). subst c. reflexivity.
Qed.

Lemma hex_digit_literal_char c d : hex_digit c = Some d -> literal_char c = true.
Proof.
  intros Hd. apply hex_digit_range in Hd.
  assert (Hc : c = 48 \/ c = 49 \/ c = 50 \/ c = 51 \/ c = 52 \/ c = 53
               \/ c = 54 \/ c = 55 \/ c = 56 \/ c = 57
               \/ c = 65 \/ c = 66 \/ c = 67 \/ c = 68 \/ c = 69 \/ c = 70
               \/ c = 97 \/ c = 98 \/ c = 99 \/ c = 100 \/ c = 101 \/ c = 102)
    by lia.
  repeat (destruct Hc as [->|Hc]; [reflexivity|]). subst c. reflexivity.
Qed.

Lemma is_x_literal_char c : is_x c = true -> literal_char c = true.
Proof.
  unfold is_x. intros Hx. apply orb_true_iff in Hx as [Hx|Hx];
    apply Z.eqb_eq in Hx; subst c; reflexivity.
Qed.

Lemma is_minus_literal_char c : is_minus c = true -> literal_char c = true.
Proof.
  unfold is_minus. intros Hx. apply orb_true_iff in Hx as [Hx|Hx];
    apply Z.eqb_eq in Hx; subst c; reflexivity.
Qed.

Lemma literal_chars s n : literal s n -> Forall (fun c => literal_char c = true) s.
Proof.
  intros [ds m Hne Hdec|x ds m Hx Hne Hhex].
  - eapply Forall_impl; [exact (read_digits_all _ _ _ _ _ Hdec)|].
    intros c [d Hd]. exact (dec_digit_literal_char _ _ Hd).
  - constructor; [reflexivity|]. constructor; [exact (is_x_literal_char _ Hx)|].
    eapply Forall_impl; [exact (read_digits_all _ _ _ _ _ Hhex)|].
    intros c [d Hd]. exact (hex_digit_literal_char _ _ Hd).
Qed.

Lemma signed_literal_chars s n :
  signed_literal s n -> Forall (fun c => literal_char c = true) s.
Proof.
  intros [s' m Hlit|c s' m Hc Hlit]; [exact (literal_chars _ _ Hlit)|].
  constructor; [exact (is_minus_literal_char _ Hc)|exact (literal_chars _ _ Hlit)].
Qed.

(** What the input control lets the user type is made of characters of the
    literals; the Unicode minus is let through at the start, the upper-case
    [X] is not. *)
Lemma typed_characters_are_literal_chars at_start ch :
  32 <= ch ->
  SignedIntegerHexSubclassProc_WM_CHAR at_start ch = true ->
  literal_char ch = true.
Proof.
  intros Hch. unfold SignedIntegerHexSubclassProc_WM_CHAR.
  destruct (ch <? 32) eqn:Hctl; [apply Z.ltb_lt in Hctl; lia|].
  destruct (((ch =? 45) || (ch =? 0x2212)) && at_start) eqn:Hsign.
  - intros _. apply andb_true_iff in Hsign as [Hsign _].
    exact (is_minus_literal_char _ Hsign).
  - destruct (wcschr (L "0123456789xabcdefABCDEF") ch) eqn:Hset;
      [|discriminate].
    intros _. unfold literal_char, in_spec_class.
    apply existsb_exists in Hset as (c & Hin & Hc). apply Z.eqb_eq in Hc.
    subst c. apply orb_true_iff. left. apply orb_true_iff. left.
    apply existsb_exists. exists ch.
    split; [|apply Z.eqb_refl].
    cbn [L] in Hin |- *. cbn [In] in Hin |- *. tauto.
Qed.

Example input_filter_examples :
  SignedIntegerHexSubclassProc_WM_CHAR true 0x2212 = true
  /\ SignedIntegerHexSubclassProc_WM_CHAR false 45 = false
  /\ SignedIntegerHexSubclassProc_WM_CHAR true 120 = true
  /\ SignedIntegerHexSubclassProc_WM_CHAR true 88 = false.
Proof. repeat split; reflexivity. Qed.

Lemma in_range_spec n : in_range n = true <-> - 2 ^ 31 <= n <= 2 ^ 32 - 1.
Proof. unfold in_range. rewrite andb_true_iff, !Z.leb_le. reflexivity. Qed.

(** C3, as stated, fails: [0X1F] is a [0X]-prefixed hexadecimal literal and
    the parser yields 31 for it, although its [X] is outside the class
    [[0-9a-fA-Fx-]]. *)
Lemma ValueParser_accepts_upper_case_prefix :
  ~ ((exists c, c ∈ L "0X1F" /\ in_spec_class c = false) ->
     ValueParser (L "0X1F") = None).
Proof.
  intros Hclaim.
  assert (Hnone : ValueParser (L "0X1F") = None).
  { apply Hclaim. exists 88. split; [|reflexivity]. right. left. }
  vm_compute in Hnone. discriminate Hnone.
Qed.

(** C3, amended: the Value Parser yields a value exactly for the texts that
    are a literal of the grammar (an optional [-] or U+2212, then decimal
    digits or [0x]/[0X] and hexadecimal digits of either case) whose number
    lies in [-2^31, 2^32 - 1], and the value is that number narrowed to 32
    bits; for every other text it yields no value, in particular for the
    empty text, for a text with a character outside [[0-9a-fA-FxX-]] and
    U+2212, and for a literal whose number is outside that range. *)
Theorem ValueParser_accepts_exactly_the_literals (s : wstring) :
  (forall v,
     ValueParser s = Some v <->
     exists n, signed_literal s n /\ - 2 ^ 31 <= n <= 2 ^ 32 - 1 /\ v = int32 n)
  /\ (ValueParser s = None <->
      ~ exists n, signed_literal s n /\ - 2 ^ 31 <= n <= 2 ^ 32 - 1)
  /\ (s = [] -> ValueParser s = None)
  /\ ((exists c, c ∈ s /\ literal_char c = false) -> ValueParser s = None)
  /\ (forall n,
        signed_literal s n -> ~ (- 2 ^ 31 <= n <= 2 ^ 32 - 1) ->
        ValueParser s = None).
Proof.
  assert (Hsome : forall v,
            ValueParser s = Some v <->
            exists n, signed_literal s n /\ - 2 ^ 31 <= n <= 2 ^ 32 - 1
                      /\ v = int32 n).
  { intros v. unfold ValueParser. split.
    - destruct (literal_value s) as [n|] eqn:Hn; [|discriminate].
      destruct (in_range n) eqn:Hr; [|discriminate].
      intros [= <-]. exists n. split; [apply literal_value_signed; exact Hn|].
      split; [apply in_range_spec; exact Hr|reflexivity].
    - intros (n & Hlit & Hr & ->). apply literal_value_signed in Hlit.
      rewrite Hlit. apply in_range_spec in Hr. rewrite Hr. reflexivity. }
  assert (Hnone : ValueParser s = None <->
            ~ exists n, signed_literal s n /\ - 2 ^ 31 <= n <= 2 ^ 32 - 1).
  { split.
    - intros Hn (n & Hlit & Hr).
      assert (Hv : ValueParser s = Some (int32 n))
        by (apply Hsome; exists n; auto).
      rewrite Hn in Hv. discriminate Hv.
    - intros Hno. destruct (ValueParser s) as [v|] eqn:Hv; [|reflexivity].
      exfalso. apply Hno.
      destruct (proj1 (Hsome v) eq_refl) as (n & Hlit & Hr & _).
      exists n. auto. }
  split; [exact Hsome|]. split; [exact Hnone|].
  split; [intros ->; reflexivity|].
  split.
  - intros (c & Hc & Hbad). apply Hnone. intros (n & Hlit & _).
    pose proof (signed_literal_chars _ _ Hlit) as Hall.
    rewrite Forall_forall in Hall. specialize (Hall _ Hc).
    rewrite Hbad in Hall. discriminate Hall.
  - intros n Hlit Hout. unfold ValueParser.
    apply literal_value_signed in Hlit. rewrite Hlit.
    destruct (in_range n) eqn:Hr; [|reflexivity].
    apply in_range_spec in Hr. contradiction.
Qed.

(** The parser on the texts the specification mentions. *)
Example ValueParser_examples :
  ValueParser (L "0x00000000") = Some 0
  /\ ValueParser (L "0xFFFFFFFF") = Some (-1)
  /\ ValueParser (L "-1") = Some (-1)
  /\ ValueParser (L "0x05") = Some 5
  /\ ValueParser (L "0x1A") = Some 26
  /\ ValueParser (0x2212 :: L "5") = Some (-5)
  /\ ValueParser (L "abc") = None
  /\ ValueParser (L "") = None
  /\ ValueParser (L "0x") = None
  /\ ValueParser (L "4294967296") = None
  /\ ValueParser (L "-2147483649") = None.
Proof. repeat split; reflexivity. Qed.

(** * Further properties of the code *)

(** ** What a lookup in a table returns *)

(** The entry a run of assignments leaves under a key is the text of the last
    assignment whose key narrows to it; a key no assignment names keeps what
    the map held. *)
Lemma assign_all_lookup ds m key :
  assign_all ds m !! key =
  match last (filter (fun d => int32 d.1 = key) ds) with
  | Some d => Some d.2
  | None => m !! key
  end.
Proof.
  induction ds as [|[k s] ds IH] using rev_ind; [reflexivity|].
  rewrite assign_all_app, filter_app.
  change (assign_all [(k, s)] ?m') with (<[int32 k := s]> m').
  rewrite filter_cons, filter_nil. cbn [fst].
  destruct (decide (int32 k = key)) as [Hk|Hk].
  - rewrite last_snoc, Hk. apply lookup_insert_eq.
  - rewrite app_nil_r, lookup_insert_ne by exact Hk. exact IH.
Qed.

Lemma filter_ext_in {A : Type} (P1 P2 : A -> Prop)
    `{!forall x, Decision (P1 x), !forall x, Decision (P2 x)} (l : list A) :
  (forall x, x ∈ l -> P1 x <-> P2 x) -> filter P1 l = filter P2 l.
Proof.
  induction l as [|a l IH]; intros Hiff; [reflexivity|].
  rewrite !filter_cons.
  rewrite IH by (intros x Hx; apply Hiff; right; exact Hx).
  apply decide_ext. apply Hiff. left.
Qed.

(** X1: a lookup in a startup table, for an [int] [v], returns the text of the
    last assignment of the source whose 32-bit literal is the bit pattern
    [v mod 2^32], and nothing when no assignment has that literal. *)
Theorem startup_lookup_is_last_assignment (t : table) (v : Z) :
  is_int v ->
  get_table t startup_globals !! v =
  snd <$> last (filter (fun d => d.1 = DWORD v) (assignments_of t)).
Proof.
  intros Hv. rewrite startup_table, assign_all_lookup, lookup_empty.
  rewrite (filter_ext_in (fun d : Z * wstring => int32 d.1 = v)
             (fun d : Z * wstring => d.1 = DWORD v)).
  - destruct (last _); reflexivity.
  - intros d Hd. apply int32_bit_pattern; [|exact Hv].
    exact (literals_are_32_bit t d Hd).
Qed.

Lemma startup_lookup_is_last_assignment_witness :
  g_mWU startup_globals !! (-2145124351) =
  snd <$> last (filter (fun d => d.1 = 0x80240001) WU_assignments).
Proof.
  refine (startup_lookup_is_last_assignment tWU (-2145124351) _).
  unfold is_int. lia.
Defined.

(** X2: the source assigns no key twice in the Windows Update and BugCheck
    tables, and only [0x09] twice in the LDAP table, so the startup tables
    hold 474, 62 and 377 entries and every assignment of the source except
    the first one of [0x09] is what a lookup of its key returns. *)
Theorem every_assignment_but_one_is_found :
  size (g_mWU startup_globals) = 474%nat
  /\ size (g_mLDAP startup_globals) = 62%nat
  /\ size (g_mBugCheck startup_globals) = 377%nat
  /\ NoDup (WU_assignments.*1)
  /\ NoDup (BugCheck_assignments.*1)
  /\ (forall t k s,
        (k, s) ∈ assignments_of t ->
        (k, s) <> (0x09, L "LDAP_REFERRAL_V2") ->
        get_table t startup_globals !! int32 k = Some s).
Proof.
  split; [vm_compute; reflexivity|].
  split; [vm_compute; reflexivity|].
  split; [vm_compute; reflexivity|].
  split; [apply (bool_decide_unpack _); vm_compute; exact I|].
  split; [apply (bool_decide_unpack _); vm_compute; exact I|].
  intros t k s Hin Hne.
  assert (Hall : Forall (fun d : Z * wstring =>
                   d = (0x09, L "LDAP_REFERRAL_V2")
                   \/ get_table t startup_globals !! int32 d.1 = Some d.2)
                   (assignments_of t)).
  { destruct t; apply (bool_decide_unpack _); vm_compute; exact I. }
  rewrite Forall_forall in Hall. destruct (Hall _ Hin) as [Heq|Hfound].
  - contradiction.
  - exact Hfound.
Qed.

Lemma NoDup_snd_inj {A B : Type} (l : list (A * B)) a1 a2 b :
  NoDup (l.*2) -> (a1, b) ∈ l -> (a2, b) ∈ l -> a1 = a2.
Proof.
  intros Hnd H1 H2.
  apply list_elem_of_lookup in H1 as [i Hi].
  apply list_elem_of_lookup in H2 as [j Hj].
  assert (Hi2 : l.*2 !! i = Some b) by (rewrite list_lookup_fmap, Hi; reflexivity).
  assert (Hj2 : l.*2 !! j = Some b) by (rewrite list_lookup_fmap, Hj; reflexivity).
  pose proof (NoDup_lookup _ _ _ _ Hnd Hi2 Hj2) as ->.
  rewrite Hi in Hj. injection Hj as ->. reflexivity.
Qed.

(** X3: in each startup table every text is non-empty and belongs to one key
    only, so a table section of a report never has an empty text and its text
    tells the code it stands for. *)
Theorem table_texts_nonempty_and_distinct (t : table) :
  (forall v s, get_table t startup_globals !! v = Some s -> s <> [])
  /\ (forall v1 v2 s,
        get_table t startup_globals !! v1 = Some s ->
        get_table t startup_globals !! v2 = Some s ->
        v1 = v2).
Proof.
  split.
  - assert (HF : map_Forall (fun _ s => s <> [])
                   (get_table t startup_globals))
      by (destruct t; apply (bool_decide_unpack _); vm_compute; exact I).
    intros v s Hs. exact (HF v s Hs).
  - assert (Hnd : NoDup ((map_to_list (get_table t startup_globals)).*2))
      by (destruct t; apply (bool_decide_unpack _); vm_compute; exact I).
    intros v1 v2 s H1 H2.
    apply elem_of_map_to_list in H1, H2.
    exact (NoDup_snd_inj _ _ _ _ Hnd H1 H2).
Qed.

(** X4: at startup no key of the Windows Update table is a key of the LDAP or
    of the BugCheck table, and every key of the LDAP table except 0 is a key of
    the BugCheck table.  So a report with a WU section has no LDAP and no
    StopCode/BugCheck section, and a report with an LDAP section for a value
    other than 0 also has a StopCode/BugCheck section. *)
Theorem table_collisions `{OS} (v : Z) :
  (is_Some (yield startup_globals v WU) ->
   yield startup_globals v LDAP = None
   /\ yield startup_globals v StopCode_BugCheck = None)
  /\ (is_Some (yield startup_globals v LDAP) -> v <> 0 ->
      is_Some (yield startup_globals v StopCode_BugCheck))
  /\ yield startup_globals 0 LDAP = Some (L "LDAP_SUCCESS")
  /\ yield startup_globals 0 StopCode_BugCheck = None.
Proof.
  cbn [yield].
  assert (HWU : map_Forall (fun k _ =>
                  g_mLDAP startup_globals !! k = None
                  /\ g_mBugCheck startup_globals !! k = None)
                  (g_mWU startup_globals))
    by (apply (bool_decide_unpack _); vm_compute; exact I).
  assert (HLDAP : map_Forall (fun k _ =>
                    k <> 0 -> is_Some (g_mBugCheck startup_globals !! k))
                    (g_mLDAP startup_globals))
    by (apply (bool_decide_unpack _); vm_compute; exact I).
  split; [intros [s Hs]; exact (HWU v s Hs)|].
  split; [intros [s Hs]; exact (HLDAP v s Hs)|].
  split; vm_compute; reflexivity.
Qed.

(** X5: where the keys of the startup tables lie.  A value found in the
    Windows Update table has the facility [0x024] in the bits 16 to 30 of its
    pattern (it is [0x0024xxxx] or [0x8024xxxx]); a value found in the LDAP
    table lies between 0 and [0x61], so no negative input has an LDAP section;
    0 is not in the BugCheck table. *)
Theorem table_key_ranges (v : Z) :
  (is_Some (g_mWU startup_globals !! v) ->
   DWORD v / 2 ^ 16 = 0x0024 \/ DWORD v / 2 ^ 16 = 0x8024)
  /\ (is_Some (g_mLDAP startup_globals !! v) -> 0 <= v <= 0x61)
  /\ (is_Some (g_mBugCheck startup_globals !! v) -> v <> 0).
Proof.
  assert (HWU : map_Forall (fun k _ =>
                  DWORD k / 2 ^ 16 = 0x0024 \/ DWORD k / 2 ^ 16 = 0x8024)
                  (g_mWU startup_globals))
    by (apply (bool_decide_unpack _); vm_compute; exact I).
  assert (HLDAP : map_Forall (fun k _ => 0 <= k <= 0x61)
                    (g_mLDAP startup_globals))
    by (apply (bool_decide_unpack _); vm_compute; exact I).
  assert (HBug : map_Forall (fun k _ => k <> 0) (g_mBugCheck startup_globals))
    by (apply (bool_decide_unpack _); vm_compute; exact I).
  split; [intros [s Hs]; exact (HWU v s Hs)|].
  split; [intros [s Hs]; exact (HLDAP v s Hs)|].
  intros [s Hs]. exact (HBug v s Hs).
Qed.

(** ** Filling the tables *)

Lemma assign_all_idempotent ds m :
  assign_all ds (assign_all ds m) = assign_all ds m.
Proof.
  apply map_eq. intros key. rewrite !assign_all_lookup.
  destruct (last (filter (fun d : Z * wstring => int32 d.1 = key) ds));
    reflexivity.
Qed.

(** X6: each of the three functions that fill a table writes its own table
    only; in its own table it leaves under every key the text of its last
    assignment to that key, and what the table held before under a key it
    does not assign; it gives the same table when it is called again, and
    commutes with the other two; so the tables [wWinMain] builds do not depend
    on the order of its three calls. *)
Theorem table_setters_independent (g : globals) :
  (g_mLDAP (setWUCodes g) = g_mLDAP g
   /\ g_mBugCheck (setWUCodes g) = g_mBugCheck g
   /\ g_mWU (setLDAPCodes g) = g_mWU g
   /\ g_mBugCheck (setLDAPCodes g) = g_mBugCheck g
   /\ g_mWU (setBugCheckCodes g) = g_mWU g
   /\ g_mLDAP (setBugCheckCodes g) = g_mLDAP g)
  /\ ((forall key,
         (forall d, d ∈ WU_assignments -> int32 d.1 <> key) ->
         g_mWU (setWUCodes g) !! key = g_mWU g !! key)
      /\ (forall key,
            (forall d, d ∈ LDAP_assignments -> int32 d.1 <> key) ->
            g_mLDAP (setLDAPCodes g) !! key = g_mLDAP g !! key)
      /\ (forall key,
            (forall d, d ∈ BugCheck_assignments -> int32 d.1 <> key) ->
            g_mBugCheck (setBugCheckCodes g) !! key = g_mBugCheck g !! key))
  /\ ((forall key d,
         last (filter (fun d : Z * wstring => int32 d.1 = key) WU_assignments)
           = Some d ->
         g_mWU (setWUCodes g) !! key = Some d.2)
      /\ (forall key d,
            last (filter (fun d : Z * wstring => int32 d.1 = key)
                    LDAP_assignments) = Some d ->
            g_mLDAP (setLDAPCodes g) !! key = Some d.2)
      /\ (forall key d,
            last (filter (fun d : Z * wstring => int32 d.1 = key)
                    BugCheck_assignments) = Some d ->
            g_mBugCheck (setBugCheckCodes g) !! key = Some d.2))
  /\ (setWUCodes (setWUCodes g) = setWUCodes g
      /\ setLDAPCodes (setLDAPCodes g) = setLDAPCodes g
      /\ setBugCheckCodes (setBugCheckCodes g) = setBugCheckCodes g)
  /\ (setLDAPCodes (setWUCodes g) = setWUCodes (setLDAPCodes g)
      /\ setBugCheckCodes (setWUCodes g) = setWUCodes (setBugCheckCodes g)
      /\ setBugCheckCodes (setLDAPCodes g) = setLDAPCodes (setBugCheckCodes g))
  /\ setWUCodes (setLDAPCodes (setBugCheckCodes static_init)) = startup_globals.
Proof.
  split; [repeat split|].
  split.
  { repeat split; intros key Hkey; apply assign_all_other; exact Hkey. }
  split.
  { repeat split; intros key d Hd;
      unfold setWUCodes, setLDAPCodes, setBugCheckCodes, set_table;
      cbn [g_mWU g_mLDAP g_mBugCheck];
      rewrite assign_all_lookup, Hd; reflexivity. }
  split.
  - unfold setWUCodes, setLDAPCodes, setBugCheckCodes, set_table.
    cbn [g_mWU g_mLDAP g_mBugCheck]. rewrite !assign_all_idempotent.
    repeat split.
  - split; [|reflexivity].
    unfold setWUCodes, setLDAPCodes, setBugCheckCodes, set_table.
    cbn [g_mWU g_mLDAP g_mBugCheck]. repeat split.
Qed.

(** A table that holds entries of its own keeps them through its function:
    [setLDAPCodes] on a table with the key 1000 leaves that entry and adds
    its 62. *)
Example setLDAPCodes_keeps_other_entries :
  g_mLDAP (setLDAPCodes (Globals ∅ {[ 1000 := L "mine" ]} ∅)) !! 1000
    = Some (L "mine")
  /\ size (g_mLDAP (setLDAPCodes (Globals ∅ {[ 1000 := L "mine" ]} ∅))) = 63%nat.
Proof. split; vm_compute; reflexivity. Qed.

(** ** The buffer of the hexadecimal text *)

Lemma replicate_snoc_cons {A : Type} (k : nat) (x : A) (l : list A) :
  replicate k x ++ x :: l = x :: replicate k x ++ l.
Proof.
  induction k as [|k IH]; [reflexivity|].
  cbn [replicate app]. rewrite IH. reflexivity.
Qed.

Lemma hex_digits_zero k acc : hex_digits k 0 acc = replicate k 48 ++ acc.
Proof.
  revert acc. induction k as [|k IH]; intros acc; [reflexivity|].
  cbn [hex_digits]. change (0 / 16) with 0. change (0 mod 16) with 0.
  rewrite IH. change (digit_char 0) with 48. apply replicate_snoc_cons.
Qed.

(** The eight digits are the digits of [%X] behind a run of zeros. *)
Lemma hex_digits_pads k n acc :
  0 <= n < 16 ^ Z.of_nat k ->
  exists z, hex_digits k n acc = replicate z 48 ++ hex_minimal k n acc.
Proof.
  revert n acc. induction k as [|k IH]; intros n acc Hn.
  - exists 0%nat. reflexivity.
  - cbn [hex_digits hex_minimal]. destruct (n / 16 =? 0) eqn:Hq.
    + apply Z.eqb_eq in Hq. rewrite Hq, hex_digits_zero. exists k. reflexivity.
    + apply IH. rewrite Nat2Z.inj_succ, Z.pow_succ_r in Hn by lia.
      split; [apply Z.div_pos; lia|apply Z.div_lt_upper_bound; lia].
Qed.

Lemma printf_08X_eight_digits n :
  0 <= n < 2 ^ 32 -> printf_08X n = hex_digits 8 n [].
Proof.
  intros Hn. unfold printf_08X.
  destruct (hex_digits_pads 8 n []) as [z Hz];
    [change (16 ^ Z.of_nat 8) with (2 ^ 32); exact Hn|].
  pose proof (hex_digits_length 8 n []) as Hlen.
  rewrite Hz, length_app, length_replicate in Hlen. cbn [length] in Hlen.
  rewrite Hz. f_equal. f_equal. lia.
Qed.

(** X7: the buffer [szHex] is large enough.  For every [iValue] the format
    [0x%08X] gives exactly ten characters, the prefix and eight upper-case
    digits, which with the terminator fill the eleven elements of the buffer;
    [_snwprintf_s] never truncates, and the text in the buffer is the one the
    header shows. *)
Theorem szHex_is_never_truncated (iValue : Z) :
  length (L "0x" ++ printf_08X (DWORD iValue)) = 10%nat
  /\ (length (L "0x" ++ printf_08X (DWORD iValue)) + 1
      <= _MAX_ITOSTR_BASE16_COUNT + 2)%nat
  /\ szHex iValue = L "0x" ++ printf_08X (DWORD iValue)
  /\ szHex iValue = snwprintf_0x08X iValue
  /\ hex_value (drop 2 (szHex iValue)) = Some (DWORD iValue).
Proof.
  assert (Hd : 0 <= DWORD iValue < 2 ^ 32) by (apply Z.mod_pos_bound; lia).
  assert (Hlen : length (L "0x" ++ printf_08X (DWORD iValue)) = 10%nat).
  { rewrite printf_08X_eight_digits by exact Hd.
    rewrite length_app, hex_digits_length. reflexivity. }
  assert (Hsz : szHex iValue = L "0x" ++ printf_08X (DWORD iValue)).
  { unfold szHex, snwprintf_s_TRUNCATE. apply take_ge. rewrite Hlen.
    vm_compute. lia. }
  split; [exact Hlen|]. split; [rewrite Hlen; vm_compute; lia|].
  split; [exact Hsz|].
  rewrite Hsz, printf_08X_eight_digits by exact Hd.
  split; [reflexivity|].
  change (drop 2 (L "0x" ++ ?l)) with l.
  unfold hex_value. rewrite read_hex_digits by lia. cbn [read_digits].
  f_equal. change (16 ^ Z.of_nat 8) with (2 ^ 32).
  rewrite Z.mod_small by exact Hd. lia.
Qed.

(** ** The report tells the value *)

Lemma prefix_before_CR (u1 u2 r1 r2 : wstring) :
  Forall (fun c => c <> 13) u1 -> Forall (fun c => c <> 13) u2 ->
  u1 ++ 13 :: r1 = u2 ++ 13 :: r2 -> u1 = u2.
Proof.
  revert u2. induction u1 as [|c u1 IH]; intros [|c2 u2] H1 H2 Heq.
  - reflexivity.
  - injection Heq as Hc _. apply Forall_cons in H2 as [Hc2 _]. congruence.
  - injection Heq as Hc _. apply Forall_cons in H1 as [Hc1 _]. congruence.
  - injection Heq as -> Heq.
    apply Forall_cons in H1 as [_ H1]. apply Forall_cons in H2 as [_ H2].
    f_equal. exact (IH _ H1 H2 Heq).
Qed.

Lemma to_wstring_unsigned_no_CR n :
  0 <= n < 2 ^ 32 -> Forall (fun c => c <> 13) (to_wstring_unsigned n).
Proof.
  intros Hn. pose proof (dec_value_to_wstring_unsigned n Hn) as Hdec.
  eapply Forall_impl; [exact (read_digits_all _ _ _ _ _ Hdec)|].
  intros c [d Hd]. apply dec_digit_range in Hd. lia.
Qed.

Lemma DWORD_inj v1 v2 : is_int v1 -> is_int v2 -> DWORD v1 = DWORD v2 -> v1 = v2.
Proof.
  intros H1 H2 Heq.
  assert (Hd : 0 <= DWORD v1 < 2 ^ 32) by (apply Z.mod_pos_bound; lia).
  transitivity (int32 (DWORD v1)).
  - symmetry. apply int32_bit_pattern; [exact Hd|exact H1|reflexivity].
  - apply int32_bit_pattern; [exact Hd|exact H2|exact Heq].
Qed.

(** X8: the message tells the value.  Two different [int] values never get
    the same message, whatever the machines, the tables and the states the
    two resolutions run in: the unsigned decimal text of the first line
    already differs. *)
Theorem different_values_different_messages (os1 os2 : OS) (w1 w2 : world)
    (v1 v2 : Z) :
  is_int v1 -> is_int v2 -> v1 <> v2 ->
  (@translate os1 v1 w1).1 <> (@translate os2 v2 w2).1.
Proof.
  intros H1 H2 Hne Heq. apply Hne. clear Hne.
  rewrite !translate_run in Heq. cbn [fst] in Heq.
  unfold report, numeric_values in Heq.
  rewrite <- !app_assoc in Heq. apply app_inv_head in Heq.
  change (L "\r\n" ++ ?r) with (13 :: 10 :: r) in Heq.
  assert (Hd1 : 0 <= DWORD v1 < 2 ^ 32) by (apply Z.mod_pos_bound; lia).
  assert (Hd2 : 0 <= DWORD v2 < 2 ^ 32) by (apply Z.mod_pos_bound; lia).
  apply prefix_before_CR in Heq;
    [|apply to_wstring_unsigned_no_CR; assumption
     |apply to_wstring_unsigned_no_CR; assumption].
  apply DWORD_inj; [exact H1|exact H2|].
  pose proof (dec_value_to_wstring_unsigned _ Hd1) as Hv1.
  pose proof (dec_value_to_wstring_unsigned _ Hd2) as Hv2.
  rewrite Heq, Hv2 in Hv1. injection Hv1 as ->. reflexivity.
Qed.

Lemma different_values_different_messages_witness :
  (@translate example_OS 5 (opened (L "5"))).1
  <> (@translate silent_OS (-1) (opened (L "-1"))).1.
Proof.
  apply different_values_different_messages; unfold is_int; lia.
Defined.

(** ** The sections of the System Message Provider *)

Section SystemSections.
Context `{OS}.

(** The sections of the report, source by source. *)
Lemma hits_split g v :
  hits g v =
  from_option (fun t => [(Win32_HRESULT, t)]) [] (yield g v Win32_HRESULT)
  ++ from_option (fun t => [(NTSTATUS, t)]) [] (yield g v NTSTATUS)
  ++ omap (fun s => pair s <$> yield g v s) [WU; LDAP; StopCode_BugCheck].
Proof.
  unfold hits, all_sources. cbn [omap list_omap].
  destruct (yield g v Win32_HRESULT), (yield g v NTSTATUS); reflexivity.
Qed.

Lemma wcschr_CRLF c : wcschr (L "\r\n") c = true <-> c = 13 \/ c = 10.
Proof.
  cbn [L wcschr existsb]. rewrite orb_false_r, orb_true_iff, !Z.eqb_eq.
  reflexivity.
Qed.

Lemma trim_leading_all set s :
  Forall (fun c => wcschr set c = true) s -> trim_leading set s = [].
Proof.
  induction 1 as [|c s Hc _ IH]; [reflexivity|].
  cbn [trim_leading]. rewrite Hc. exact IH.
Qed.

End SystemSections.

(** X9: when ntdll.dll is loaded and its message table yields a non-empty
    description for the value, the report has the section labeled [NTSTATUS]
    right after the Win32/HRESULT section, or right after the numeric header
    when there is none; its text is the description without the carriage
    returns and line feeds at its two ends, it neither starts nor ends with
    one of them; and the table of ntdll.dll has been asked. *)
Theorem NTSTATUS_section_is_trimmed_description `{OS} (v : Z) (w : world) :
  GetModuleHandle_ntdll = true ->
  FormatMessage_HMODULE v <> [] ->
  exists text rest lead trail,
    (translate v w).1 =
      numeric_values v
        ++ from_option (fun d => L "\r\n\r\nWin32/HRESULT: " ++ StrTrim d (L "\n"))
             [] (genericStatusText v)
        ++ L "\r\n\r\nNTSTATUS: " ++ text ++ rest
    /\ text = StrTrim (FormatMessage_HMODULE v) (L "\r\n")
    /\ FormatMessage_HMODULE v = lead ++ text ++ trail
    /\ Forall (fun c => c = 13 \/ c = 10) lead
    /\ Forall (fun c => c = 13 \/ c = 10) trail
    /\ (forall c, head text = Some c -> c <> 13 /\ c <> 10)
    /\ (forall c, last text = Some c -> c <> 13 /\ c <> 10)
    /\ Q_FormatMessage_HMODULE v ∈ queries (translate v w).2.
Proof.
  intros Hdll Hne.
  destruct (StrTrim_split (FormatMessage_HMODULE v) (L "\r\n"))
    as (lead & trail & Hsplit & Hlead & Htrail & Hlast & Hhead).
  assert (Hnt : yield (tables w) v NTSTATUS =
                Some (StrTrim (FormatMessage_HMODULE v) (L "\r\n"))).
  { cbn [yield]. unfold kernelStatusText. rewrite Hdll.
    destruct (FormatMessage_HMODULE v); [contradiction|reflexivity]. }
  assert (Hnot : forall c, wcschr (L "\r\n") c = false -> c <> 13 /\ c <> 10).
  { intros c Hc. split; intros ->; vm_compute in Hc; discriminate Hc. }
  exists (StrTrim (FormatMessage_HMODULE v) (L "\r\n")),
    (concat (map (fun h => section h.1 h.2)
       (omap (fun s => pair s <$> yield (tables w) v s)
          [WU; LDAP; StopCode_BugCheck]))), lead, trail.
  split.
  { rewrite translate_run. cbn [fst]. unfold report.
    rewrite hits_split, Hnt. cbn [yield from_option].
    rewrite !map_app, !concat_app. cbn [map concat fst snd].
    rewrite app_nil_r, section_literal.
    destruct (genericStatusText v) as [d|];
      cbn [fmap option_fmap option_map from_option map concat fst snd];
      rewrite ?section_literal, ?app_nil_r, <- ?app_assoc; reflexivity. }
  split; [reflexivity|]. split; [exact Hsplit|].
  split; [eapply Forall_impl; [exact Hlead|intros c; apply wcschr_CRLF]|].
  split; [eapply Forall_impl; [exact Htrail|intros c; apply wcschr_CRLF]|].
  split; [intros c Hc; exact (Hnot c (Hhead c Hc))|].
  split; [intros c Hc; exact (Hnot c (Hlast c Hc))|].
  rewrite translate_run. cbn [snd]. unfold with_queries; cbn [queries].
  unfold queries_of. rewrite Hdll.
  apply elem_of_app. right. apply elem_of_app. right.
  apply elem_of_app. left. right. left.
Qed.

Lemma NTSTATUS_section_is_trimmed_description_witness :
  exists rest,
    (@translate example_OS 0 (opened (L "0"))).1 =
      numeric_values 0
        ++ L "\r\n\r\nWin32/HRESULT: The operation completed successfully.\r"
        ++ L "\r\n\r\nNTSTATUS: STATUS_SUCCESS" ++ rest.
Proof.
  destruct (@NTSTATUS_section_is_trimmed_description example_OS 0
              (opened (L "0")))
    as (text & rest & lead & trail & Hmsg & Htext & _).
  - reflexivity.
  - vm_compute. discriminate.
  - exists rest. rewrite Hmsg, Htext. reflexivity.
Defined.



(** X11: a description that is not empty but made of the trimmed characters
    only still gets its section, with an empty text: the label is followed at
    once by what comes next.  For the Win32/HRESULT section, a description
    made of line feeds. *)
Theorem blank_description_gives_empty_section `{OS} (v : Z) (w : world) :
  FormatMessage_SYSTEM v <> [] ->
  Forall (fun c => c = 10) (FormatMessage_SYSTEM v) ->
  head (hits (tables w) v) = Some (Win32_HRESULT, [])
  /\ exists rest,
       (translate v w).1 =
         numeric_values v ++ L "\r\n\r\nWin32/HRESULT: " ++ rest
       /\ (rest = [] \/ exists rest', rest = L "\r\n\r\n" ++ rest').
Proof.
  intros Hne Hall.
  assert (Htrim : StrTrim (FormatMessage_SYSTEM v) (L "\n") = []).
  { unfold StrTrim. rewrite (trim_leading_all (L "\n") (FormatMessage_SYSTEM v)).
    - reflexivity.
    - eapply Forall_impl; [exact Hall|]. intros c ->. reflexivity. }
  assert (Hy : yield (tables w) v Win32_HRESULT = Some []).
  { cbn [yield]. unfold genericStatusText.
    destruct (FormatMessage_SYSTEM v) eqn:E; [contradiction|].
    cbn [nonempty fmap option_fmap option_map]. rewrite Htrim. reflexivity. }
  split; [rewrite hits_split, Hy; reflexivity|].
  rewrite translate_run. cbn [fst]. unfold report. rewrite hits_split, Hy.
  cbn [from_option app map concat fst snd]. rewrite section_literal, app_nil_r.
  eexists. split; [reflexivity|].
  destruct (yield (tables w) v NTSTATUS) as [t2|]; cbn [from_option app].
  { right. cbn [map concat fst snd]. unfold section.
    rewrite <- app_assoc. eexists. reflexivity. }
  cbn [omap list_omap].
  destruct (yield (tables w) v WU) as [t3|];
    cbn [fmap option_fmap option_map];
    [right; cbn [map concat fst snd]; unfold section; rewrite <- app_assoc;
     eexists; reflexivity|].
  destruct (yield (tables w) v LDAP) as [t4|];
    cbn [fmap option_fmap option_map];
    [right; cbn [map concat fst snd]; unfold section; rewrite <- app_assoc;
     eexists; reflexivity|].
  destruct (yield (tables w) v StopCode_BugCheck) as [t5|];
    cbn [fmap option_fmap option_map];
    [right; cbn [map concat fst snd]; unfold section; rewrite <- app_assoc;
     eexists; reflexivity|].
  left. reflexivity.
Qed.

Lemma blank_description_gives_empty_section_witness :
  head (@hits {| StrToIntEx := ValueParser;
                 FormatMessage_SYSTEM := fun _ => L "\n\n";
                 GetModuleHandle_ntdll := true;
                 FormatMessage_HMODULE := fun _ => [];
                 RegSetKeyValue_succeeds := fun _ => true |}
          startup_globals 7)
  = Some (Win32_HRESULT, []).
Proof.
  refine (proj1 (@blank_description_gives_empty_section
                   {| StrToIntEx := ValueParser;
                      FormatMessage_SYSTEM := fun _ => L "\n\n";
                      GetModuleHandle_ntdll := true;
                      FormatMessage_HMODULE := fun _ => [];
                      RegSetKeyValue_succeeds := fun _ => true |}
                   7 (opened (L "7")) _ _)).
  - vm_compute. discriminate.
  - vm_compute. repeat constructor.
Defined.

(** ** The stored input *)

Section Stored.
Context `{OS}.

Lemma restore_LastInput_short (w : world) (i s : wstring) :
  IDC_INPUT w = Some i -> LastInput w = Some s ->
  (length s <= MAXVALUELENTH)%nat ->
  restore_LastInput w = (tt, with_input (Some s) w).
Proof.
  intros Hi Hs Hlen.
  unfold restore_LastInput, gets, modify, mbind, M_bind, mret, M_ret.
  rewrite Hi, Hs. apply Nat.leb_le in Hlen. rewrite Hlen. reflexivity.
Qed.

Lemma GetWindowText_length text : (length (GetWindowText text) <= MAXVALUELENTH)%nat.
Proof. unfold GetWindowText. rewrite length_take. lia. Qed.

Lemma GetWindowText_idempotent text :
  GetWindowText (GetWindowText text) = GetWindowText text.
Proof. unfold GetWindowText. rewrite take_take, Nat.min_id. reflexivity. Qed.

Lemma after_search_accepted (w : world) (text : wstring) (v : Z) :
  IDC_INPUT w = Some text ->
  StrToIntEx (GetWindowText text) = Some v ->
  after_search w =
  let w1 :=
    with_queries (queries w ++ queries_of (tables w) (int32 v))
      (written (GetWindowText text) w) in
  match IDC_OUTPUT w with
  | None => w1
  | Some _ => with_output (Some (report (tables w) (int32 v))) w1
  end.
Proof. intros Hi Hv. unfold after_search. rewrite Hi, Hv. reflexivity. Qed.

End Stored.

(** X12: the stored input comes back.  A search that the parser accepts and
    whose registry write succeeds stores the text it parsed, at most
    [MAXVALUELENTH] characters; when a later session starts with that value in
    the registry, [WM_INITDIALOG] puts exactly that text into the input
    control, and a search there shows the report the first search showed
    (same tables, same machine).  When the write fails, the registry keeps
    what it held. *)
Theorem stored_input_round_trip `{OS} (w w' : world) (text : wstring) (v : Z) :
  IDC_INPUT w = Some text ->
  StrToIntEx (GetWindowText text) = Some v ->
  RegSetKeyValue_succeeds (GetWindowText text) = true ->
  is_Some (IDC_OUTPUT w) ->
  LastInput w' = LastInput (search w).2 ->
  is_Some (IDC_INPUT w') ->
  is_Some (IDC_OUTPUT w') ->
  tables w' = tables w ->
  LastInput (search w).2 = Some (GetWindowText text)
  /\ (length (GetWindowText text) <= MAXVALUELENTH)%nat
  /\ IDC_INPUT (WndProcMainDialog WM_INITDIALOG w').2
     = Some (GetWindowText text)
  /\ IDC_OUTPUT (search (WndProcMainDialog WM_INITDIALOG w').2).2
     = IDC_OUTPUT (search w).2
  /\ (forall w0 text0,
        IDC_INPUT w0 = Some text0 ->
        RegSetKeyValue_succeeds (GetWindowText text0) = false ->
        LastInput (search w0).2 = LastInput w0).
Proof.
  intros Hi Hv Hok [o Ho] Hreg [i' Hi'] [o' Ho'] Ht.
  rewrite search_run in Hreg |- *. cbn [snd] in Hreg |- *.
  rewrite (after_search_accepted w text v Hi Hv) in Hreg |- *.
  unfold written in Hreg |- *. rewrite Hok in Hreg |- *.
  rewrite Ho in Hreg |- *. cbn [LastInput with_output with_queries
    with_LastInput IDC_OUTPUT] in Hreg |- *.
  split; [reflexivity|]. split; [apply GetWindowText_length|].
  unfold WndProcMainDialog, mbind, M_bind.
  rewrite (restore_LastInput_short w' i' (GetWindowText text) Hi' Hreg
             (GetWindowText_length text)).
  cbn [mret M_ret snd]. split; [reflexivity|].
  split.
  - rewrite search_run. cbn [snd].
    rewrite (after_search_accepted (with_input (Some (GetWindowText text)) w')
               (GetWindowText text) v eq_refl)
      by (rewrite GetWindowText_idempotent; exact Hv).
    cbn [IDC_OUTPUT with_input tables]. rewrite Ho'.
    cbn [IDC_OUTPUT with_output]. rewrite Ht. reflexivity.
  - intros w0 text0 Hi0 Hfail. rewrite search_run. cbn [snd].
    unfold after_search, written. rewrite Hi0, Hfail.
    destruct (StrToIntEx (GetWindowText text0)); [|reflexivity].
    destruct (IDC_OUTPUT w0); reflexivity.
Qed.

Lemma stored_input_round_trip_witness :
  IDC_OUTPUT
    (@search example_OS
       (@WndProcMainDialog example_OS WM_INITDIALOG
          (World startup_globals (Some []) (Some []) (Some (L "0x05")) false
             [])).2).2
  = IDC_OUTPUT (@search example_OS (opened (L "0x05"))).2.
Proof.
  refine (proj1 (proj2 (proj2 (proj2
    (@stored_input_round_trip example_OS (opened (L "0x05"))
       (World startup_globals (Some []) (Some []) (Some (L "0x05")) false [])
       (L "0x05") 5 eq_refl eq_refl eq_refl _ _ _ _ eq_refl))))).
  - eexists; reflexivity.
  - vm_compute. reflexivity.
  - eexists; reflexivity.
  - eexists; reflexivity.
Defined.

(** X13: reading the stored value back, as the two calls of [RegGetValue] do
    it, restores a value exactly when it has at most [MAXVALUELENTH]
    characters.  A value of [MAXVALUELENTH + 1] characters passes the size
    test of line 1341 and is then refused by the read into the buffer, a
    longer one fails the size test; in both cases, and when no value is
    stored or the input control is missing, nothing changes.  The message
    never touches the tables, the output, the registry or the sources. *)
Theorem WM_INITDIALOG_restores_short_values `{OS} (w : world) :
  restore_LastInput_as_written w = restore_LastInput w
  /\ (forall i s,
        IDC_INPUT w = Some i -> LastInput w = Some s ->
        (length s <= MAXVALUELENTH)%nat ->
        (WndProcMainDialog WM_INITDIALOG w).2 = with_input (Some s) w)
  /\ (forall s,
        LastInput w = Some s -> (MAXVALUELENTH < length s)%nat ->
        (WndProcMainDialog WM_INITDIALOG w).2 = w)
  /\ (forall s,
        LastInput w = Some s -> length s = S MAXVALUELENTH ->
        (RegGetValue_size s <=? (MAXVALUELENTH + 2) * sizeof_WCHAR)%nat = true
        /\ RegGetValue_data ((MAXVALUELENTH + 1) * sizeof_WCHAR) s = None)
  /\ (LastInput w = None \/ IDC_INPUT w = None ->
      (WndProcMainDialog WM_INITDIALOG w).2 = w)
  /\ (exists input,
        (WndProcMainDialog WM_INITDIALOG w).2 = with_input input w).
Proof.
  assert (Heq : restore_LastInput_as_written w = restore_LastInput w).
  { unfold restore_LastInput_as_written, restore_LastInput, gets, modify,
      mbind, M_bind, mret, M_ret.
    destruct (IDC_INPUT w) as [i|]; [|destruct (LastInput w); reflexivity].
    destruct (LastInput w) as [s|]; [|reflexivity].
    unfold RegGetValue_data, RegGetValue_size, sizeof_WCHAR, MAXVALUELENTH.
    destruct (length s <=? 30)%nat eqn:Hlen.
    - apply Nat.leb_le in Hlen.
      assert (H1 : (0 <? (length s + 1) * 2)%nat = true)
        by (apply Nat.ltb_lt; lia).
      assert (H2 : ((length s + 1) * 2 <=? (30 + 2) * 2)%nat = true)
        by (apply Nat.leb_le; lia).
      assert (H3 : ((length s + 1) * 2 <=? (30 + 1) * 2)%nat = true)
        by (apply Nat.leb_le; lia).
      rewrite H1, H2, H3. reflexivity.
    - apply Nat.leb_gt in Hlen.
      assert (H3 : ((length s + 1) * 2 <=? (30 + 1) * 2)%nat = false)
        by (apply Nat.leb_gt; lia).
      rewrite H3.
      destruct ((0 <? (length s + 1) * 2)%nat
                && ((length s + 1) * 2 <=? (30 + 2) * 2)%nat); reflexivity. }
  split; [exact Heq|].
  split.
  { intros i s Hi Hs Hlen. unfold WndProcMainDialog, mbind, M_bind.
    rewrite (restore_LastInput_short w i s Hi Hs Hlen). reflexivity. }
  split.
  { intros s Hs Hlen.
    unfold WndProcMainDialog, restore_LastInput, gets, modify, mbind, M_bind,
      mret, M_ret.
    rewrite Hs. apply Nat.leb_gt in Hlen. rewrite Hlen.
    destruct (IDC_INPUT w); reflexivity. }
  split.
  { intros s _ Hlen.
    unfold RegGetValue_data, RegGetValue_size, sizeof_WCHAR, MAXVALUELENTH in *.
    rewrite Hlen. split; reflexivity. }
  split.
  { intros [Hs|Hi];
      unfold WndProcMainDialog, restore_LastInput, gets, modify, mbind, M_bind,
        mret, M_ret.
    - rewrite Hs. destruct (IDC_INPUT w); reflexivity.
    - rewrite Hi. reflexivity. }
  unfold WndProcMainDialog, mbind, M_bind.
  destruct (restore_LastInput_run w) as [input ->]. exists input. reflexivity.
Qed.

(** X14: the search reads at most [MAXVALUELENTH] characters of the input
    control.  Two texts that agree on their first [MAXVALUELENTH] characters
    are searched alike: same verdict of the parser, same stored input, same
    calls, same report. *)
Theorem search_reads_MAXVALUELENTH_characters `{OS} (w : world)
    (text text' : wstring) :
  IDC_INPUT w = Some text ->
  take MAXVALUELENTH text' = take MAXVALUELENTH text ->
  search (with_input (Some text') w)
  = (tt, with_input (Some text') (search w).2).
Proof.
  intros Hi Htake. rewrite !search_run. cbn [snd]. f_equal.
  unfold after_search, written. cbn [IDC_INPUT with_input]. rewrite Hi.
  unfold GetWindowText. rewrite Htake.
  destruct (StrToIntEx (take MAXVALUELENTH text)) as [v|]; [|reflexivity].
  cbn [IDC_OUTPUT with_input tables queries].
  destruct (RegSetKeyValue_succeeds (take MAXVALUELENTH text));
    destruct (IDC_OUTPUT w); reflexivity.
Qed.

Lemma search_reads_MAXVALUELENTH_characters_witness :
  @search example_OS
    (with_input (Some (replicate 30 48 ++ L "xyz"))
       (opened (replicate 30 48 ++ L "1")))
  = (tt, with_input (Some (replicate 30 48 ++ L "xyz"))
           (@search example_OS (opened (replicate 30 48 ++ L "1"))).2).
Proof.
  exact (@search_reads_MAXVALUELENTH_characters example_OS
           (opened (replicate 30 48 ++ L "1")) (replicate 30 48 ++ L "1")
           (replicate 30 48 ++ L "xyz") eq_refl eq_refl).
Defined.

(** ** What a session leaves on display and in the registry *)

Section Session.
Context `{OS}.
Variables (output registry : option wstring).

Lemma in_step_after_search w :
  in_step output registry w -> in_step output registry (after_search w).
Proof.
  intros (Ht & Ho & Hreg & Hcase). unfold after_search.
  destruct (IDC_INPUT w) as [text|] eqn:Hi; [|repeat split; tauto].
  destruct (StrToIntEx (GetWindowText text)) as [v|] eqn:Hv;
    [|repeat split; tauto].
  assert (Hout : IDC_OUTPUT
            (match IDC_OUTPUT w with
             | Some _ =>
                 with_output (Some (report (tables w) (int32 v)))
                   (with_queries
                      (queries w ++ queries_of (tables w) (int32 v))
                      (written (GetWindowText text) w))
             | None =>
                 with_queries (queries w ++ queries_of (tables w) (int32 v))
                   (written (GetWindowText text) w)
             end)
            = (fun _ => report startup_globals (int32 v)) <$> output).
  { unfold written.
    destruct (IDC_OUTPUT w) as [o|] eqn:Hw, output as [o0|];
      destruct (RegSetKeyValue_succeeds (GetWindowText text));
      cbn [IDC_OUTPUT with_output with_queries with_LastInput fmap option_fmap
           option_map]; rewrite ?Hw, ?Ht; try reflexivity; exfalso.
    all: try (destruct (proj1 Ho) as [x Hx]; [eauto|discriminate Hx]).
    all: destruct (proj2 Ho) as [x Hx]; [eauto|discriminate Hx]. }
  assert (Hlast : LastInput
            (match IDC_OUTPUT w with
             | Some _ =>
                 with_output (Some (report (tables w) (int32 v)))
                   (with_queries
                      (queries w ++ queries_of (tables w) (int32 v))
                      (written (GetWindowText text) w))
             | None =>
                 with_queries (queries w ++ queries_of (tables w) (int32 v))
                   (written (GetWindowText text) w)
             end)
            = if RegSetKeyValue_succeeds (GetWindowText text)
              then Some (GetWindowText text) else LastInput w).
  { unfold written.
    destruct (IDC_OUTPUT w), (RegSetKeyValue_succeeds (GetWindowText text));
      reflexivity. }
  cbn zeta. split.
  { unfold written.
    destruct (IDC_OUTPUT w), (RegSetKeyValue_succeeds (GetWindowText text));
      exact Ht. }
  split.
  { rewrite Hout. destruct output; cbn [fmap option_fmap option_map];
      [split; intros _; eexists; reflexivity|reflexivity]. }
  split.
  - rewrite Hlast.
    destruct (RegSetKeyValue_succeeds (GetWindowText text)) eqn:Hok;
      [|exact Hreg].
    right. exists (GetWindowText text), v.
    split; [reflexivity|]. split; [apply GetWindowText_length|].
    split; [exact Hv|exact Hok].
  - right. exists (GetWindowText text), v.
    split; [apply GetWindowText_length|]. split; [exact Hv|].
    split; [exact Hout|]. rewrite Hlast.
    destruct (RegSetKeyValue_succeeds (GetWindowText text));
      [left; reflexivity|right; reflexivity].
Qed.

Lemma in_step_message msg w :
  in_step output registry w ->
  in_step output registry (WndProcMainDialog msg w).2.
Proof.
  intros Hw.
  destruct msg as [|[| | |]|]; try exact Hw;
    unfold WndProcMainDialog, mbind, M_bind.
  - destruct (restore_LastInput_run w) as [input ->]. exact Hw.
  - rewrite search_run. apply in_step_after_search. exact Hw.
  - rewrite search_run. apply in_step_after_search. exact Hw.
Qed.

Lemma in_step_messages msgs w :
  in_step output registry w ->
  in_step output registry
    (foldl (fun w msg => (WndProcMainDialog msg w).2) w msgs).
Proof.
  revert w. induction msgs as [|msg msgs IH]; intros w Hw; [exact Hw|].
  cbn [foldl]. apply IH, in_step_message, Hw.
Qed.

End Session.

(** X15: what a session leaves behind, after any sequence of messages.  The
    registry holds the value the session started with or a text of at most
    [MAXVALUELENTH] characters that the parser accepts and whose write
    succeeded.  Either no search has been accepted (registry and output are
    those of the start), or the output control, when there is one, shows the
    report of an accepted text of at most [MAXVALUELENTH] characters, and the
    registry holds exactly that text unless [RegSetKeyValue] failed on it.
    So on a machine where the write never fails the display and the stored
    input never disagree. *)
Theorem display_matches_stored_input `{OS}
    (input output registry : option wstring) (msgs : list message) :
  (LastInput (wWinMain input output registry msgs) = registry
   \/ exists s v,
        LastInput (wWinMain input output registry msgs) = Some s
        /\ (length s <= MAXVALUELENTH)%nat
        /\ StrToIntEx s = Some v
        /\ RegSetKeyValue_succeeds s = true)
  /\ ((LastInput (wWinMain input output registry msgs) = registry
       /\ IDC_OUTPUT (wWinMain input output registry msgs) = output)
      \/ exists s v,
           (length s <= MAXVALUELENTH)%nat
           /\ StrToIntEx s = Some v
           /\ IDC_OUTPUT (wWinMain input output registry msgs) =
                (fun _ => report startup_globals (int32 v)) <$> output
           /\ (LastInput (wWinMain input output registry msgs) = Some s
               \/ RegSetKeyValue_succeeds s = false))
  /\ ((forall s, RegSetKeyValue_succeeds s = true) ->
      (LastInput (wWinMain input output registry msgs) = registry
       /\ IDC_OUTPUT (wWinMain input output registry msgs) = output)
      \/ exists s v,
           LastInput (wWinMain input output registry msgs) = Some s
           /\ (length s <= MAXVALUELENTH)%nat
           /\ StrToIntEx s = Some v
           /\ IDC_OUTPUT (wWinMain input output registry msgs) =
                (fun _ => report startup_globals (int32 v)) <$> output).
Proof.
  assert (Hstep : in_step output registry (wWinMain input output registry msgs)).
  { unfold wWinMain, DialogBox. cbn [snd].
    apply (in_step_messages output registry msgs).
    split; [reflexivity|]. split; [reflexivity|].
    split; [left; reflexivity|]. left. split; reflexivity. }
  destruct Hstep as (_ & _ & Hreg & Hcase).
  split; [exact Hreg|]. split; [exact Hcase|].
  intros Hok. destruct Hcase as [Hstart|(s & v & Hlen & Hv & Hout & Hlast)];
    [left; exact Hstart|].
  right. exists s, v. destruct Hlast as [Hlast|Hfail].
  - repeat split; assumption.
  - rewrite Hok in Hfail. discriminate Hfail.
Qed.

(** On a machine whose registry cannot be written, the report is shown and
    the stored input stays what it was. *)
Example display_without_registry_write :
  IDC_OUTPUT (@wWinMain read_only_OS (Some (L "0x1A")) (Some []) (Some (L "7"))
                [WM_INITDIALOG; WM_COMMAND IDOK])
  = Some (L "DWORD \t7\r\nint \t7\r\nHex \t0x00000007\r\n\r\nLDAP: LDAP_AUTH_METHOD_NOT_SUPPORTED\r\n\r\nStopCode/BugCheck: INVALID_SOFTWARE_INTERRUPT")
  /\ LastInput (@wWinMain read_only_OS (Some (L "0x1A")) (Some [])
                  (Some (L "7")) [WM_INITDIALOG; WM_COMMAND IDOK])
     = Some (L "7").
Proof. split; vm_compute; reflexivity. Qed.


(** ** The brush of the output control *)

Lemma DeleteObject_only h : DeleteObject h [h] = [].
Proof. cbn [DeleteObject]. rewrite Z.eqb_refl. reflexivity. Qed.

Lemma one_brush_message msg s :
  one_brush s -> one_brush (WndProcMainDialog_paint msg s).2.
Proof.
  unfold one_brush. destruct s as [h live].
  cbn [g_hbrOutputBackground live_brushes]. intros Hs.
  destruct msg as [[|] created|]; cbn [WndProcMainDialog_paint
    g_hbrOutputBackground live_brushes].
  - destruct (h =? 0) eqn:Hnull; cbn [snd g_hbrOutputBackground live_brushes].
    + subst live. destruct (created =? 0); reflexivity.
    + rewrite Hnull. exact Hs.
  - cbn [snd g_hbrOutputBackground live_brushes]. exact Hs.
  - destruct (h =? 0) eqn:Hnull; cbn [snd g_hbrOutputBackground live_brushes].
    + rewrite Hnull. exact Hs.
    + subst live. apply DeleteObject_only.
Qed.

Lemma one_brush_run msgs s : one_brush s -> one_brush (paint_run msgs s).
Proof.
  unfold paint_run. revert s.
  induction msgs as [|msg msgs IH]; intros s Hs; [exact Hs|].
  cbn [foldl]. apply IH, one_brush_message, Hs.
Qed.

Lemma paint_run_snoc msgs msg s :
  paint_run (msgs ++ [msg]) s = (WndProcMainDialog_paint msg (paint_run msgs s)).2.
Proof. unfold paint_run. rewrite foldl_app. reflexivity. Qed.

(** X17: the brush of the output control does not leak.  After any sequence
    of [WM_CTLCOLORSTATIC] and [WM_DESTROY] messages, at most one brush is
    live and it is the one [g_hbrOutputBackground] holds; what
    [WM_CTLCOLORSTATIC] returns for the output control is that brush, or
    [NULL] when [CreateSolidBrush] failed, and for any other control
    [FALSE]; after [WM_DESTROY] no brush is live and the global is [NULL]. *)
Theorem output_brush_never_leaks (msgs : list paint_message) :
  (live_brushes (paint_run msgs gdi_init) =
   if g_hbrOutputBackground (paint_run msgs gdi_init) =? 0 then []
   else [g_hbrOutputBackground (paint_run msgs gdi_init)])
  /\ (length (live_brushes (paint_run msgs gdi_init)) <= 1)%nat
  /\ (forall created,
        (WndProcMainDialog_paint (WM_CTLCOLORSTATIC true created)
           (paint_run msgs gdi_init)).1
        = g_hbrOutputBackground
            (paint_run (msgs ++ [WM_CTLCOLORSTATIC true created]) gdi_init)
        /\ (WndProcMainDialog_paint (WM_CTLCOLORSTATIC false created)
              (paint_run msgs gdi_init)) = (0, paint_run msgs gdi_init))
  /\ paint_run (msgs ++ [WM_DESTROY]) gdi_init = gdi_init.
Proof.
  pose proof (one_brush_run msgs gdi_init eq_refl) as Hone.
  unfold one_brush in Hone.
  split; [exact Hone|].
  split; [rewrite Hone; destruct (_ =? 0); cbn [length]; lia|].
  split.
  - intros created. rewrite paint_run_snoc. split; [|reflexivity].
    cbn [WndProcMainDialog_paint].
    destruct (g_hbrOutputBackground (paint_run msgs gdi_init) =? 0);
      reflexivity.
  - rewrite paint_run_snoc. cbn [WndProcMainDialog_paint].
    destruct (paint_run msgs gdi_init) as [h live].
    cbn [g_hbrOutputBackground live_brushes] in *.
    destruct (h =? 0) eqn:Hnull; cbn [snd].
    + apply Z.eqb_eq in Hnull. subst. reflexivity.
    + subst live. rewrite DeleteObject_only. reflexivity.
Qed.

(** ** The filter of the input control *)

(** X18: what can be typed.  The input control lets a character through
    exactly when it is a control character, a hexadecimal digit of either
    case, the lower-case [x], or a minus ([-] or U+2212) typed at the start
    of the control; the upper-case [X] and a minus anywhere else are
    refused. *)
Theorem input_filter_characters (at_start : bool) (ch : Z) :
  (SignedIntegerHexSubclassProc_WM_CHAR at_start ch = true <->
   ch < 32
   \/ is_Some (hex_digit ch)
   \/ ch = 120
   \/ ((ch = 45 \/ ch = 0x2212) /\ at_start = true))
  /\ SignedIntegerHexSubclassProc_WM_CHAR at_start 88 = false
  /\ SignedIntegerHexSubclassProc_WM_CHAR false 45 = false
  /\ SignedIntegerHexSubclassProc_WM_CHAR false 0x2212 = false.
Proof.
  split; [|repeat split; destruct at_start; reflexivity].
  unfold SignedIntegerHexSubclassProc_WM_CHAR.
  destruct (ch <? 32) eqn:Hctl.
  { apply Z.ltb_lt in Hctl. split; [intros _; left; exact Hctl|reflexivity]. }
  apply Z.ltb_ge in Hctl.
  assert (Hset : wcschr (L "0123456789xabcdefABCDEF") ch = true <->
                 is_Some (hex_digit ch) \/ ch = 120).
  { split.
    - intros Hin. apply existsb_exists in Hin as (c & Hc & Heq).
      apply Z.eqb_eq in Heq. subst c. cbn [L In] in Hc.
      repeat (destruct Hc as [<-|Hc]; [first [right; reflexivity
                                             |left; eexists; reflexivity]|]).
      destruct Hc.
    - intros [[d Hd]| ->]; [|reflexivity].
      apply hex_digit_range in Hd.
      assert (Hc : ch = 48 \/ ch = 49 \/ ch = 50 \/ ch = 51 \/ ch = 52
                   \/ ch = 53 \/ ch = 54 \/ ch = 55 \/ ch = 56 \/ ch = 57
                   \/ ch = 65 \/ ch = 66 \/ ch = 67 \/ ch = 68 \/ ch = 69
                   \/ ch = 70 \/ ch = 97 \/ ch = 98 \/ ch = 99 \/ ch = 100
                   \/ ch = 101 \/ ch = 102) by lia.
      repeat (destruct Hc as [->|Hc]; [reflexivity|]). subst ch. reflexivity. }
  destruct (((ch =? 45) || (ch =? 0x2212)) && at_start) eqn:Hsign.
  - split; [|reflexivity]. intros _. right. right. right.
    apply andb_true_iff in Hsign as [Hm ->]. split; [|reflexivity].
    apply orb_true_iff in Hm as [Hm|Hm]; apply Z.eqb_eq in Hm; auto.
  - destruct (wcschr (L "0123456789xabcdefABCDEF") ch) eqn:Hw.
    + split; [|reflexivity]. intros _.
      destruct (proj1 Hset eq_refl) as [Hh| ->]; auto.
    + split; [discriminate|].
      intros [Hlt|[Hh|[Hx|[Hm Hs]]]].
      * lia.
      * discriminate (proj2 Hset (or_introl Hh)).
      * discriminate (proj2 Hset (or_intror Hx)).
      * subst at_start. rewrite andb_true_r in Hsign.
        apply orb_false_iff in Hsign as [H1 H2].
        apply Z.eqb_neq in H1, H2. destruct Hm; contradiction.
Qed.

(** ** No terminator inside the message *)

Lemma digit_char_not_NUL d : 0 <= d -> digit_char d <> 0.
Proof. unfold digit_char. intros Hd. destruct (d <? 10); lia. Qed.

Lemma decimal_not_NUL fuel n acc :
  Forall (fun c => c <> 0) acc -> Forall (fun c => c <> 0) (decimal fuel n acc).
Proof.
  revert n acc. induction fuel as [|fuel IH]; intros n acc Hacc; [exact Hacc|].
  assert (Hd : Forall (fun c => c <> 0) (digit_char (n mod 10) :: acc)).
  { constructor; [|exact Hacc]. apply digit_char_not_NUL.
    apply Z.mod_pos_bound. lia. }
  cbn [decimal]. destruct (n / 10 =? 0); [exact Hd|apply IH; exact Hd].
Qed.

Lemma hex_digits_not_NUL k v acc :
  Forall (fun c => c <> 0) acc -> Forall (fun c => c <> 0) (hex_digits k v acc).
Proof.
  revert v acc. induction k as [|k IH]; intros v acc Hacc; [exact Hacc|].
  cbn [hex_digits]. apply IH. constructor; [|exact Hacc].
  apply digit_char_not_NUL. apply Z.mod_pos_bound. lia.
Qed.

Lemma numeric_values_not_NUL v : Forall (fun c => c <> 0) (numeric_values v).
Proof.
  unfold numeric_values, snwprintf_0x08X, to_wstring_int, to_wstring_unsigned.
  assert (Hlit : forall s, bool_decide (Forall (fun c : Z => c <> 0) s) = true ->
                 Forall (fun c => c <> 0) s)
    by (intros s Hs; exact (bool_decide_eq_true_1 _ Hs)).
  repeat apply Forall_app_2; try (apply Hlit; reflexivity).
  - apply decimal_not_NUL. constructor.
  - destruct (v <? 0); [constructor; [discriminate|]|];
      apply decimal_not_NUL; constructor.
  - apply hex_digits_not_NUL. constructor.
Qed.

Lemma StrTrim_keeps (P : Z -> Prop) psz set :
  Forall P psz -> Forall P (StrTrim psz set).
Proof.
  intros Hall.
  destruct (StrTrim_split psz set) as (lead & trail & Hsplit & _).
  rewrite Hsplit in Hall. apply Forall_app in Hall as [_ Hall].
  apply Forall_app in Hall as [Hall _]. exact Hall.
Qed.

Lemma table_texts_not_NUL t v s :
  get_table t startup_globals !! v = Some s -> Forall (fun c => c <> 0) s.
Proof.
  assert (HF : map_Forall (fun _ s => Forall (fun c : Z => c <> 0) s)
                 (get_table t startup_globals))
    by (destruct t; apply (bool_decide_unpack _); vm_compute; exact I).
  intros Hs. exact (HF v s Hs).
Qed.

(** X19: the message has no terminator inside.  When the two descriptions of
    the System Message Provider hold no character 0 (they are C strings), the
    message built from the startup tables holds none either, so [c_str()]
    hands [SetWindowText] the whole message: nothing of a report is cut off
    on display. *)
Theorem message_has_no_embedded_terminator `{OS} (v : Z) (w : world) :
  tables w = startup_globals ->
  Forall (fun c => c <> 0) (FormatMessage_SYSTEM v) ->
  Forall (fun c => c <> 0) (FormatMessage_HMODULE v) ->
  Forall (fun c => c <> 0) (translate v w).1.
Proof.
  intros Ht Hsys Hnt. rewrite translate_run. cbn [fst]. unfold report.
  apply Forall_app_2; [apply numeric_values_not_NUL|].
  apply Forall_concat. apply Forall_fmap. apply Forall_forall.
  intros [s text] Hin. apply yield_hit in Hin. cbn [fst snd].
  unfold section. rewrite Ht in Hin.
  assert (Htext : Forall (fun c => c <> 0) text).
  { destruct s; cbn [yield] in Hin.
    - unfold genericStatusText in Hin.
      destruct (FormatMessage_SYSTEM v) as [|c d] eqn:E; [discriminate Hin|].
      cbn [nonempty fmap option_fmap option_map] in Hin. injection Hin as <-.
      apply StrTrim_keeps. exact Hsys.
    - unfold kernelStatusText in Hin.
      destruct GetModuleHandle_ntdll; [|discriminate Hin].
      destruct (FormatMessage_HMODULE v) as [|c d] eqn:E; [discriminate Hin|].
      cbn [nonempty fmap option_fmap option_map] in Hin. injection Hin as <-.
      apply StrTrim_keeps. exact Hnt.
    - exact (table_texts_not_NUL tWU v text Hin).
    - exact (table_texts_not_NUL tLDAP v text Hin).
    - exact (table_texts_not_NUL tBugCheck v text Hin). }
  repeat apply Forall_app_2; try exact Htext;
    try (apply (bool_decide_eq_true_1 _); reflexivity).
  destruct s; apply (bool_decide_eq_true_1 _); reflexivity.
Qed.

Lemma message_has_no_embedded_terminator_witness :
  Forall (fun c => c <> 0) (@translate example_OS 5 (opened (L "5"))).1.
Proof.
  apply (@message_has_no_embedded_terminator example_OS 5 (opened (L "5"))).
  - reflexivity.
  - vm_compute. repeat constructor; discriminate.
  - vm_compute. constructor.
Defined.

(** ** The header and the bit pattern *)

(** A text of digits is pinned by its length and the number it denotes. *)
Section ReadBack.
Variables (base : Z) (digit : wchar_t -> option Z) (P : wchar_t -> Prop).
Hypothesis base_positive : 0 < base.
Hypothesis digit_below_base : forall c d, digit c = Some d -> 0 <= d < base.
Hypothesis digit_one_char :
  forall c1 c2 d, P c1 -> P c2 -> digit c1 = Some d -> digit c2 = Some d ->
                  c1 = c2.

Lemma read_digits_bounds s a n :
  read_digits base digit s a = Some n ->
  a * base ^ Z.of_nat (length s) <= n < (a + 1) * base ^ Z.of_nat (length s).
Proof.
  revert a. induction s as [|c s IH]; intros a Hn.
  - cbn [read_digits] in Hn. injection Hn as <-. cbn [length].
    change (Z.of_nat 0) with 0. rewrite Z.pow_0_r. lia.
  - cbn [read_digits] in Hn. destruct (digit c) as [d|] eqn:Hd; [|discriminate].
    apply IH in Hn. apply digit_below_base in Hd.
    cbn [length]. rewrite Nat2Z.inj_succ, Z.pow_succ_r by lia.
    assert (0 < base ^ Z.of_nat (length s)) by (apply Z.pow_pos_nonneg; lia).
    nia.
Qed.

Lemma read_digits_same_length s1 s2 a1 a2 n :
  length s1 = length s2 ->
  Forall P s1 -> Forall P s2 ->
  read_digits base digit s1 a1 = Some n ->
  read_digits base digit s2 a2 = Some n ->
  a1 = a2 /\ s1 = s2.
Proof.
  revert s2 a1 a2.
  induction s1 as [|c1 s1 IH]; intros [|c2 s2] a1 a2 Hlen HP1 HP2 H1 H2;
    try discriminate Hlen.
  - cbn [read_digits] in H1, H2. split; [congruence|reflexivity].
  - cbn [read_digits] in H1, H2.
    destruct (digit c1) as [d1|] eqn:Hd1; [|discriminate].
    destruct (digit c2) as [d2|] eqn:Hd2; [|discriminate].
    apply Forall_cons in HP1 as [Hc1 HP1]. apply Forall_cons in HP2 as [Hc2 HP2].
    injection Hlen as Hlen.
    destruct (IH s2 _ _ Hlen HP1 HP2 H1 H2) as [Ha ->].
    pose proof (digit_below_base _ _ Hd1) as Hr1.
    pose proof (digit_below_base _ _ Hd2) as Hr2.
    assert (a1 = a2) by nia. subst a2.
    assert (d1 = d2) by lia. subst d2.
    split; [reflexivity|]. f_equal.
    exact (digit_one_char c1 c2 d1 Hc1 Hc2 Hd1 Hd2).
Qed.

End ReadBack.

Lemma dec_digit_below c d : dec_digit c = Some d -> 0 <= d < 10.
Proof.
  unfold dec_digit. destruct ((48 <=? c) && (c <=? 57)) eqn:E; [|discriminate].
  intros [= <-]. lia.
Qed.

Lemma dec_digit_one_char c1 c2 d :
  dec_digit c1 = Some d -> dec_digit c2 = Some d -> c1 = c2.
Proof.
  unfold dec_digit.
  destruct ((48 <=? c1) && (c1 <=? 57)); [|discriminate].
  destruct ((48 <=? c2) && (c2 <=? 57)); [|discriminate].
  intros [= <-] [= Heq]. lia.
Qed.

Lemma hex_digit_below c d : hex_digit c = Some d -> 0 <= d < 16.
Proof.
  unfold hex_digit.
  destruct ((48 <=? c) && (c <=? 57)) eqn:E1; [intros [= <-]; lia|].
  destruct ((65 <=? c) && (c <=? 70)) eqn:E2; [intros [= <-]; lia|].
  destruct ((97 <=? c) && (c <=? 102)) eqn:E3; [intros [= <-]; lia|].
  discriminate.
Qed.

Lemma hex_digit_one_upper_char c1 c2 d :
  is_upper_hex c1 = true -> is_upper_hex c2 = true ->
  hex_digit c1 = Some d -> hex_digit c2 = Some d -> c1 = c2.
Proof.
  unfold is_upper_hex, hex_digit. intros Hu1 Hu2.
  destruct ((48 <=? c1) && (c1 <=? 57)) eqn:A1;
    destruct ((65 <=? c1) && (c1 <=? 70)) eqn:B1; try discriminate Hu1;
    destruct ((48 <=? c2) && (c2 <=? 57)) eqn:A2;
    destruct ((65 <=? c2) && (c2 <=? 70)) eqn:B2; try discriminate Hu2;
    intros [= <-] [= Heq]; lia.
Qed.

(** The length of a canonical decimal text is the number of digits of what it
    denotes. *)
Lemma canonical_decimal_length u n :
  canonical_decimal u n ->
  (u = [48] /\ n = 0)
  \/ exists k, length u = S k
               /\ 10 ^ Z.of_nat k <= n < 10 ^ Z.of_nat (S k).
Proof.
  intros (Hne & Hzero & Hval). destruct u as [|c s]; [contradiction|].
  unfold dec_value in Hval. cbn [read_digits] in Hval.
  destruct (dec_digit c) as [d|] eqn:Hd; [|discriminate].
  pose proof (dec_digit_below _ _ Hd) as Hr.
  destruct (decide (d = 0)) as [->|Hd0].
  - left. assert (c = 48).
    { unfold dec_digit in Hd.
      destruct ((48 <=? c) && (c <=? 57)); [|discriminate].
      injection Hd as Hd. lia. }
    subst c. specialize (Hzero eq_refl). injection Hzero as ->.
    cbn [read_digits] in Hval. injection Hval as <-.
    split; reflexivity.
  - right. exists (length s). split; [reflexivity|].
    apply (read_digits_bounds 10 dec_digit) in Hval;
      [|lia|exact dec_digit_below].
    rewrite Nat2Z.inj_succ, Z.pow_succ_r by lia.
    assert (0 < 10 ^ Z.of_nat (length s)) by (apply Z.pow_pos_nonneg; lia).
    nia.
Qed.

(** So a number has one canonical decimal text. *)
Lemma canonical_decimal_unique u1 u2 n :
  canonical_decimal u1 n -> canonical_decimal u2 n -> u1 = u2.
Proof.
  intros H1 H2.
  destruct (canonical_decimal_length _ _ H1) as [[-> Hn1]|(k1 & Hl1 & Hb1)];
    destruct (canonical_decimal_length _ _ H2) as [[-> Hn2]|(k2 & Hl2 & Hb2)].
  - reflexivity.
  - assert (0 < 10 ^ Z.of_nat k2) by (apply Z.pow_pos_nonneg; lia). lia.
  - assert (0 < 10 ^ Z.of_nat k1) by (apply Z.pow_pos_nonneg; lia). lia.
  - assert (Hk : k1 = k2).
    { destruct (Nat.lt_trichotomy k1 k2) as [Hlt|[Heq|Hgt]]; [|exact Heq|].
      - assert (10 ^ Z.of_nat (S k1) <= 10 ^ Z.of_nat k2)
          by (apply Z.pow_le_mono_r; lia). lia.
      - assert (10 ^ Z.of_nat (S k2) <= 10 ^ Z.of_nat k1)
          by (apply Z.pow_le_mono_r; lia). lia. }
    subst k2. destruct H1 as (_ & _ & Hv1), H2 as (_ & _ & Hv2).
    apply (read_digits_same_length 10 dec_digit (fun _ => True)
             ltac:(lia) dec_digit_below
             (fun c1 c2 d _ _ => dec_digit_one_char c1 c2 d)
             u1 u2 0 0 n); try assumption.
    + congruence.
    + apply Forall_true. intros _. exact I.
    + apply Forall_true. intros _. exact I.
Qed.

Lemma canonical_signed_unique i1 i2 v :
  canonical_signed i1 v -> canonical_signed i2 v -> i1 = i2.
Proof.
  unfold canonical_signed. destruct (v <? 0).
  - intros (m1 & -> & H1) (m2 & -> & H2). f_equal.
    exact (canonical_decimal_unique _ _ _ H1 H2).
  - apply canonical_decimal_unique.
Qed.

(** The text of a number that is not 0 starts with a digit that is not 0. *)
Lemma decimal_leading_digit fuel n acc :
  0 < n < 10 ^ Z.of_nat fuel ->
  exists d s, decimal fuel n acc = digit_char d :: s /\ 1 <= d < 10.
Proof.
  revert n acc. induction fuel as [|fuel IH]; intros n acc Hn.
  - change (10 ^ Z.of_nat 0) with 1 in Hn. lia.
  - rewrite decimal_S.
    assert (Hn' : n = 10 * (n / 10) + n mod 10) by (apply Z.div_mod; lia).
    pose proof (Z.mod_pos_bound n 10 ltac:(lia)) as Hm.
    destruct (n / 10 =? 0) eqn:Hq.
    + apply Z.eqb_eq in Hq. exists (n mod 10), acc.
      split; [reflexivity|lia].
    + apply Z.eqb_neq in Hq. apply IH.
      rewrite Nat2Z.inj_succ, Z.pow_succ_r in Hn by lia.
      assert (0 <= n / 10) by (apply Z.div_pos; lia).
      split; [lia|]. apply Z.div_lt_upper_bound; lia.
Qed.

Lemma to_wstring_unsigned_canonical n :
  0 <= n < 2 ^ 32 -> canonical_decimal (to_wstring_unsigned n) n.
Proof.
  intros Hn. destruct (decide (n = 0)) as [->|Hn0].
  - split; [discriminate|]. split; reflexivity.
  - destruct (decimal_leading_digit 10 n []) as (d & s & Hs & Hd).
    { change (10 ^ Z.of_nat 10) with 10000000000. lia. }
    unfold canonical_decimal, to_wstring_unsigned. rewrite Hs.
    split; [discriminate|]. split.
    + cbn [head]. unfold digit_char. destruct (d <? 10); intros [= Heq]; lia.
    + rewrite <- Hs. apply dec_value_to_wstring_unsigned. exact Hn.
Qed.

Lemma to_wstring_int_canonical v :
  is_int v -> canonical_signed (to_wstring_int v) v.
Proof.
  unfold is_int, canonical_signed, to_wstring_int. intros Hv.
  destruct (v <? 0) eqn:Hneg.
  - apply Z.ltb_lt in Hneg. eexists. split; [reflexivity|].
    apply to_wstring_unsigned_canonical. lia.
  - apply Z.ltb_ge in Hneg. apply to_wstring_unsigned_canonical. lia.
Qed.

Lemma forallb_Forall_true {A : Type} (f : A -> bool) (l : list A) :
  forallb f l = true -> Forall (fun x => f x = true) l.
Proof.
  induction l as [|a l IH]; [constructor|].
  cbn [forallb]. intros [Ha Hl]%andb_true_iff. constructor; auto.
Qed.

(** Eight upper-case hexadecimal digits are pinned by what they denote. *)
Lemma upper_hex_unique h1 h2 n :
  length h1 = length h2 ->
  forallb is_upper_hex h1 = true -> forallb is_upper_hex h2 = true ->
  hex_value h1 = Some n -> hex_value h2 = Some n -> h1 = h2.
Proof.
  intros Hlen Hu1 Hu2 Hv1 Hv2.
  apply (read_digits_same_length 16 hex_digit (fun c => is_upper_hex c = true)
           ltac:(lia) hex_digit_below hex_digit_one_upper_char h1 h2 0 0 n);
    auto using forallb_Forall_true.
Qed.

(** The report, source by source. *)
Lemma report_sections `{OS} (g : globals) (v : Z) :
  report g v =
  numeric_values v ++ system_sections v
    ++ from_option (section WU) [] (g_mWU g !! v)
    ++ from_option (section LDAP) [] (g_mLDAP g !! v)
    ++ from_option (section StopCode_BugCheck) [] (g_mBugCheck g !! v).
Proof.
  unfold report, system_sections. rewrite hits_split.
  cbn [omap list_omap]. unfold yield.
  destruct (genericStatusText v), (kernelStatusText v),
    (g_mWU g !! v), (g_mLDAP g !! v), (g_mBugCheck g !! v);
    cbn [fmap option_fmap option_map from_option map concat fst snd app];
    rewrite ?app_nil_r, <- ?app_assoc; reflexivity.
Qed.

(** The section of a startup table for an [int] is the one of the last
    assignment under its bit pattern. *)
Lemma startup_section (s : source) (t : table) (v : Z) :
  is_int v ->
  from_option (section s) [] (get_table t startup_globals !! v) =
  section_by_pattern s t v.
Proof.
  intros Hv. unfold section_by_pattern.
  rewrite startup_table, assign_all_lookup, lookup_empty.
  rewrite (filter_ext_in (fun d : Z * wstring => int32 d.1 = v)
             (fun d : Z * wstring => d.1 = DWORD v)).
  - destruct (last _); reflexivity.
  - intros d Hd. apply int32_bit_pattern; [|exact Hv].
    exact (literals_are_32_bit t d Hd).
Qed.

Lemma startup_without_0xFFFFFFFF t : get_table t startup_globals !! (-1) = None.
Proof. destruct t; vm_compute; reflexivity. Qed.

(** C5: for the input [-1], parsed as -1, what the program shows is the
    header [DWORD 4294967295], [int -1], [Hex 0xFFFFFFFF] followed by the
    sections of the System Message Provider only, and each of the three
    tables is asked once, for the key that the literal [0xFFFFFFFF] narrows
    to.  In general, for an [int] [v], the header is made of the one decimal
    text without sign or leading zero that denotes [v mod 2^32], the one
    decimal text that denotes [v] (a minus sign and the magnitude when [v] is
    negative), and [0x] followed by the one text of eight upper-case
    hexadecimal digits that denotes [v mod 2^32]; and the section of each
    table is there exactly when the source assigns under the 32-bit literal
    [v mod 2^32], the bit pattern of [v], with the text of the last such
    assignment. *)
Theorem header_and_bit_pattern_lookup `{OS} (w : world) (v : Z) :
  StrToIntEx (L "-1") = Some (-1) ->
  IDC_INPUT w = Some (L "-1") ->
  is_Some (IDC_OUTPUT w) ->
  tables w = startup_globals ->
  is_int v ->
  IDC_OUTPUT (search w).2 =
    Some (L "DWORD \t4294967295\r\nint \t-1\r\nHex \t0xFFFFFFFF"
            ++ system_sections (-1))
  /\ (exists sys,
        queries (search w).2 =
          queries w ++ sys
            ++ [Q_count tWU (int32 0xFFFFFFFF);
                Q_count tLDAP (int32 0xFFFFFFFF);
                Q_count tBugCheck (int32 0xFFFFFFFF)]
        /\ forall q t k, q ∈ sys -> q <> Q_count t k /\ q <> Q_subscript t k)
  /\ (exists u i h,
        numeric_values v =
          L "DWORD \t" ++ u ++ L "\r\nint \t" ++ i ++ L "\r\nHex \t0x" ++ h
        /\ canonical_decimal u (DWORD v)
        /\ canonical_signed i v
        /\ (length h = 8%nat
            /\ forallb is_upper_hex h = true
            /\ hex_value h = Some (DWORD v))
        /\ (forall u', canonical_decimal u' (DWORD v) -> u' = u)
        /\ (forall i', canonical_signed i' v -> i' = i)
        /\ (forall h',
              length h' = 8%nat ->
              forallb is_upper_hex h' = true ->
              hex_value h' = Some (DWORD v) -> h' = h))
  /\ (translate v w).1 =
       numeric_values v ++ system_sections v
         ++ section_by_pattern WU tWU v
         ++ section_by_pattern LDAP tLDAP v
         ++ section_by_pattern StopCode_BugCheck tBugCheck v.
Proof.
  intros Hparse Hin [out Hout] Htables Hv.
  assert (Hafter : after_search w =
            with_output (Some (report (tables w) (-1)))
              (with_queries (queries w ++ queries_of (tables w) (-1))
                 (written (L "-1") w))).
  { unfold after_search. rewrite Hin.
    change (GetWindowText (L "-1")) with (L "-1").
    rewrite Hparse, Hout. reflexivity. }
  rewrite search_run. cbn [snd]. rewrite Hafter.
  split.
  { cbn [IDC_OUTPUT with_output]. rewrite Htables, report_sections.
    rewrite (startup_without_0xFFFFFFFF tWU : g_mWU _ !! _ = _),
      (startup_without_0xFFFFFFFF tLDAP : g_mLDAP _ !! _ = _),
      (startup_without_0xFFFFFFFF tBugCheck : g_mBugCheck _ !! _ = _).
    cbn [from_option]. rewrite !app_nil_r. reflexivity. }
  split.
  { exists ([Q_FormatMessage_SYSTEM (-1); Q_GetModuleHandle]
            ++ (if GetModuleHandle_ntdll
                then [Q_GetModuleHandle; Q_FormatMessage_HMODULE (-1)]
                else [])).
    split.
    - assert (Hq : queries
                (with_output (Some (report (tables w) (-1)))
                   (with_queries (queries w ++ queries_of (tables w) (-1))
                      (written (L "-1") w)))
                = queries w ++ queries_of (tables w) (-1)) by reflexivity.
      rewrite Hq, Htables. unfold queries_of. cbn [flat_map].
      rewrite (startup_without_0xFFFFFFFF tWU),
        (startup_without_0xFFFFFFFF tLDAP),
        (startup_without_0xFFFFFFFF tBugCheck).
      change (int32 0xFFFFFFFF) with (-1). rewrite <- !app_assoc.
      reflexivity.
    - intros q t k Hq. apply list_elem_of_In in Hq.
      destruct GetModuleHandle_ntdll; cbn [app In] in Hq;
        split; intros ->; intuition discriminate. }
  split.
  { assert (Hd : 0 <= DWORD v < 2 ^ 32) by (apply Z.mod_pos_bound; lia).
    assert (Hhex : hex_value (hex_digits 8 (DWORD v) []) = Some (DWORD v)).
    { unfold hex_value. rewrite read_hex_digits by lia. cbn [read_digits].
      f_equal. change (16 ^ Z.of_nat 8) with (2 ^ 32).
      rewrite Z.mod_small by exact Hd. lia. }
    exists (to_wstring_unsigned (DWORD v)), (to_wstring_int v),
      (hex_digits 8 (DWORD v) []).
    split.
    { unfold numeric_values, snwprintf_0x08X. rewrite <- !app_assoc.
      reflexivity. }
    split; [apply to_wstring_unsigned_canonical; exact Hd|].
    split; [apply to_wstring_int_canonical; exact Hv|].
    split.
    { split; [apply hex_digits_length|].
      split; [apply hex_digits_upper; reflexivity|exact Hhex]. }
    split.
    { intros u' Hu'. apply (canonical_decimal_unique _ _ (DWORD v) Hu').
      apply to_wstring_unsigned_canonical. exact Hd. }
    split.
    { intros i' Hi'. apply (canonical_signed_unique _ _ v Hi').
      apply to_wstring_int_canonical. exact Hv. }
    intros h' Hlen Hup Hval.
    apply (upper_hex_unique h' (hex_digits 8 (DWORD v) []) (DWORD v));
      [rewrite hex_digits_length; exact Hlen|exact Hup
      |apply hex_digits_upper; reflexivity|exact Hval|exact Hhex]. }
  rewrite translate_run. cbn [fst]. rewrite Htables, report_sections.
  rewrite <- (startup_section WU tWU v Hv),
    <- (startup_section LDAP tLDAP v Hv),
    <- (startup_section StopCode_BugCheck tBugCheck v Hv).
  reflexivity.
Qed.

Lemma header_and_bit_pattern_lookup_witness :
  IDC_OUTPUT (@search example_OS (opened (L "-1"))).2 =
    Some (L "DWORD \t4294967295\r\nint \t-1\r\nHex \t0xFFFFFFFF"
            ++ @system_sections example_OS (-1))
  /\ (@translate example_OS (-2145124351) (opened (L "-1"))).1 =
       numeric_values (-2145124351)
         ++ @system_sections example_OS (-2145124351)
         ++ section_by_pattern WU tWU (-2145124351)
         ++ section_by_pattern LDAP tLDAP (-2145124351)
         ++ section_by_pattern StopCode_BugCheck tBugCheck (-2145124351).
Proof.
  destruct (@header_and_bit_pattern_lookup example_OS (opened (L "-1"))
              (-2145124351) eq_refl eq_refl) as (Hout & _ & _ & Hmsg).
  - eexists; reflexivity.
  - reflexivity.
  - unfold is_int. lia.
  - split; [exact Hout|exact Hmsg].
Defined.
